(** * BoursoBankScrap: a shallow embedding of [BoursoBankScrap.py]

    The script logs into a banking portal whose login form is protected by a
    scrambled on-screen keypad, then downloads a CSV export of transactions.
    This development embeds the helpers ([extract_token_from_login],
    [build_encoded_password]), the body of [main] and the [__main__] block,
    and proves properties of them.

    Conventions of the embedding.
    - A Python [str] is a [string]; each character is a code point below 256.
      [isdigit], [isspace] and [int] follow Python on that range.
    - A Python [dict] is a [gmap]; the signature table and the keypad mapping
      have [int] keys, modelled by [Z].
    - A document built by BeautifulSoup is a tree of tags; text nodes play no
      part in the calls the script makes and are left out.
    - Exceptions and the early [return]s of [main] are explicit outcomes;
      every call of an external collaborator (HTTP, console, pandas, files)
      is recorded in a trace of events, also when the call raises: a request
      that fails, a text that does not parse, a file that cannot be
      written. *)

From Stdlib Require Import ZArith Ascii String List Lia.
From stdpp Require Import base option list strings gmap pretty.

Local Open Scope string_scope.
Local Open Scope Z_scope.

(** ** Python strings *)

Module PyStr.

(** Code point of a character. *)
Definition ord (ch : ascii) : Z := Z.of_nat (nat_of_ascii ch).

(** [ch.isdigit()] below 256: the ASCII digits and the superscripts
    U+00B2, U+00B3, U+00B9. *)
Definition char_isdigit (ch : ascii) : bool :=
  let c := ord ch in
  ((48 <=? c) && (c <=? 57)) || (c =? 178) || (c =? 179) || (c =? 185).

(** [ch.isspace()] below 256: TAB..CR, FS..US, SPACE, NEL and NBSP. *)
Definition char_isspace (ch : ascii) : bool :=
  let c := ord ch in
  ((9 <=? c) && (c <=? 13)) || ((28 <=? c) && (c <=? 32))
  || (c =? 133) || (c =? 160).

Fixpoint all_chars (p : ascii -> bool) (s : string) : bool :=
  match s with
  | EmptyString => true
  | String ch rest => p ch && all_chars p rest
  end.

(** [s.isdigit()]: every character is a digit and there is at least one. *)
Definition isdigit (s : string) : bool :=
  match s with
  | EmptyString => false
  | _ => all_chars char_isdigit s
  end.

(** [len(s)] *)
Definition len (s : string) : Z := Z.of_nat (String.length s).

(** [s.startswith(p)] *)
Definition startswith (p s : string) : bool := String.prefix p s.

(** [needle in hay] *)
Fixpoint contains (needle hay : string) : bool :=
  String.prefix needle hay
  || match hay with
     | EmptyString => false
     | String _ rest => contains needle rest
     end.

Fixpoint lstrip (s : string) : string :=
  match s with
  | EmptyString => EmptyString
  | String ch rest => if char_isspace ch then lstrip rest else s
  end.

Fixpoint rstrip (s : string) : string :=
  match s with
  | EmptyString => EmptyString
  | String ch rest =>
      match rstrip rest with
      | EmptyString => if char_isspace ch then EmptyString
                       else String ch EmptyString
      | r => String ch r
      end
  end.

(** [s.strip()] *)
Definition strip (s : string) : string := rstrip (lstrip s).

(** [s[:n]] *)
Definition take (n : nat) (s : string) : string := String.substring 0 n s.

(** [s * n] *)
Fixpoint repeat (s : string) (n : nat) : string :=
  match n with
  | O => EmptyString
  | S k => s +:+ repeat s k
  end.

(** [sep.join(l)] *)
Definition join (sep : string) (l : list string) : string :=
  String.concat sep l.

(** The characters of a string, as iterating over it yields them. *)
Fixpoint chars (s : string) : list ascii :=
  match s with
  | EmptyString => []
  | String ch rest => ch :: chars rest
  end.

(** [int(ch)] on a one-character string: its value for a decimal digit,
    [None] where Python raises [ValueError]. Below 256 the decimal digits
    are the ASCII ones (the superscripts are digits for [isdigit] only);
    those beyond, which [int] accepts as well, are no characters of this
    embedding. *)
Definition int_of_char (ch : ascii) : option Z :=
  let c := ord ch in
  if (48 <=? c) && (c <=? 57) then Some (c - 48) else None.

(** [s.lower()] below 256: A..Z and the accented capitals U+00C0..U+00DE
    (but the multiplication sign U+00D7) move up by 32. *)
Definition char_lower (ch : ascii) : ascii :=
  let c := ord ch in
  if ((65 <=? c) && (c <=? 90))
     || ((192 <=? c) && (c <=? 222) && negb (c =? 215))
  then ascii_of_nat (Z.to_nat (c + 32)) else ch.

Fixpoint lower (s : string) : string :=
  match s with
  | EmptyString => EmptyString
  | String ch rest => String (char_lower ch) (lower rest)
  end.

(** Truthiness of a string: [""] is falsy. *)
Definition nonempty (s : string) : bool :=
  match s with
  | EmptyString => false
  | String _ _ => true
  end.

(** Truthiness of an optional string ([None] and [""] are falsy). *)
Definition truthy (o : option string) : bool :=
  match o with
  | Some (String _ _) => true
  | _ => false
  end.

End PyStr.

(** ** Exceptions and results *)

Inductive exn : Type :=
| ValueError (msg : string)
| TypeError (msg : string)
| UnboundLocalError (name : string)
| HTTPError (status : Z)
| RequestException
| ParserError
| OSError (filename : string)
| SystemExit (code : Z).


Inductive result (A : Type) : Type :=
| Ok (a : A)
| Raise (e : exn).
Arguments Ok {A} a.
Arguments Raise {A} e.

(** ** The Credential Encoder: [build_encoded_password] *)

Definition no_mapping_msg (d : Z) : string :=
  "No mapping for digit " +:+ pretty d +:+ ".".

(** The message of the [ValueError] of [int(ch)]; Python prints [repr(ch)],
    whose escapes are not reproduced here. *)
Definition invalid_literal_msg (ch : ascii) : string :=
  "invalid literal for int() with base 10: '" +:+ String ch "'".

(** The [for ch in numeric_password] loop, [groups] being the list built so
    far. *)
Fixpoint encode_loop (digit_to_group : gmap Z string) (groups : list string)
    (rest : list ascii) : result (list string) :=
  match rest with
  | [] => Ok groups
  | ch :: rest' =>
      match PyStr.int_of_char ch with
      | None => Raise (ValueError (invalid_literal_msg ch))
      | Some d =>
          match digit_to_group !! d with
          | None => Raise (ValueError (no_mapping_msg d))
          | Some group => encode_loop digit_to_group (groups ++ [group])%list rest'
          end
      end
  end.

Definition build_encoded_password (numeric_password : string)
    (digit_to_group : gmap Z string) : result string :=
  match encode_loop digit_to_group [] (PyStr.chars numeric_password) with
  | Ok groups => Ok (PyStr.join "|" groups)
  | Raise e => Raise e
  end.

(** The mapping of the end-to-end scenario. *)
Definition scenario_mapping : gmap Z string :=
  <[1:="AAA"]> (<[2:="BBB"]> (<[3:="CCC"]> (<[4:="DDD"]> (<[5:="EEE"]>
  (<[6:="FFF"]> (<[7:="GGG"]> (<[8:="HHH"]> ∅))))))).

(** ** Documents as BeautifulSoup builds them *)

#[warnings="-register-all"]
Inductive tag : Type :=
| Tag (name : string) (attrs : list (string * string)) (children : list tag).

Definition tag_name (t : tag) : string := let 'Tag n _ _ := t in n.
Definition tag_attrs (t : tag) : list (string * string) :=
  let 'Tag _ a _ := t in a.
Definition tag_children (t : tag) : list tag := let 'Tag _ _ c := t in c.

(** [t.get(key)] *)
Fixpoint attr_lookup (key : string) (attrs : list (string * string))
    : option string :=
  match attrs with
  | [] => None
  | (k, v) :: rest => if String.eqb k key then Some v else attr_lookup key rest
  end.

Definition get (t : tag) (key : string) : option string :=
  attr_lookup key (tag_attrs t).

(** The tags below [t], in document order. *)
Fixpoint descendants (t : tag) : list tag :=
  match t with
  | Tag _ _ cs => flat_map (fun c => c :: descendants c) cs
  end.

(** A parsed document: its top-level tags. *)
Definition soup : Type := list tag.

Definition all_tags (doc : soup) : list tag :=
  flat_map (fun c => c :: descendants c) doc.

(** [doc.find(...)]: the first tag, in document order, that matches. *)
Definition soup_find (p : tag -> bool) (doc : soup) : option tag :=
  List.find p (all_tags doc).

(** [t.find(name)] *)
Definition tag_find (p : tag -> bool) (t : tag) : option tag :=
  List.find p (descendants t).

(** [doc.select("[attr]")]: the tags carrying attribute [attr], in document
    order, each paired with the value of that attribute. *)
Definition select_attr (attr : string) (doc : soup) : list (tag * string) :=
  omap (fun t => match get t attr with
                 | Some v => Some (t, v)
                 | None => None
                 end) (all_tags doc).

(** The tags matched by a descendant selector [anc leaf] below [t], in
    document order; [inside] tells whether an ancestor already matched
    [anc]. *)
Fixpoint select_below (anc leaf : tag -> bool) (inside : bool) (t : tag)
    : list tag :=
  match t with
  | Tag _ _ cs =>
      ((if inside && leaf t then [t] else [])
       ++ flat_map (select_below anc leaf (inside || anc t)) cs)%list
  end.

(** [doc.select_one("anc leaf")] *)
Definition select_one_below (anc leaf : tag -> bool) (doc : soup)
    : option tag :=
  head (flat_map (select_below anc leaf false) doc).

Definition has_name (n : string) (t : tag) : bool := String.eqb (tag_name t) n.

Definition attr_is (key value : string) (t : tag) : bool :=
  match get t key with
  | Some v => String.eqb v value
  | None => false
  end.

Definition attr_search (key pattern : string) (t : tag) : bool :=
  match get t key with
  | Some v => PyStr.contains pattern v
  | None => false
  end.

(** ** The Token Extractor: [extract_token_from_login], on the parsed page *)

Definition token_of_soup (doc : soup) : option string :=
  let fallback :=
    match soup_find (fun t => has_name "input" t && attr_is "name" "_token" t)
            doc with
    | Some token_input =>
        if PyStr.truthy (get token_input "value")
        then get token_input "value" else None
    | None => None
    end in
  match soup_find (fun t => has_name "input" t
                            && attr_search "name" "form[_token]" t) doc with
  | Some token_input =>
      if PyStr.truthy (get token_input "value")
      then get token_input "value" else fallback
  | None => fallback
  end.

(** ** Configuration *)

Definition BASE : string := "https://clients.boursobank.com".
Definition LOGIN_PAGE : string := BASE +:+ "/connexion/".
Definition CLAVIER_URL : string :=
  BASE +:+ "/connexion/clavier-virtuel?_hinclude=1".
Definition PASSWORD_POST : string := BASE +:+ "/connexion/saisie-mot-de-passe".
Definition EXPORT_URL : string := BASE +:+ "/budget/exporter-mouvements".
Definition BUDGET_URL : string := BASE +:+ "/mon-budget/generate".
Definition OUTPUT_FOLDER : string := "output".
Definition SAVE_FILE : string := OUTPUT_FOLDER +:+ "/last_run.txt".
Definition version : string := "1.0.0".

(** The Signature Table: length of a key's image reference -> digit. *)
Definition B64_SVG_LEN_MAP : gmap Z Z :=
  <[419:=0]> (<[259:=1]> (<[1131:=2]> (<[979:=3]> (<[763:=4]> (<[839:=5]>
  (<[1075:=6]> (<[1359:=7]> (<[1023:=8]> (<[1047:=9]> ∅))))))))).

(** ** The world outside the script *)

(** A naive [datetime], as microseconds since an epoch; a [timedelta] is a
    difference of two such numbers. *)
Inductive datetime : Type := Datetime (us : Z).

Definition micros (d : datetime) : Z := let 'Datetime us := d in us.
Definition us_per_day : Z := 86400000000.

(** [d - timedelta(days=n)] *)
Definition minus_days (d : datetime) (n : Z) : datetime :=
  Datetime (micros d - n * us_per_day).

(** [(a - b).days] *)
Definition diff_days (a b : datetime) : Z := (micros a - micros b) / us_per_day.

(** A pandas [DataFrame], as rows of cells. *)
Inductive dataframe : Type := DataFrame (rows : list (list string)).

(** What a [requests] response exposes to the script. *)
Record Response : Type := mkResponse {
  status_code : Z;
  text : string;
  content_type : option string   (* headers.get("Content-Type") *)
}.

(** The library functions the script calls and this development does not
    look into. *)
Record Externals : Type := mkExternals {
  (* BeautifulSoup(text, "html.parser") *)
  html_parser : string -> soup;
  (* group 1 of re.search of the __brs_mit assignment pattern in text *)
  search_brs_mit : string -> option string;
  (* group val of re.search of the matrixRandomChallenge pattern in text *)
  search_challenge : string -> option string;
  (* d.strftime(fmt) *)
  strftime : datetime -> string -> string;
  (* d.isoformat() *)
  isoformat : datetime -> string;
  (* datetime.fromisoformat(s) on a str; None stands for ValueError *)
  fromisoformat_str : string -> option datetime;
  (* str(d), str(a - b) *)
  str_datetime : datetime -> string;
  str_timedelta : Z -> string;
  (* pd.read_csv(io.StringIO(body), sep=...); None stands for an exception *)
  read_csv : string -> option string -> option dataframe;
  (* df.head().to_string(index=False) *)
  head_to_string : dataframe -> string
}.

(** What the script finds at the path of a file it reads. *)
Inductive file_state : Type :=
| Absent                       (* os.path.exists is False *)
| Unreadable                   (* it exists and open(..., "r") raises *)
| Content (s : string).

(** One run's environment. Every request of the script is made at most once,
    so the answer to each is a field: [None] when [requests] raises (no
    connection, timeout), the response otherwise. The clock is read at five
    places. The file system says, for each path the script writes to, whether
    the call goes through or raises [OSError] (a missing directory, a path
    that is a directory, no permission, a full disk). *)
Record World : Type := mkWorld {
  resp_login_1 : option Response;
  resp_login_2 : option Response;
  resp_clavier : option Response;
  post_resp : option Response;
  resp_budget : option Response;
  csv_resp : option Response;
  today_startup : datetime;       (* line 319 *)
  today_default_from : datetime;  (* line 329 *)
  today_throttle : datetime;      (* line 340 *)
  today_to_date : datetime;       (* line 101 *)
  today_saved : datetime;         (* line 315 *)
  save_file : file_state;         (* SAVE_FILE as the script finds it *)
  makedirs_ok : bool;             (* os.makedirs(OUTPUT_FOLDER) goes through *)
  writable : string -> bool;      (* df.to_csv(path), open(path, "w") *)
  cwd : string;
  script_dir : string
}.

(** ** Effects *)

Inductive event : Type :=
| Debug (msg : string)                      (* debug(msg) *)
| PrintErr (msg : string)                   (* print(msg, file=sys.stderr) *)
| Print (msg : string)                      (* print(msg) *)
| HeadersUpdate (name value : string)       (* session.headers.update *)
| CookieSet (name value : string)           (* session.cookies.set *)
| HttpGet (url : string) (params : list (string * string))
| HttpPost (url : string) (data : list (string * option string))
    (headers : list (string * string))
| ReadCsv (body : string) (sep : option string)
| ToCsv (path : string) (df : dataframe)    (* df.to_csv(path) *)
| MakeDirs (path : string)                  (* os.makedirs(path) *)
| WriteFile (path content : string).        (* open(path, "w"), f.write *)

(** How a piece of the script ends: with a value, by a [return] out of
    [main], or by an exception. *)
Inductive outcome (A : Type) : Type :=
| Val (a : A)
| Returned
| Raised (e : exn).
Arguments Val {A} a.
Arguments Returned {A}.
Arguments Raised {A} e.

(** A computation: the events it caused, in order, and how it ended. *)
Definition M (A : Type) : Type := (list event * outcome A)%type.

#[global] Instance M_ret : MRet M := fun A a => ([], Val a).

#[global] Instance M_bind : MBind M := fun A B k m =>
  match m with
  | (t, Val a) => let '(t', o) := k a in (app t t', o)
  | (t, Returned) => (t, Returned)
  | (t, Raised e) => (t, Raised e)
  end.

Definition emit (e : event) : M unit := ([e], Val tt).
Definition debug (msg : string) : M unit := emit (Debug msg).
Definition print_err (msg : string) : M unit := emit (PrintErr msg).
Definition print (msg : string) : M unit := emit (Print msg).
Definition py_return {A} : M A := ([], Returned).
Definition raise {A} (e : exn) : M A := ([], Raised e).

Definition trace {A} (m : M A) : list event := fst m.
Definition ending {A} (m : M A) : outcome A := snd m.

(** [session.get(url, params=params)] answered by [r]. *)
Definition session_get (url : string) (params : list (string * string))
    (r : option Response) : M Response :=
  emit (HttpGet url params) ;;
  match r with
  | Some resp => mret resp
  | None => raise RequestException
  end.

(** [session.post(url, data=data, headers=headers)] answered by [r]. *)
Definition session_post (url : string) (data : list (string * option string))
    (headers : list (string * string)) (r : option Response) : M Response :=
  emit (HttpPost url data headers) ;;
  match r with
  | Some resp => mret resp
  | None => raise RequestException
  end.

(** [resp.raise_for_status()] *)
Definition raise_for_status (resp : Response) : M unit :=
  if (400 <=? status_code resp) && (status_code resp <? 600)
  then raise (HTTPError (status_code resp))
  else mret tt.

(** [str(e)] for the exceptions that carry a message. *)
Definition str_exn (e : exn) : string :=
  match e with
  | ValueError msg | TypeError msg => msg
  | _ => EmptyString
  end.

(** ** The Keypad Decoder: the loop over the keys *)

Definition unknown_len_msg (path_len : Z) : string :=
  "Unknown img/path length: " +:+ pretty path_len
  +:+ ". You may need to update B64_SVG_LEN_MAP.".

(** The [for btn in soup.select(...)] loop. [path_len] is the local variable
    of that name: [None] while it is unbound, and whatever the last key with
    an image left in it afterwards. Each key comes with its [matrix_key]. *)
Fixpoint decode_loop (table : gmap Z Z) (btns : list (tag * string))
    (path_len : option Z) (mapping : gmap Z string) : M (gmap Z string) :=
  match btns with
  | [] => mret mapping
  | (btn, matrix_key) :: rest =>
      path_len ← match tag_find (has_name "img") btn with
                 | Some img =>
                     match get img "src" with
                     | Some path => mret (Some (PyStr.len path))
                     | None =>
                         raise (TypeError
                                  "object of type 'NoneType' has no len()")
                     end
                 | None => mret path_len
                 end;
      match path_len with
      | None => raise (UnboundLocalError "path_len")
      | Some n =>
          match table !! n with
          | None =>
              debug (unknown_len_msg n) ;;
              decode_loop table rest (Some n) mapping
          | Some digit =>
              decode_loop table rest (Some n) (<[digit:=matrix_key]> mapping)
          end
      end
  end.

(** The decoder on a parsed keypad fragment. *)
Definition decode_keypad (table : gmap Z Z) (doc : soup) : M (gmap Z string) :=
  decode_loop table (select_attr "data-matrix-key" doc) None ∅.

(** ** The run: [main] and the [__main__] block *)

Definition ACCOUNT_FIELD : string := "movementSearch[selectedAccounts][]".

Definition USER_AGENT : string :=
  "Mozilla/5.0 (X11; Linux x86_64) AppleWebKit/537.36 (KHTML, like Gecko) Chrome/120 Safari/537.36".

(** The bullet U+2022 lies outside the 8-bit characters of this embedding;
    it is written as its UTF-8 bytes. *)
Definition bullet : string := "•".

(** A value [datetime.fromisoformat] can be handed: a [str] or a
    [datetime]. *)
Inductive pyobj : Type :=
| ObjStr (s : string)
| ObjDatetime (d : datetime).

Section Run.

Variable ext : Externals.
Variable w : World.

Definition extract_token_from_login (html_text : string) : option string :=
  token_of_soup (html_parser ext html_text).

(** [datetime.fromisoformat(o)]: a [TypeError] unless [o] is a [str]. *)
Definition fromisoformat (o : pyobj) : M datetime :=
  match o with
  | ObjStr s =>
      match fromisoformat_str ext s with
      | Some d => mret d
      | None => raise (ValueError ("Invalid isoformat string: " +:+ s))
      end
  | ObjDatetime _ => raise (TypeError "fromisoformat: argument must be str")
  end.

(** Step 1: the two loads of the login page; yields [token]. *)
Definition step1_cookies : M (option string) :=
  debug "### Step 1: Magic cookie the gathering ###" ;;
  debug "Fetching login page to collect initial cookies and token..." ;;
  r1 ← session_get LOGIN_PAGE [] (resp_login_1 w);
  raise_for_status r1 ;;
  cookie_value ← match search_brs_mit ext (text r1) with
                 | None => raise (ValueError "Cookie not found in HTML")
                 | Some v => debug "Found __brs_mit cookie." ;; mret v
                 end;
  emit (CookieSet "__brs_mit" cookie_value) ;;
  r2 ← session_get LOGIN_PAGE [] (resp_login_2 w);
  raise_for_status r2 ;;
  let token := extract_token_from_login (text r2) in
  match token with
  | None =>
      debug "Could not find form[_token]. The page structure may have changed."
  | Some _ => debug "Found form token."
  end ;;
  mret token.

(** Step 2: the keypad fragment; yields the response and [mapping]. *)
Definition step2_keypad : M (Response * gmap Z string) :=
  debug "### Step 2: SVG based obfuscation ###" ;;
  debug "Fetching keypad / SVG mapping..." ;;
  rc ← session_get CLAVIER_URL [] (resp_clavier w);
  raise_for_status rc ;;
  mapping ← decode_keypad B64_SVG_LEN_MAP (html_parser ext (text rc));
  (if (Z.of_nat (size mapping) <? 10)
   then debug ("Only found mapping for " +:+ pretty (size mapping)
               +:+ " digits; expected 10. Aborting.")
   else debug "Found full mapping for digits 0-9.") ;;
  mret (rc, mapping).

(** The form fields of the login submission. *)
Definition login_data (client_number encoded_password : string)
    (numeric_password : string) (token matrix_random_challenge : option string)
    : list (string * option string) :=
  [ ("form[clientNumber]", Some client_number);
    ("form[password]", Some encoded_password);
    ("form[ajx]", Some "1");
    ("form[platformAuthenticatorAvailable]", Some "-1");
    ("form[passwordAck]", Some "{}");
    ("form[fakePassword]",
      Some (PyStr.repeat bullet (String.length numeric_password)));
    ("form[_token]", token);
    ("form[matrixRandomChallenge]", matrix_random_challenge) ].

Definition login_headers : list (string * string) :=
  [ ("Referer", LOGIN_PAGE); ("X-Requested-With", "XMLHttpRequest") ].

Definition login_failed_msg (resp : Response) : string :=
  "Login POST returned status " +:+ pretty (status_code resp)
  +:+ ". Response snippet:
" +:+ PyStr.take 400 (text resp).

(** Step 3: encoding of the password and the login submission. *)
Definition step3_login (client_number numeric_password : string)
    (token : option string) (rc : Response) (mapping : gmap Z string)
    : M unit :=
  debug "### Step 3: Loggin in! ###" ;;
  encoded_password ←
    match build_encoded_password numeric_password mapping with
    | Ok p => mret p
    | Raise e =>
        print_err ("Error encoding password: " +:+ str_exn e) ;; py_return
    end;
  let matrix_random_challenge := search_challenge ext (text rc) in
  (if negb (PyStr.truthy matrix_random_challenge)
   then debug "Could not extract matrixRandomChallenge automatically. The value may be embedded differently."
   else mret tt) ;;
  debug "Submitting login form..." ;;
  resp ← session_post PASSWORD_POST
           (login_data client_number encoded_password numeric_password
              token matrix_random_challenge)
           login_headers (post_resp w);
  if negb ((status_code resp =? 200) || (status_code resp =? 302))
  then debug (login_failed_msg resp) ;;
       print_err "Login probably failed (status != 200/302). See debug output." ;;
       py_return
  else debug "Login POST done. Inspecting cookies for auth tokens...".

(** The query parameters of the export request. *)
Definition export_params (selected : string) (from_date to_date : datetime)
    : list (string * string) :=
  [ (ACCOUNT_FIELD, selected);
    ("movementSearch[fromDate]", strftime ext from_date "%d/%m/%Y");
    ("movementSearch[toDate]", strftime ext to_date "%d/%m/%Y");
    ("movementSearch[format]", "CSV");
    ("movementSearch[filteredBy]", "filteredByCategory");
    ("movementSearch[catergory]", "");
    ("movementSearch[operationTypes]", "");
    ("movementSearch[myBudgetPage]", "1");
    ("movementSearch[submit]", "") ].

(** The value [params[ACCOUNT_FIELD]] holds once the budget page [rb] has
    been looked at; it starts as [account]. *)
Definition selected_account (account : string) (rb : Response) : string :=
  if status_code rb =? 200 then
    let doc := html_parser ext (text rb) in
    let from_option :=
      match select_one_below
              (fun t => has_name "select" t && attr_is "name" ACCOUNT_FIELD t)
              (has_name "option") doc with
      | Some opt =>
          match get opt "value" with
          | Some (String c v) => String c v
          | _ => account
          end
      | None => account
      end in
    match soup_find (attr_is "name" ACCOUNT_FIELD) doc with
    | Some acc_input =>
        match get acc_input "value" with
        | Some (String c v) => String c v
        | _ => from_option
        end
    | None => from_option
    end
  else account.

(** Step 4, first half: which account to export. *)
Definition step4_account (account : string) : M string :=
  debug "### Step 4: Fetching my data ###" ;;
  debug "Attempting to discover account id from mon-budget/generate ..." ;;
  rb ← session_get BUDGET_URL [] (resp_budget w);
  let selected := selected_account account rb in
  if negb (PyStr.nonempty selected)
  then print_err "Could not auto-discover an account id. You must set 'movementSearch[selectedAccounts][]' to your account id in the script." ;;
       py_return
  else mret selected.

Definition csv_failed_msg (resp : Response) : string :=
  "CSV fetch returned status " +:+ pretty (status_code resp)
  +:+ ". Response snippet:
" +:+ PyStr.take 500 (text resp).

(** [pd.read_csv(io.StringIO(body), sep=sep)] *)
Definition pd_read_csv (body : string) (sep : option string)
    : M dataframe :=
  emit (ReadCsv body sep) ;;
  match read_csv ext body sep with
  | Some df => mret df
  | None => raise ParserError
  end.

(** Step 4, second half: the export request, its checks, the parsing. *)
Definition step4_export (selected : string) (from_date to_date : datetime)
    : M dataframe :=
  let params := export_params selected from_date to_date in
  debug ("Downloading CSV for account " +:+ selected +:+ " from "
         +:+ strftime ext from_date "%d/%m/%Y" +:+ " to "
         +:+ strftime ext to_date "%d/%m/%Y") ;;
  resp ← session_get EXPORT_URL params (csv_resp w);
  if negb (status_code resp =? 200)
  then debug (csv_failed_msg resp) ;;
       print_err "Failed to fetch CSV. The response may be HTML error page (range invalid or no results) or site changed." ;;
       py_return
  else
    let content_type := default "" (content_type resp) in
    if negb (PyStr.contains "text/csv" content_type)
       && PyStr.startswith "<" (PyStr.strip (text resp))
    then debug "Response appears to be HTML, not CSV. The request likely failed or returned an error page." ;;
         print_err "CSV exporter returned HTML (likely an error). See debug logs." ;;
         py_return
    else
      df ← (emit (ReadCsv (text resp) (Some ";")) ;;
            match read_csv ext (text resp) (Some ";") with
            | Some df => mret df
            | None => pd_read_csv (text resp) None
            end);
      print "Transactions fetched. DataFrame head:" ;;
      print (head_to_string ext df) ;;
      mret df.

(** [df.to_csv(path, index=False)] *)
Definition to_csv (path : string) (df : dataframe) : M unit :=
  emit (ToCsv path df) ;;
  if writable w path then mret tt else raise (OSError path).

(** [with open(path, "w") as f: f.write(content)] *)
Definition write_file (path content : string) : M unit :=
  emit (WriteFile path content) ;;
  if writable w path then mret tt else raise (OSError path).

(** The branch [if not dry_run] of [main]. *)
Definition live_run (client_number numeric_password account : string)
    (from_date to_date : datetime) : M (string * dataframe) :=
  token ← step1_cookies;
  '(rc, mapping) ← step2_keypad;
  step3_login client_number numeric_password token rc mapping ;;
  selected ← step4_account account;
  df ← step4_export selected from_date to_date;
  mret (selected, df).

Definition main (dry_run : bool)
    (client_number numeric_password account : string)
    (from_date : datetime) : M unit :=
  if negb (PyStr.isdigit client_number)
  then print_err "Client number should be digits only." ;; py_return
  else
  if negb (PyStr.isdigit numeric_password
           && (PyStr.len numeric_password =? 8))
  then print_err "Password must be digits (8 digits by default)." ;;
       py_return
  else
    let to_date := today_to_date w in
    emit (HeadersUpdate "User-Agent" USER_AGENT) ;;
    '(account_name_output, df) ←
      (if negb dry_run
       then live_run client_number numeric_password account from_date to_date
       else df ← pd_read_csv "fake file" None;
            mret ("dry_run_" +:+ account, df));
    let outfn :=
      "boursorama_transactions_" +:+ account_name_output +:+ "_"
      +:+ strftime ext from_date "%Y%m%d" +:+ "_"
      +:+ strftime ext to_date "%Y%m%d" +:+ ".csv" in
    let outfn_path := OUTPUT_FOLDER +:+ "/" +:+ outfn in
    to_csv outfn_path df ;;
    print ("Saved CSV to " +:+ outfn_path) ;;
    write_file SAVE_FILE (isoformat ext (today_saved w)).

(** A call of [main] from the [__main__] block: a [return] of [main] ends
    the call, not the script. *)
Definition call {A} (m : M A) : M unit :=
  match m with
  | (t, Val _) => (t, Val tt)
  | (t, Returned) => (t, Val tt)
  | (t, Raised e) => (t, Raised e)
  end.

(** The [__main__] block; [argv0] is [sys.argv[0]], [args] the rest of
    [sys.argv]. *)
Definition script (argv0 : string) (args : list string) : M unit :=
  print ("Running version " +:+ version) ;;
  d ← fromisoformat (ObjDatetime (today_startup w));
  print ("Run on: " +:+ str_datetime ext d) ;;
  print ("Current working directory: " +:+ cwd w) ;;
  print ("Script directory: " +:+ script_dir w) ;;
  match args with
  | [a1; a2; a3; a4] =>
      let prev_date := minus_days (today_default_from w) 30 in
      emit (MakeDirs OUTPUT_FOLDER) ;;
      (if makedirs_ok w then mret tt else raise (OSError OUTPUT_FOLDER)) ;;
      prev_date ←
        match save_file w with
        | Content content =>
            let prev_str := PyStr.strip content in
            match fromisoformat_str ext prev_str with
            | Some prev =>
                print ("Last run was on: " +:+ str_datetime ext prev) ;;
                print ("Time since last run: "
                       +:+ str_timedelta ext
                             (micros (today_throttle w) - micros prev)) ;;
                if diff_days (today_throttle w) prev <? 30
                then print "⏹ Stopping: less than 30 days since last run." ;;
                     raise (SystemExit 0)
                else mret prev
            | None => print "Invalid date format in save file" ;;
                      mret prev_date
            end
        | Unreadable => raise (OSError SAVE_FILE)
        | Absent => mret prev_date
        end;
      let flag := bool_decide (PyStr.lower a1 ∈ ["true"; "1"; "yes"]) in
      call (main flag a2 a3 a4 prev_date)
  | _ =>
      print ("Usage: python " +:+ argv0
             +:+ " dry_run client_number numeric_password account") ;;
      raise (SystemExit 1)
  end.

End Run.

(** * Vocabulary of the properties *)

(** The labels of the characters of a PIN under a mapping (the empty label
    stands in where a character has none). *)
Definition labels_of (m : gmap Z string) (l : list ascii) : list string :=
  map (fun ch => default "" (PyStr.int_of_char ch ≫= (m !!.))) l.

(** Every character is an ASCII digit that the mapping knows. *)
Definition all_mapped (m : gmap Z string) (l : list ascii) : Prop :=
  forall ch, In ch l ->
    exists d, PyStr.int_of_char ch = Some d /\ is_Some (m !! d).

(** The signature of a key: the length of the [src] of its first image. *)
Definition signature (btn : tag) : option Z :=
  match tag_find (has_name "img") btn with
  | Some img =>
      match get img "src" with
      | Some path => Some (PyStr.len path)
      | None => None
      end
  | None => None
  end.

(** The digit a key resolves to through a signature table. *)
Definition resolved (table : gmap Z Z) (key : tag * string) : option Z :=
  signature (fst key) ≫= (table !!.).

Definition is_post (e : event) : bool :=
  match e with
  | HttpPost _ _ _ => true
  | _ => false
  end.

Definition is_get_of (url : string) (e : event) : bool :=
  match e with
  | HttpGet u _ => String.eqb u url
  | _ => false
  end.

(** Writing the output file or the last-run timestamp. *)
Definition is_output (e : event) : bool :=
  match e with
  | ToCsv _ _ | WriteFile _ _ => true
  | _ => false
  end.

Definition is_read_csv (e : event) : bool :=
  match e with
  | ReadCsv _ _ => true
  | _ => false
  end.

(** Console output, the cookie jar and the session headers. *)
Definition is_local (e : event) : bool :=
  match e with
  | Debug _ | PrintErr _ | Print _ | CookieSet _ _ | HeadersUpdate _ _ => true
  | _ => false
  end.

(** The arguments pass the two checks at the top of [main]. *)
Definition valid_args (client_number numeric_password : string) : Prop :=
  PyStr.isdigit client_number = true
  /\ PyStr.isdigit numeric_password && (PyStr.len numeric_password =? 8)
     = true.

(** [raise_for_status] lets the response through. *)
Definition ok_status (r : Response) : Prop :=
  (400 <=? status_code r) && (status_code r <? 600) = false.

(** Step 1 gets as far as the second load of the login page, answered by
    [r2]. *)
Definition login_page_loaded (ext : Externals) (w : World) (r2 : Response)
    : Prop :=
  exists r1 cookie_value,
    resp_login_1 w = Some r1 /\ ok_status r1
    /\ search_brs_mit ext (text r1) = Some cookie_value
    /\ resp_login_2 w = Some r2 /\ ok_status r2.

(** The keypad fragment is served, by [rc]. *)
Definition keypad_loaded (w : World) (rc : Response) : Prop :=
  resp_clavier w = Some rc /\ ok_status rc.

(** The keys of a parsed keypad fragment. *)
Definition keys_of (doc : soup) : list (tag * string) :=
  select_attr "data-matrix-key" doc.

(** The image of a key, when it has one, has a [src]. *)
Definition image_has_src (key : tag * string) : Prop :=
  match tag_find (has_name "img") (fst key) with
  | Some img => is_Some (get img "src")
  | None => True
  end.

(** The first key, when there is one, has an image. *)
Definition first_has_image (keys : list (tag * string)) : Prop :=
  match keys with
  | [] => True
  | key :: _ => is_Some (tag_find (has_name "img") (fst key))
  end.

(** The keys on which the decode loop raises nothing: the first one has an
    image and every image has a [src]. *)
Definition decodable (keys : list (tag * string)) : Prop :=
  first_has_image keys /\ Forall image_has_src keys.

(** The digits the keys resolve to. *)
Definition resolved_digits (table : gmap Z Z) (keys : list (tag * string))
    : gset Z :=
  list_to_set (omap (resolved table) keys).

Definition ten_digits : gset Z := list_to_set [0; 1; 2; 3; 4; 5; 6; 7; 8; 9].

(** How a run ends when one of its stages ends with [o] other than a value;
    on a value of a later stage of a finished run it is not used. *)
Definition stop {A B} (o : outcome A) : outcome B :=
  match o with
  | Val _ | Returned => Returned
  | Raised e => Raised e
  end.

(** The account the budget page yields, in the order the resolver looks: the
    value of the account selector, else the value of the first option of the
    account [select]; nothing unless the page is served with status 200. *)
Definition discovered_account (ext : Externals) (rb : Response)
    : option string :=
  if status_code rb =? 200 then
    let doc := html_parser ext (text rb) in
    let selector := soup_find (attr_is "name" ACCOUNT_FIELD) doc in
    let first_option :=
      select_one_below
        (fun t => has_name "select" t && attr_is "name" ACCOUNT_FIELD t)
        (has_name "option") doc in
    if PyStr.truthy (selector ≫= fun t => get t "value")
    then selector ≫= fun t => get t "value"
    else if PyStr.truthy (first_option ≫= fun t => get t "value")
         then first_option ≫= fun t => get t "value"
         else None
  else None.

(** ** A scenario: pages, library answers and worlds, as concrete inputs *)

Module Scenario.

Definition login_page_1 : string :=
  "<html><script>document.cookie = '__brs_mit=9f3c2a';</script></html>".
Definition login_page_with_token : string :=
  "<form><input type='hidden' name='form[_token]' value='tok42'></form>".
Definition login_page_without_token : string :=
  "<form><input type='text' name='login'></form>".
Definition keypad_page : string := "<ul class='password-input'>full</ul>".
Definition keypad_page_stale : string := "<ul class='password-input'>stale</ul>".
Definition keypad_page_bare_first : string :=
  "<ul class='password-input'>bare</ul>".
Definition budget_page : string :=
  "<select name='movementSearch[selectedAccounts][]'><option value='ACC-PAGE'></select>".
Definition budget_page_empty : string := "<div>no account</div>".
Definition csv_body : string := "dateOp;label;amount
2026-10-03;CARTE;-12,50".
Definition disguised_body : string := " <html><body>Erreur</body></html>".

(** A key of the keypad: a button with its label and an image whose
    reference has the given length. *)
Definition key (label : string) (src_len : nat) : tag :=
  Tag "button" [("data-matrix-key", label)]
    [Tag "img" [("src", PyStr.repeat "A" src_len)] []].

(** A key without an image. *)
Definition bare_key (label : string) : tag :=
  Tag "button" [("data-matrix-key", label)] [].

Definition full_keypad : soup :=
  [Tag "ul" [("class", "password-input")]
     [key "WXA" 763; key "PLM" 419; key "QRS" 1359; key "TUV" 259;
      key "BCD" 1047; key "EFG" 1131; key "HIJ" 839; key "KNO" 979;
      key "YZA" 1075; key "GHT" 1023]].

(** Two signatures, 640 and 777, that the table does not know. *)
Definition stale_keypad : soup :=
  [Tag "ul" [("class", "password-input")]
     [key "WXA" 763; key "PLM" 419; key "QRS" 640; key "TUV" 259;
      key "BCD" 1047; key "EFG" 1131; key "HIJ" 839; key "KNO" 979;
      key "YZA" 1075; key "GHT" 777]].

Definition bare_first_keypad : soup :=
  [Tag "ul" [("class", "password-input")]
     [bare_key "WXA"; key "PLM" 419; key "QRS" 1359]].

(** Three resolvable keys, two of them with the same image. *)
Definition twin_keypad : soup :=
  [Tag "ul" [("class", "password-input")]
     [key "AAA" 419; key "BBB" 419; key "CCC" 763]].

(** The ten keys of the full keypad after an element that carries a
    [data-matrix-key] and no image. *)
Definition bare_then_full_keypad : soup :=
  [Tag "ul" [("class", "password-input")]
     [bare_key "XXX";
      key "WXA" 763; key "PLM" 419; key "QRS" 1359; key "TUV" 259;
      key "BCD" 1047; key "EFG" 1131; key "HIJ" 839; key "KNO" 979;
      key "YZA" 1075; key "GHT" 1023]].

Definition parser (page : string) : soup :=
  if String.eqb page login_page_with_token then
    [Tag "form" []
       [Tag "input" [("type", "hidden"); ("name", "form[_token]");
                     ("value", "tok42")] []]]
  else if String.eqb page login_page_without_token then
    [Tag "form" [] [Tag "input" [("type", "text"); ("name", "login")] []]]
  else if String.eqb page keypad_page then full_keypad
  else if String.eqb page keypad_page_stale then stale_keypad
  else if String.eqb page keypad_page_bare_first then bare_first_keypad
  else if String.eqb page budget_page then
    [Tag "select" [("name", ACCOUNT_FIELD)]
       [Tag "option" [("value", "ACC-PAGE")] []]]
  else [].

Definition ext : Externals := {|
  html_parser := parser;
  search_brs_mit := fun page =>
    if String.eqb page login_page_1 then Some "9f3c2a" else None;
  search_challenge := fun page =>
    if String.prefix "<ul class='password-input'>" page
    then Some "c7a1" else None;
  strftime := fun d fmt =>
    if String.eqb fmt "%d/%m/%Y" then "04/11/2026" else "20261104";
  isoformat := fun _ => "2026-11-04T09:30:00";
  fromisoformat_str := fun s =>
    if String.eqb s "2026-09-01T08:00:00" then Some (Datetime 0) else None;
  str_datetime := fun _ => "2026-11-04 09:30:00";
  str_timedelta := fun _ => "64 days, 1:30:00";
  read_csv := fun body sep =>
    if String.eqb body csv_body
    then Some (DataFrame [["2026-10-03"; "CARTE"; "-12,50"]]) else None;
  head_to_string := fun _ => "2026-10-03 CARTE -12,50"
|}.

Definition page (body : string) : option Response :=
  Some (mkResponse 200 body (Some "text/html; charset=UTF-8")).

(** A world in which every request is answered; the pages that vary between
    the scenarios are its arguments. *)
Definition world (login_2 keypad : string) (post budget csv : option Response)
    : World := {|
  resp_login_1 := page login_page_1;
  resp_login_2 := page login_2;
  resp_clavier := page keypad;
  post_resp := post;
  resp_budget := budget;
  csv_resp := csv;
  today_startup := Datetime 5535000000000;
  today_default_from := Datetime 5535000000001;
  today_throttle := Datetime 5535000000002;
  today_to_date := Datetime 5535000000003;
  today_saved := Datetime 5535000000004;
  save_file := Absent;
  makedirs_ok := true;
  writable := fun _ => true;
  cwd := "/home/user/bourso";
  script_dir := "/home/user/bourso"
|}.

Definition csv_page : option Response :=
  Some (mkResponse 200 csv_body (Some "text/csv; charset=UTF-8")).

(** Everything goes well. *)
Definition happy : World :=
  world login_page_with_token keypad_page (page "{}") (page budget_page)
    csv_page.

Definition client : string := "12345678".
Definition pin : string := "13572468".
Definition from_date : datetime := Datetime 2943000000000.

(** A page served with status 200. *)
Definition resp (body : string) : Response :=
  mkResponse 200 body (Some "text/html; charset=UTF-8").

(** The login page carries no token. *)
Definition w_no_token : World :=
  world login_page_without_token keypad_page (page "{}") (page budget_page)
    csv_page.

(** The table does not know two of the keypad's signatures. *)
Definition w_stale : World :=
  world login_page_with_token keypad_page_stale (page "{}") (page budget_page)
    csv_page.


Definition error_500 : Response :=
  mkResponse 500 "Internal Server Error" (Some "text/plain").

(** The login submission is answered with status 500. *)
Definition w_login_500 : World :=
  world login_page_with_token keypad_page (Some error_500) (page budget_page)
    csv_page.

(** The budget page shows no account. *)
Definition w_no_account : World :=
  world login_page_with_token keypad_page (page "{}") (page budget_page_empty)
    csv_page.

Definition error_503 : Response :=
  mkResponse 503 "<html>Service Unavailable</html>" (Some "text/html").

(** The export request is answered with status 503. *)
Definition w_export_503 : World :=
  world login_page_with_token keypad_page (page "{}") (page budget_page)
    (Some error_503).

(** The export request is answered with a page of markup after a blank. *)
Definition w_disguised : World :=
  world login_page_with_token keypad_page (page "{}") (page budget_page)
    (page disguised_body).

(** A live run of [main] in a world, for an account. *)
Definition run (w : World) (account : string) : M unit :=
  main ext w false client pin account from_date.

End Scenario.

(** ** The claims that the code does not meet, as stated *)

(** A missing token is fatal: once the extractor has found no token, the run
    makes no request of a later stage. *)
Definition missing_token_is_fatal (ext : Externals) (w : World)
    (client_number numeric_password account : string) (from_date : datetime)
    : Prop :=
  forall r2,
    login_page_loaded ext w r2 ->
    extract_token_from_login ext (text r2) = None ->
    forall e,
      In e (trace (main ext w false client_number numeric_password account
                     from_date)) ->
      is_get_of CLAVIER_URL e = false /\ is_post e = false.

(** Fewer than 10 resolvable keys give a mapping of that smaller size: the
    decoder does not fail, and its mapping has as many entries as the
    fragment has resolvable keys. *)
Definition degraded_mapping_has_that_size (table : gmap Z Z) (doc : soup)
    : Prop :=
  let resolvable := omap (resolved table) (keys_of doc) in
  (length resolvable < 10)%nat ->
  exists mapping : gmap Z string,
    ending (decode_keypad table doc) = Val mapping
    /\ size mapping = length resolvable.

(** A caller-supplied account has priority: the budget page is not consulted
    and the export is for that account. *)
Definition supplied_account_has_priority (ext : Externals) (w : World)
    (client_number numeric_password account : string) (from_date : datetime)
    : Prop :=
  PyStr.nonempty account = true ->
  forall e,
    In e (trace (main ext w false client_number numeric_password account
                   from_date)) ->
    is_get_of BUDGET_URL e = false
    /\ forall params, e = HttpGet EXPORT_URL params ->
                      attr_lookup ACCOUNT_FIELD params = Some account.

(** A 200 response is accepted when its content type is tabular or its body
    does not begin with the markup-open character. *)
Definition accepts_unless_leading_markup (ext : Externals) (w : World)
    (selected : string) (from_date to_date : datetime) : Prop :=
  forall r,
    csv_resp w = Some r ->
    status_code r = 200 ->
    PyStr.contains "text/csv" (default "" (content_type r)) = true
    \/ PyStr.startswith "<" (text r) = false ->
    In (ReadCsv (text r) (Some ";"))
       (trace (step4_export ext w selected from_date to_date)).

(** ** Vocabulary of the further properties *)

(** The URL an event requests, when it is a request. *)
Definition request_of (e : event) : option string :=
  match e with
  | HttpGet u _ | HttpPost u _ _ => Some u
  | _ => None
  end.

(** The URLs a computation requests, in order. *)
Definition requests {A} (m : M A) : list string := omap request_of (trace m).

(** The six requests of a complete live run. *)
Definition protocol : list string :=
  [LOGIN_PAGE; LOGIN_PAGE; CLAVIER_URL; PASSWORD_POST; BUDGET_URL; EXPORT_URL].

(** [m] requests the URLs [l] in order, and all of them if it ends with a
    value; it may stop earlier. *)
Definition asks {A} (m : M A) (l : list string) : Prop :=
  requests m `prefix_of` l /\ forall a, ending m = Val a -> requests m = l.

(** The name of the output file, as [main] builds it. *)
Definition output_path (ext : Externals) (account_name_output : string)
    (from_date to_date : datetime) : string :=
  OUTPUT_FOLDER +:+ "/"
  +:+ ("boursorama_transactions_" +:+ account_name_output +:+ "_"
       +:+ strftime ext from_date "%Y%m%d" +:+ "_"
       +:+ strftime ext to_date "%Y%m%d" +:+ ".csv").

(** The three events of a saving that goes as far as its last call: the
    CSV file, the message, the last-run timestamp. *)
Definition saving (ext : Externals) (w : World) (account_name_output : string)
    (df : dataframe) (from_date : datetime) : list event :=
  let path := output_path ext account_name_output from_date (today_to_date w) in
  [ToCsv path df; Print ("Saved CSV to " +:+ path);
   WriteFile SAVE_FILE (isoformat ext (today_saved w))].

(** How the saving of [df] under the name of an account goes, as the calls
    it makes and how it ends: the CSV file first; if that write raises, the
    message and the write of the last-run file do not follow. *)
Definition save_result (ext : Externals) (w : World)
    (account_name_output : string) (df : dataframe) (from_date : datetime)
    : M unit :=
  let path := output_path ext account_name_output from_date (today_to_date w) in
  if writable w path then
    (saving ext w account_name_output df from_date,
     if writable w SAVE_FILE then Val tt else Raised (OSError SAVE_FILE))
  else ([ToCsv path df], Raised (OSError path)).

(** What [main] does between setting the user agent and saving: the live
    run, or the stand-in of a dry run. *)
Definition fetch (ext : Externals) (w : World) (dry_run : bool)
    (client_number numeric_password account : string) (from_date : datetime)
    : M (string * dataframe) :=
  if negb dry_run
  then live_run ext w client_number numeric_password account from_date
         (today_to_date w)
  else df ← pd_read_csv ext "fake file" None;
       mret ("dry_run_" +:+ account, df).

(** The superscript two, U+00B2: a digit for [isdigit], not for [int]. *)
Definition superscript_two : ascii := ascii_of_nat 178.

(** A PIN of eight characters that are all digits for [isdigit]. *)
Definition pin_with_superscript : string :=
  "1234567" +:+ String superscript_two EmptyString.




(** A world like the happy one but for the first login page, the keypad
    answer and the files that can be written. *)
Definition world_with (login_1 keypad : option Response)
    (files : string -> bool) : World := {|
  resp_login_1 := login_1;
  resp_login_2 := Scenario.page Scenario.login_page_with_token;
  resp_clavier := keypad;
  post_resp := Scenario.page "{}";
  resp_budget := Scenario.page Scenario.budget_page;
  csv_resp := Scenario.csv_page;
  today_startup := Datetime 5535000000000;
  today_default_from := Datetime 5535000000000;
  today_throttle := Datetime 5535000000000;
  today_to_date := Datetime 5535000000000;
  today_saved := Datetime 5535000000000;
  save_file := Absent;
  makedirs_ok := true;
  writable := files;
  cwd := "/home/user/bourso";
  script_dir := "/home/user/bourso"
|}.

(** The first login page holds no cookie assignment. *)
Definition w_no_cookie : World :=
  world_with (Scenario.page Scenario.login_page_with_token)
    (Scenario.page Scenario.keypad_page) (fun _ => true).

(** The keypad request is refused. *)
Definition w_keypad_refused : World :=
  world_with (Scenario.page Scenario.login_page_1)
    (Some (mkResponse 403 "Forbidden" (Some "text/html"))) (fun _ => true).




(** The world [w] with another answer to the login submission, and with
    another answer to the export request. *)
Definition with_post_resp (w : World) (r : option Response) : World := {|
  resp_login_1 := resp_login_1 w;
  resp_login_2 := resp_login_2 w;
  resp_clavier := resp_clavier w;
  post_resp := r;
  resp_budget := resp_budget w;
  csv_resp := csv_resp w;
  today_startup := today_startup w;
  today_default_from := today_default_from w;
  today_throttle := today_throttle w;
  today_to_date := today_to_date w;
  today_saved := today_saved w;
  save_file := save_file w;
  makedirs_ok := makedirs_ok w;
  writable := writable w;
  cwd := cwd w;
  script_dir := script_dir w
|}.

Definition with_csv_resp (w : World) (r : option Response) : World := {|
  resp_login_1 := resp_login_1 w;
  resp_login_2 := resp_login_2 w;
  resp_clavier := resp_clavier w;
  post_resp := post_resp w;
  resp_budget := resp_budget w;
  csv_resp := r;
  today_startup := today_startup w;
  today_default_from := today_default_from w;
  today_throttle := today_throttle w;
  today_to_date := today_to_date w;
  today_saved := today_saved w;
  save_file := save_file w;
  makedirs_ok := makedirs_ok w;
  writable := writable w;
  cwd := cwd w;
  script_dir := script_dir w
|}.

(** A body of 600 characters ending in the given way. *)
Definition long_body (tail : string) : string :=
  PyStr.repeat "x" 594 +:+ tail.

(** The signatures of the keys that the table does not know, in order. *)
Definition unknown_signatures (table : gmap Z Z)
    (keys : list (tag * string)) : list Z :=
  omap (fun key => match signature (fst key) with
                   | Some n => match table !! n with
                               | None => Some n
                               | Some _ => None
                               end
                   | None => None
                   end) keys.

(** Every key has an image with a reference. *)
Definition all_have_signatures (keys : list (tag * string)) : Prop :=
  Forall (fun key => is_Some (signature (fst key))) keys.

(** Two keys with the same image, and a key whose image has no [src]. *)
Definition twin_keys : list (tag * string) :=
  [(Scenario.key "AAA" 419, "AAA"); (Scenario.key "BBB" 419, "BBB")].

Definition srcless_key : tag :=
  Tag "button" [("data-matrix-key", "ZZZ")] [Tag "img" [("alt", "7")] []].
(** * Properties *)

(** ** The monad of runs *)

Lemma trace_bind {A B} (m : M A) (k : A -> M B) :
  trace (m ≫= k)
  = (trace m ++ match ending m with
                | Val a => trace (k a)
                | _ => []
                end)%list.
Proof.
  destruct m as [t [a| |e]]; unfold mbind, M_bind, trace, ending; simpl.
  - destruct (k a); reflexivity.
  - rewrite app_nil_r; reflexivity.
  - rewrite app_nil_r; reflexivity.
Qed.

Lemma ending_bind {A B} (m : M A) (k : A -> M B) :
  ending (m ≫= k)
  = match ending m with
    | Val a => ending (k a)
    | Returned => Returned
    | Raised e => Raised e
    end.
Proof.
  destruct m as [t [a| |e]]; unfold mbind, M_bind, trace, ending; simpl;
    try reflexivity.
  destruct (k a); reflexivity.
Qed.

Lemma in_trace_bind {A B} (m : M A) (k : A -> M B) (e : event) :
  In e (trace (m ≫= k))
  <-> In e (trace m) \/ exists a, ending m = Val a /\ In e (trace (k a)).
Proof.
  rewrite trace_bind, in_app_iff. split.
  - intros [H|H]; [left; exact H|].
    destruct (ending m) as [a| |x]; simpl in H; try contradiction.
    right; exists a; split; [reflexivity|exact H].
  - intros [H|(a & Ha & H)]; [left; exact H|].
    right; rewrite Ha; exact H.
Qed.

Lemma bind_ret {A B} (a : A) (k : A -> M B) : mret a ≫= k = k a.
Proof. unfold mret, M_ret, mbind, M_bind. destruct (k a); reflexivity. Qed.

Lemma bind_emit {B} (e : event) (k : unit -> M B) :
  emit e ≫= k = (e :: trace (k tt), ending (k tt)).
Proof. unfold emit, mbind, M_bind. destruct (k tt); reflexivity. Qed.

Lemma bind_session_get {B} (url : string) (params : list (string * string))
    (r : Response) (k : Response -> M B) :
  session_get url params (Some r) ≫= k
  = (HttpGet url params :: trace (k r), ending (k r)).
Proof.
  unfold session_get, emit, mret, M_ret, mbind, M_bind. cbn.
  destruct (k r); reflexivity.
Qed.

Lemma bind_raise {A B} (e : exn) (k : A -> M B) : raise e ≫= k = raise e.
Proof. reflexivity. Qed.

Lemma bind_return {A B} (k : A -> M B) : py_return ≫= k = py_return.
Proof. reflexivity. Qed.

Lemma bind_assoc {A B C} (m : M A) (k1 : A -> M B) (k2 : B -> M C) :
  (m ≫= k1) ≫= k2 = m ≫= (fun a => k1 a ≫= k2).
Proof.
  destruct m as [t [a| |e]]; unfold mbind, M_bind; try reflexivity.
  destruct (k1 a) as [t1 [b| |e1]]; try reflexivity.
  destruct (k2 b) as [t2 o]. rewrite app_assoc. reflexivity.
Qed.

Lemma Forall_In {A} (P : A -> Prop) (l : list A) (x : A) :
  Forall P l -> In x l -> P x.
Proof.
  intros H Hin. apply list_elem_of_In in Hin. rewrite Forall_forall in H.
  exact (H x Hin).
Qed.

Lemma Forall_trace_bind {A B} (P : event -> Prop) (m : M A) (k : A -> M B) :
  Forall P (trace m) ->
  (forall a, ending m = Val a -> Forall P (trace (k a))) ->
  Forall P (trace (m ≫= k)).
Proof.
  intros Hm Hk. rewrite trace_bind. apply Forall_app. split; [exact Hm|].
  destruct (ending m) as [a| |e]; [apply Hk; reflexivity|constructor..].
Qed.

(** ** The Credential Encoder *)

Lemma labels_of_cons (m : gmap Z string) (ch : ascii) (l : list ascii)
    (d : Z) (g : string) :
  PyStr.int_of_char ch = Some d -> m !! d = Some g ->
  labels_of m (ch :: l) = g :: labels_of m l.
Proof.
  intros Hd Hg. unfold labels_of. rewrite map_cons. f_equal.
  rewrite Hd. change (default "" (m !! d) = g). rewrite Hg. reflexivity.
Qed.

Lemma encode_loop_mapped (m : gmap Z string) (l : list ascii) :
  forall acc, all_mapped m l ->
    encode_loop m acc l = Ok (acc ++ labels_of m l)%list.
Proof.
  induction l as [|ch l IH]; intros acc Hall.
  - simpl. rewrite app_nil_r; reflexivity.
  - destruct (Hall ch (or_introl eq_refl)) as (d & Hd & [g Hg]).
    rewrite (labels_of_cons m ch l d g Hd Hg).
    cbn [encode_loop]. rewrite Hd, Hg. rewrite IH.
    + rewrite <- app_assoc. reflexivity.
    + intros c Hc. apply Hall. right; exact Hc.
Qed.

(** The loop stops at the first character without a label. *)
Lemma encode_loop_stops (m : gmap Z string) (l1 l2 : list ascii)
    (ch : ascii) (acc : list string) :
  all_mapped m l1 ->
  encode_loop m acc (l1 ++ ch :: l2)
  = match PyStr.int_of_char ch with
    | None => Raise (ValueError (invalid_literal_msg ch))
    | Some d =>
        match m !! d with
        | None => Raise (ValueError (no_mapping_msg d))
        | Some g => encode_loop m ((acc ++ labels_of m l1) ++ [g]) l2
        end
    end.
Proof.
  revert acc. induction l1 as [|c l1 IH]; intros acc Hall.
  - simpl. rewrite app_nil_r; reflexivity.
  - destruct (Hall c (or_introl eq_refl)) as (d & Hd & [g Hg]).
    rewrite (labels_of_cons m c l1 d g Hd Hg).
    cbn [encode_loop app]. rewrite Hd, Hg. rewrite IH.
    + rewrite <- (app_assoc acc [g]). reflexivity.
    + intros x Hx. apply Hall. right; exact Hx.
Qed.

Lemma append_assoc (s1 s2 s3 : string) :
  (s1 +:+ s2) +:+ s3 = s1 +:+ (s2 +:+ s3).
Proof.
  induction s1 as [|c s1 IH]; [reflexivity|].
  change (String c ((s1 +:+ s2) +:+ s3) = String c (s1 +:+ (s2 +:+ s3))).
  f_equal. exact IH.
Qed.

Lemma chars_length (s : string) : length (PyStr.chars s) = String.length s.
Proof. induction s; simpl; congruence. Qed.

(** [C1] For every keypad mapping that gives a label to each digit of the
    PIN, and every PIN made of digits, [build_encoded_password] returns the
    labels joined with the delimiter: there is one label per PIN digit, the
    i-th one being the mapping's label for the i-th digit. In particular the
    PIN 12345678 with the mapping 1:AAA ... 8:HHH encodes to
    AAA|BBB|CCC|DDD|EEE|FFF|GGG|HHH. *)
Theorem encoder_labels_in_order :
  (forall (m : gmap Z string) (pin : string),
      (forall ch, In ch (PyStr.chars pin) ->
                  is_Some (PyStr.int_of_char ch)) ->
      (forall ch d, In ch (PyStr.chars pin) ->
                    PyStr.int_of_char ch = Some d -> is_Some (m !! d)) ->
      exists groups : list string,
        build_encoded_password pin m = Ok (PyStr.join "|" groups)
        /\ length groups = String.length pin
        /\ forall (i : nat) (ch : ascii),
             PyStr.chars pin !! i = Some ch ->
             exists d label, PyStr.int_of_char ch = Some d
                             /\ m !! d = Some label
                             /\ groups !! i = Some label)
  /\ build_encoded_password "12345678" scenario_mapping
     = Ok "AAA|BBB|CCC|DDD|EEE|FFF|GGG|HHH".
Proof.
  split; [|vm_compute; reflexivity].
  intros m pin Hdig Hcov.
  assert (Hall : all_mapped m (PyStr.chars pin)).
  { intros ch Hch. destruct (Hdig ch Hch) as [d Hd].
    exists d. split; [exact Hd|]. exact (Hcov ch d Hch Hd). }
  exists (labels_of m (PyStr.chars pin)). split; [|split].
  - unfold build_encoded_password.
    rewrite (encode_loop_mapped m _ [] Hall). reflexivity.
  - unfold labels_of. rewrite length_map. apply chars_length.
  - intros i ch Hi.
    assert (Hin : In ch (PyStr.chars pin)).
    { apply list_elem_of_In. eapply list_elem_of_lookup_2; exact Hi. }
    destruct (Hall ch Hin) as (d & Hd & [g Hg]).
    exists d, g. split; [exact Hd|]. split; [exact Hg|].
    unfold labels_of. rewrite list_lookup_fmap, Hi.
    change (Some (default "" (PyStr.int_of_char ch ≫= (m !!.))) = Some g).
    rewrite Hd. change (Some (default "" (m !! d)) = Some g).
    rewrite Hg. reflexivity.
Qed.

Lemma encoder_labels_in_order_witness :
  exists groups : list string,
    build_encoded_password "2580" (<[2:="KQX"]> (<[5:="ZPL"]> (<[8:="MMO"]>
      (<[0:="TRE"]> (∅ : gmap Z string)))))
    = Ok (PyStr.join "|" groups)
    /\ length groups = 4%nat.
Proof.
  destruct (proj1 encoder_labels_in_order
              (<[2:="KQX"]> (<[5:="ZPL"]> (<[8:="MMO"]> (<[0:="TRE"]> ∅))))
              "2580") as (groups & Henc & Hlen & _).
  - intros ch Hch. simpl in Hch.
    repeat (destruct Hch as [<-|Hch]; [vm_compute; eauto|]). destruct Hch.
  - intros ch d Hch Hd. simpl in Hch.
    repeat (destruct Hch as [<-|Hch];
            [vm_compute in Hd; injection Hd as <-; vm_compute; eauto|]).
    destruct Hch.
  - exists groups. split; [exact Henc|exact Hlen].
Defined.

(** ** The Keypad Decoder *)

Lemma resolved_digits_cons (table : gmap Z Z) (key : tag * string)
    (keys : list (tag * string)) :
  resolved_digits table (key :: keys)
  = match resolved table key with
    | Some d => {[d]} ∪ resolved_digits table keys
    | None => resolved_digits table keys
    end.
Proof.
  unfold resolved_digits. cbn [omap list_omap].
  destruct (resolved table key); reflexivity.
Qed.

(** The loop returns when no image lacks its [src] and [path_len] is bound
    by the time it is read. If [path_len] is bound on entry, to a signature
    whose digit (if any) the mapping already has, the keys of the mapping
    returned are those it had and the digits the keys resolve to. *)
Lemma decode_loop_returns (table : gmap Z Z) (keys : list (tag * string)) :
  Forall image_has_src keys ->
  forall path_len mapping,
    match path_len with
    | Some n => forall d, table !! n = Some d -> d ∈ dom mapping
    | None => first_has_image keys
    end ->
    exists m : gmap Z string,
      ending (decode_loop table keys path_len mapping) = Val m
      /\ dom m = dom mapping ∪ resolved_digits table keys.
Proof.
  induction 1 as [|[btn k] keys Hsrc _ IH]; intros pl mapping Hready.
  - exists mapping. split; [reflexivity|].
    unfold resolved_digits. cbn. set_solver.
  - rewrite resolved_digits_cons. unfold resolved, signature.
    unfold image_has_src in Hsrc. cbn [fst] in *. cbn [decode_loop].
    destruct (tag_find (has_name "img") btn) as [img|] eqn:Himg.
    + destruct Hsrc as [path Hpath]. rewrite Hpath, bind_ret.
      change (Some (PyStr.len path) ≫= (table !!.))
        with (table !! PyStr.len path).
      destruct (table !! PyStr.len path) as [d|] eqn:Hd.
      * destruct (IH (Some (PyStr.len path)) (<[d:=k]> mapping))
          as (m & Hm & Hdom).
        { intros d' Hd'. rewrite Hd in Hd'. injection Hd' as <-.
          rewrite dom_insert_L. set_solver. }
        exists m. split; [exact Hm|]. rewrite Hdom, dom_insert_L.
        set_solver.
      * destruct (IH (Some (PyStr.len path)) mapping) as (m & Hm & Hdom).
        { intros d' Hd'. rewrite Hd in Hd'. discriminate. }
        exists m. split; [|exact Hdom].
        rewrite ending_bind. exact Hm.
    + rewrite bind_ret.
      destruct pl as [n|].
      2:{ unfold first_has_image in Hready. cbn [fst] in Hready.
          rewrite Himg in Hready. destruct Hready as [x Hx]. discriminate. }
      change (None ≫= (table !!.)) with (@None Z).
      destruct (table !! n) as [d|] eqn:Hd.
      * destruct (IH (Some n) (<[d:=k]> mapping)) as (m & Hm & Hdom).
        { intros d' Hd'. rewrite Hd in Hd'. injection Hd' as <-.
          rewrite dom_insert_L. set_solver. }
        exists m. split; [exact Hm|]. rewrite Hdom, dom_insert_L.
        pose proof (Hready d eq_refl). set_solver.
      * destruct (IH (Some n) mapping) as (m & Hm & Hdom).
        { intros d' Hd'. rewrite Hd in Hd'. discriminate. }
        exists m. split; [|exact Hdom].
        rewrite ending_bind. exact Hm.
Qed.

Ltac event_ok :=
  cbn;
  solve [ reflexivity | exact I | discriminate | eauto
        | left; event_ok | right; event_ok ].

(** Walks through a stage, one statement at a time. *)
Ltac footprint :=
  repeat first
    [ apply Forall_trace_bind; [|intros ? _]
    | match goal with
      | |- Forall _ (trace (match ?x with _ => _ end)) => destruct x
      | |- Forall _ (trace (if ?x then _ else _)) => destruct x
      end
    | progress (unfold debug, print_err, print, emit, raise, py_return,
                  mret, M_ret; cbn [trace fst]) ];
  repeat match goal with
         | |- Forall _ [] => constructor
         | |- Forall _ (_ :: _) => constructor; [event_ok|]
         end.

Section Footprints.

Variable ext : Externals.
Variable w : World.

Lemma decode_loop_footprint (table : gmap Z Z)
    (btns : list (tag * string)) :
  forall path_len mapping,
    Forall (fun e => is_local e = true)
      (trace (decode_loop table btns path_len mapping)).
Proof.
  induction btns as [|[btn k] btns IH]; intros pl mapping.
  - constructor.
  - cbn [decode_loop]. apply Forall_trace_bind.
    + footprint.
    + intros [n|] _; [|constructor].
      destruct (table !! n); [apply IH|].
      apply Forall_trace_bind; [footprint|intros _ _; apply IH].
Qed.

Lemma step1_footprint :
  Forall (fun e => is_local e = true \/ e = HttpGet LOGIN_PAGE [])
    (trace (step1_cookies ext w)).
Proof.
  unfold step1_cookies, session_get, raise_for_status. footprint.
Qed.

Lemma step2_footprint :
  Forall (fun e => is_local e = true \/ e = HttpGet CLAVIER_URL [])
    (trace (step2_keypad ext w)).
Proof.
  unfold step2_keypad, session_get, raise_for_status, decode_keypad.
  repeat (apply Forall_trace_bind; [solve [footprint]|intros ? _]).
  apply Forall_trace_bind.
  - eapply Forall_impl; [apply decode_loop_footprint|].
    intros e He; left; exact He.
  - intros m _. footprint.
Qed.

Lemma step3_footprint (client_number numeric_password : string)
    (token : option string) (rc : Response) (mapping : gmap Z string) :
  Forall (fun e => is_local e = true
                   \/ exists encoded_password,
                        build_encoded_password numeric_password mapping
                        = Ok encoded_password
                        /\ e = HttpPost PASSWORD_POST
                               (login_data client_number encoded_password
                                  numeric_password token
                                  (search_challenge ext (text rc)))
                               login_headers)
    (trace (step3_login ext w client_number numeric_password token rc
              mapping)).
Proof.
  unfold step3_login, session_post.
  apply Forall_trace_bind; [footprint|intros _ _].
  destruct (build_encoded_password numeric_password mapping) as [p|e].
  - rewrite bind_ret. footprint.
  - unfold print_err. rewrite bind_emit.
    cbn [trace ending py_return fst snd mbind M_bind].
    constructor; [left; reflexivity|constructor].
Qed.

Lemma step4_account_footprint (account : string) :
  Forall (fun e => is_local e = true \/ e = HttpGet BUDGET_URL [])
    (trace (step4_account ext w account)).
Proof. unfold step4_account, session_get. footprint. Qed.

Lemma step4_export_footprint (selected : string)
    (from_date to_date : datetime) :
  Forall (fun e => is_local e = true \/ is_read_csv e = true
                   \/ e = HttpGet EXPORT_URL
                            (export_params ext selected from_date to_date))
    (trace (step4_export ext w selected from_date to_date)).
Proof. unfold step4_export, session_get, pd_read_csv. footprint. Qed.

(** *** How far a live run got when an event happened *)

Variables (client_number numeric_password account : string).
Variables (from_date : datetime).

Let to_date := today_to_date w.
Let live :=
  live_run ext w client_number numeric_password account from_date to_date.

Lemma live_run_event (e : event) :
  In e (trace live) ->
  In e (trace (step1_cookies ext w))
  \/ exists token, ending (step1_cookies ext w) = Val token
     /\ (In e (trace (step2_keypad ext w))
         \/ exists rc mapping,
              ending (step2_keypad ext w) = Val (rc, mapping)
              /\ (In e (trace (step3_login ext w client_number
                                 numeric_password token rc mapping))
                  \/ ending (step3_login ext w client_number
                               numeric_password token rc mapping) = Val tt
                     /\ (In e (trace (step4_account ext w account))
                         \/ exists selected,
                              ending (step4_account ext w account)
                              = Val selected
                              /\ In e (trace (step4_export ext w selected
                                                from_date to_date))))).
Proof.
  unfold live, live_run. intros H.
  apply in_trace_bind in H as [H|(token & Ht & H)]; [left; exact H|].
  right. exists token. split; [exact Ht|].
  apply in_trace_bind in H as [H|([rc mapping] & H2 & H)]; [left; exact H|].
  right. exists rc, mapping. split; [exact H2|].
  apply in_trace_bind in H as [H|([] & H3 & H)]; [left; exact H|].
  right. split; [exact H3|].
  apply in_trace_bind in H as [H|(selected & H4 & H)]; [left; exact H|].
  right. exists selected. split; [exact H4|].
  apply in_trace_bind in H as [H|(df & _ & H)]; [exact H|].
  destruct H.
Qed.

End Footprints.

(** ** Scenario checks *)

Example happy_run_saves :
  ending (main Scenario.ext Scenario.happy false Scenario.client Scenario.pin
            "ACC-USER" Scenario.from_date) = Val tt
  /\ In (HttpPost PASSWORD_POST
           (login_data Scenario.client "TUV|KNO|HIJ|QRS|EFG|WXA|YZA|GHT"
              Scenario.pin (Some "tok42") (Some "c7a1"))
           login_headers)
        (trace (main Scenario.ext Scenario.happy false Scenario.client
                  Scenario.pin "ACC-USER" Scenario.from_date)).
Proof. vm_compute. split; [reflexivity|]. tauto. Qed.

(** ** The [__main__] block *)

(** [C10] Whatever the arguments and the environment, the startup
    diagnostics hand a [datetime] to [datetime.fromisoformat], which raises
    [TypeError]: the script stops there, having only printed its version, so
    before the argument count is checked, before the last-run file is looked
    at and before any request is made. *)
Theorem script_always_raises_TypeError (ext : Externals) (w : World)
    (argv0 : string) (args : list string) :
  script ext w argv0 args
  = ([Print "Running version 1.0.0"],
     Raised (TypeError "fromisoformat: argument must be str")).
Proof.
  unfold script, print. rewrite bind_emit.
  unfold fromisoformat. rewrite bind_raise. reflexivity.
Qed.

(** ** The Keypad Decoder *)

Lemma decode_keypad_returns (table : gmap Z Z) (doc : soup) :
  decodable (keys_of doc) ->
  exists mapping : gmap Z string,
    ending (decode_keypad table doc) = Val mapping
    /\ dom mapping = resolved_digits table (keys_of doc).
Proof.
  intros [Hfirst Hsrc].
  destruct (decode_loop_returns table (keys_of doc) Hsrc None ∅ Hfirst)
    as (m & Hm & Hdom).
  exists m. split; [exact Hm|]. rewrite Hdom, dom_empty_L. set_solver.
Qed.

Lemma elem_of_resolved_digits (table : gmap Z Z) (keys : list (tag * string))
    (d : Z) :
  d ∈ resolved_digits table keys
  <-> exists key, In key keys /\ resolved table key = Some d.
Proof.
  unfold resolved_digits. rewrite elem_of_list_to_set, list_elem_of_omap.
  split; intros (key & Hk & Hr); exists key; split; auto;
    apply list_elem_of_In; exact Hk.
Qed.

Lemma elem_of_ten_digits (d : Z) : d ∈ ten_digits <-> 0 <= d <= 9.
Proof.
  unfold ten_digits. rewrite elem_of_list_to_set. split.
  - intros H. apply list_elem_of_In in H. simpl in H. lia.
  - intros H. apply list_elem_of_In. simpl.
    assert (d = 0 \/ d = 1 \/ d = 2 \/ d = 3 \/ d = 4 \/ d = 5 \/ d = 6
            \/ d = 7 \/ d = 8 \/ d = 9) by lia.
    intuition auto.
Qed.

(** Where the loop meets no key that stops it (the first key has an image
    and every image a reference): for every signature table whose entries
    are the digits 0 to 9 and every keypad fragment among whose keys each of
    the ten digits is resolved by some key, the decoder returns a mapping of
    size exactly 10 whose keys are the digits 0 to 9. *)
Theorem decoder_full_mapping (table : gmap Z Z) (doc : soup)
    (Htable : forall n d, table !! n = Some d -> 0 <= d <= 9)
    (Hkeypad : decodable (keys_of doc))
    (Hkeys : forall d, 0 <= d <= 9 ->
               exists key, In key (keys_of doc)
                           /\ resolved table key = Some d) :
  exists mapping : gmap Z string,
    ending (decode_keypad table doc) = Val mapping
    /\ size mapping = 10%nat
    /\ forall d, is_Some (mapping !! d) <-> 0 <= d <= 9.
Proof.
  destruct (decode_keypad_returns table doc Hkeypad) as (m & Hend & Hdom0).
  exists m. split; [exact Hend|].
  assert (Hdom : dom m = ten_digits).
  { rewrite Hdom0. apply set_eq. intros d.
    rewrite elem_of_resolved_digits, elem_of_ten_digits. split.
    - intros ([btn k] & _ & Hr). unfold resolved in Hr. cbn [fst] in Hr.
      destruct (signature btn) as [n|]; [|discriminate].
      exact (Htable n d Hr).
    - apply Hkeys. }
  split.
  - rewrite <- size_dom, Hdom. vm_compute. reflexivity.
  - intros d. rewrite <- elem_of_dom, Hdom. apply elem_of_ten_digits.
Qed.

Lemma table_entries_are_digits :
  forall n d, B64_SVG_LEN_MAP !! n = Some d -> 0 <= d <= 9.
Proof.
  assert (H : map_Forall (fun _ d => 0 <= d <= 9) B64_SVG_LEN_MAP).
  { apply (bool_decide_unpack _). vm_compute. exact I. }
  exact H.
Defined.

Lemma decoder_full_mapping_witness :
  exists mapping : gmap Z string,
    ending (decode_keypad B64_SVG_LEN_MAP Scenario.full_keypad) = Val mapping
    /\ size mapping = 10%nat
    /\ forall d, is_Some (mapping !! d) <-> 0 <= d <= 9.
Proof.
  apply (decoder_full_mapping B64_SVG_LEN_MAP Scenario.full_keypad).
  - exact table_entries_are_digits.
  - split; [vm_compute; eexists; reflexivity|].
    repeat (constructor; [vm_compute; eexists; reflexivity|]). constructor.
  - intros d Hd.
    assert (Hcases : d = 0 \/ d = 1 \/ d = 2 \/ d = 3 \/ d = 4 \/ d = 5
                     \/ d = 6 \/ d = 7 \/ d = 8 \/ d = 9) by lia.
    repeat destruct Hcases as [->|Hcases]; try subst d.
    + exists (Scenario.key "PLM" 419, "PLM"). split; [|vm_compute; reflexivity].
      vm_compute. repeat (first [left; reflexivity|right]).
    + exists (Scenario.key "TUV" 259, "TUV"). split; [|vm_compute; reflexivity].
      vm_compute. repeat (first [left; reflexivity|right]).
    + exists (Scenario.key "EFG" 1131, "EFG"). split; [|vm_compute; reflexivity].
      vm_compute. repeat (first [left; reflexivity|right]).
    + exists (Scenario.key "KNO" 979, "KNO"). split; [|vm_compute; reflexivity].
      vm_compute. repeat (first [left; reflexivity|right]).
    + exists (Scenario.key "WXA" 763, "WXA"). split; [|vm_compute; reflexivity].
      vm_compute. repeat (first [left; reflexivity|right]).
    + exists (Scenario.key "HIJ" 839, "HIJ"). split; [|vm_compute; reflexivity].
      vm_compute. repeat (first [left; reflexivity|right]).
    + exists (Scenario.key "YZA" 1075, "YZA"). split; [|vm_compute; reflexivity].
      vm_compute. repeat (first [left; reflexivity|right]).
    + exists (Scenario.key "QRS" 1359, "QRS"). split; [|vm_compute; reflexivity].
      vm_compute. repeat (first [left; reflexivity|right]).
    + exists (Scenario.key "GHT" 1023, "GHT"). split; [|vm_compute; reflexivity].
      vm_compute. repeat (first [left; reflexivity|right]).
    + exists (Scenario.key "BCD" 1047, "BCD"). split; [|vm_compute; reflexivity].
      vm_compute. repeat (first [left; reflexivity|right]).
Defined.

(** [C5] The claim fails on a fragment that exposes all ten keys, each with
    a signature the table resolves, one per digit, when an element carrying
    a [data-matrix-key] and no image comes before them: the loop reads
    [path_len] at that element before anything was assigned to it, the
    decoder raises [UnboundLocalError] and there is no mapping at all. *)
Theorem imageless_element_defeats_full_keypad :
  omap (resolved B64_SVG_LEN_MAP) (keys_of Scenario.bare_then_full_keypad)
  = [4; 0; 7; 1; 9; 2; 5; 3; 6; 8]
  /\ resolved_digits B64_SVG_LEN_MAP (keys_of Scenario.bare_then_full_keypad)
     = ten_digits
  /\ decode_keypad B64_SVG_LEN_MAP Scenario.bare_then_full_keypad
     = ([], Raised (UnboundLocalError "path_len")).
Proof.
  split; [vm_compute; reflexivity|]. split; [|vm_compute; reflexivity].
  unfold resolved_digits.
  replace (omap (resolved B64_SVG_LEN_MAP)
             (keys_of Scenario.bare_then_full_keypad))
    with [4; 0; 7; 1; 9; 2; 5; 3; 6; 8] by (vm_compute; reflexivity).
  apply set_eq. intros d. unfold ten_digits.
  rewrite !elem_of_list_to_set. split; intros H; apply list_elem_of_In in H;
    apply list_elem_of_In; simpl in *; lia.
Qed.

(** ** How the stages chain *)

Section Chain.

Variable ext : Externals.
Variable w : World.
Variables (client_number numeric_password account : string).
Variables (from_date : datetime).

Let to_date := today_to_date w.
Let live :=
  live_run ext w client_number numeric_password account from_date to_date.
Let run := main ext w false client_number numeric_password account from_date.

Lemma step1_loaded (r2 : Response) :
  login_page_loaded ext w r2 ->
  ending (step1_cookies ext w)
  = Val (extract_token_from_login ext (text r2)).
Proof.
  intros (r1 & v & H1 & Hok1 & Hc & H2 & Hok2).
  unfold step1_cookies, session_get, raise_for_status, ok_status in *.
  rewrite H1, H2.
  repeat (rewrite ending_bind; cbn [ending debug emit snd mret M_ret]).
  rewrite Hok1. cbn [ending snd mret M_ret].
  repeat (rewrite ending_bind; cbn [ending debug emit snd mret M_ret]).
  rewrite Hc.
  repeat (rewrite ending_bind; cbn [ending debug emit snd mret M_ret]).
  rewrite Hok2. cbn [ending snd mret M_ret].
  repeat (rewrite ending_bind; cbn [ending debug emit snd mret M_ret]).
  destruct (extract_token_from_login ext (text r2)); reflexivity.
Qed.

(** The ending of step 2 is the ending of the decoder. *)
Lemma step2_loaded (rc : Response) :
  keypad_loaded w rc ->
  ending (step2_keypad ext w)
  = match ending (decode_keypad B64_SVG_LEN_MAP (html_parser ext (text rc)))
    with
    | Val mapping => Val (rc, mapping)
    | Returned => Returned
    | Raised e => Raised e
    end.
Proof.
  intros [Hc Hok].
  unfold step2_keypad, session_get, raise_for_status, ok_status in *.
  rewrite Hc.
  repeat (rewrite ending_bind; cbn [ending debug emit snd mret M_ret]).
  rewrite Hok. cbn [ending snd mret M_ret].
  destruct (ending (decode_keypad _ _)) as [m| |e]; try reflexivity.
  cbv beta iota. rewrite ending_bind.
  destruct (Z.of_nat (size m) <? 10); reflexivity.
Qed.

Lemma live_ending :
  ending live
  = match ending (step1_cookies ext w) with
    | Val token =>
        match ending (step2_keypad ext w) with
        | Val (rc, mapping) =>
            match ending (step3_login ext w client_number numeric_password
                            token rc mapping) with
            | Val _ =>
                match ending (step4_account ext w account) with
                | Val selected =>
                    match ending (step4_export ext w selected from_date
                                    to_date) with
                    | Val df => Val (selected, df)
                    | o => stop o
                    end
                | o => stop o
                end
            | o => stop o
            end
        | o => stop o
        end
    | o => stop o
    end.
Proof.
  unfold live, live_run. rewrite ending_bind.
  destruct (ending (step1_cookies ext w)) as [token| |e]; try reflexivity.
  rewrite ending_bind.
  destruct (ending (step2_keypad ext w)) as [[rc mapping]| |e];
    try reflexivity.
  rewrite ending_bind.
  destruct (ending (step3_login _ _ _ _ _ _ _)) as [[]| |e]; try reflexivity.
  rewrite ending_bind.
  destruct (ending (step4_account _ _ _)) as [selected| |e]; try reflexivity.
  rewrite ending_bind.
  destruct (ending (step4_export _ _ _ _ _)) as [df| |e]; reflexivity.
Qed.

Lemma run_valid :
  valid_args client_number numeric_password ->
  run = (emit (HeadersUpdate "User-Agent" USER_AGENT) ;;
         '(account_name_output, df) ← live;
         let outfn_path :=
           OUTPUT_FOLDER +:+ "/"
           +:+ ("boursorama_transactions_" +:+ account_name_output +:+ "_"
                +:+ strftime ext from_date "%Y%m%d" +:+ "_"
                +:+ strftime ext to_date "%Y%m%d" +:+ ".csv") in
         to_csv w outfn_path df ;;
         print ("Saved CSV to " +:+ outfn_path) ;;
         write_file w SAVE_FILE (isoformat ext (today_saved w))).
Proof.
  intros [Hc Hp]. unfold run, main. rewrite Hc, Hp. reflexivity.
Qed.

(** How the saving ends: each of the two files is written or its write
    raises. *)
Lemma run_ending :
  valid_args client_number numeric_password ->
  ending run
  = match ending live with
    | Val (account_name_output, _) =>
        let outfn_path :=
          OUTPUT_FOLDER +:+ "/"
          +:+ ("boursorama_transactions_" +:+ account_name_output +:+ "_"
               +:+ strftime ext from_date "%Y%m%d" +:+ "_"
               +:+ strftime ext to_date "%Y%m%d" +:+ ".csv") in
        if writable w outfn_path
        then if writable w SAVE_FILE
             then Val tt
             else Raised (OSError SAVE_FILE)
        else Raised (OSError outfn_path)
    | Returned => Returned
    | Raised e => Raised e
    end.
Proof.
  intros Hv. rewrite (run_valid Hv). rewrite bind_emit. cbn [ending snd].
  rewrite ending_bind.
  destruct (ending live) as [[n df]| |e]; try reflexivity.
  cbv zeta. unfold to_csv, write_file, print.
  rewrite bind_assoc, bind_emit. cbn [ending snd].
  destruct (writable w (OUTPUT_FOLDER +:+ _)); [|reflexivity].
  rewrite bind_ret, !bind_emit. cbn [ending snd].
  destruct (writable w SAVE_FILE); reflexivity.
Qed.

Lemma run_trace_live (e : event) :
  valid_args client_number numeric_password ->
  In e (trace live) -> In e (trace run).
Proof.
  intros Hv H. rewrite (run_valid Hv). rewrite bind_emit. cbn [trace fst].
  right. apply in_trace_bind. left. exact H.
Qed.

Lemma live_trace_step1 (e : event) :
  In e (trace (step1_cookies ext w)) -> In e (trace live).
Proof. intros H. unfold live, live_run. apply in_trace_bind. left; exact H. Qed.

Lemma live_trace_step2 (e : event) (token : option string) :
  ending (step1_cookies ext w) = Val token ->
  In e (trace (step2_keypad ext w)) -> In e (trace live).
Proof.
  intros H1 H. unfold live, live_run. apply in_trace_bind. right.
  exists token. split; [exact H1|]. apply in_trace_bind. left; exact H.
Qed.

Lemma live_trace_step3 (e : event) (token : option string) (rc : Response)
    (mapping : gmap Z string) :
  ending (step1_cookies ext w) = Val token ->
  ending (step2_keypad ext w) = Val (rc, mapping) ->
  In e (trace (step3_login ext w client_number numeric_password token rc
                 mapping)) ->
  In e (trace live).
Proof.
  intros H1 H2 H. unfold live, live_run. apply in_trace_bind. right.
  exists token. split; [exact H1|]. apply in_trace_bind. right.
  exists (rc, mapping). split; [exact H2|]. apply in_trace_bind.
  left; exact H.
Qed.

Lemma main_event (e : event) :
  In e (trace run) ->
  is_local e = true
  \/ valid_args client_number numeric_password
     /\ (In e (trace live)
         \/ is_output e = true
            /\ exists selected df, ending live = Val (selected, df)).
Proof.
  destruct (PyStr.isdigit client_number) eqn:Hc.
  2:{ unfold run, main. rewrite Hc. intros [<-|[]]. left; reflexivity. }
  destruct (PyStr.isdigit numeric_password
            && (PyStr.len numeric_password =? 8)) eqn:Hp.
  2:{ unfold run, main. rewrite Hc, Hp. intros [<-|[]]. left; reflexivity. }
  assert (Hv : valid_args client_number numeric_password) by (split; auto).
  rewrite (run_valid Hv). rewrite bind_emit. cbn [trace fst].
  intros [<-|H]; [left; reflexivity|].
  apply in_trace_bind in H as [H|([selected df] & Hl & H)];
    [right; split; [exact Hv|left; exact H]|].
  cbv zeta in H. unfold to_csv, write_file, print in H.
  rewrite bind_assoc, bind_emit in H. cbn [trace fst] in H.
  destruct H as [<-|H].
  - right; split; [exact Hv|right]. split; [reflexivity|].
    exists selected, df. exact Hl.
  - destruct (writable w (OUTPUT_FOLDER +:+ _)); [|destruct H].
    rewrite bind_ret, !bind_emit in H. cbn [trace fst emit] in H.
    destruct H as [<-|[<-|H]]; [left; reflexivity| |].
    + right; split; [exact Hv|right]. split; [reflexivity|].
      exists selected, df. exact Hl.
    + destruct (writable w SAVE_FILE); destruct H.
Qed.

(** A login submission in the trace: steps 1 and 2 came to an end and the
    password was encoded. *)
Lemma post_in_run (u : string) (d : list (string * option string))
    (h : list (string * string)) :
  In (HttpPost u d h) (trace run) ->
  valid_args client_number numeric_password
  /\ exists token rc mapping encoded_password,
       ending (step1_cookies ext w) = Val token
       /\ ending (step2_keypad ext w) = Val (rc, mapping)
       /\ build_encoded_password numeric_password mapping
          = Ok encoded_password
       /\ HttpPost u d h
          = HttpPost PASSWORD_POST
              (login_data client_number encoded_password numeric_password
                 token (search_challenge ext (text rc)))
              login_headers.
Proof.
  intros H. apply main_event in H as [H|[Hv [H|[H _]]]]; try discriminate.
  split; [exact Hv|].
  apply live_run_event in H as [H|(token & H1 & [H|(rc & mapping & H2 & H)])].
  - apply (Forall_In _ _ _ (step1_footprint ext w)) in H
        as [H|H]; discriminate.
  - apply (Forall_In _ _ _ (step2_footprint ext w)) in H
        as [H|H]; discriminate.
  - destruct H as [H|(_ & [H|(selected & _ & H)])].
    + apply (Forall_In _ _ _ (step3_footprint ext w client_number numeric_password token rc mapping)) in H
        as [H|(p & Hp & H)];
        [discriminate|].
      exists token, rc, mapping, p. auto.
    + apply (Forall_In _ _ _ (step4_account_footprint ext w account)) in H
        as [H|H]; discriminate.
    + apply (Forall_In _ _ _ (step4_export_footprint ext w selected from_date to_date)) in H
        as [H|[H|H]]; discriminate.
Qed.

(** An event of step 4 or later in the trace: the login went through. *)
Lemma after_login_in_run (e : event) :
  In e (trace run) ->
  is_get_of BUDGET_URL e = true \/ is_get_of EXPORT_URL e = true
  \/ is_read_csv e = true \/ is_output e = true ->
  valid_args client_number numeric_password
  /\ exists token rc mapping,
       ending (step1_cookies ext w) = Val token
       /\ ending (step2_keypad ext w) = Val (rc, mapping)
       /\ ending (step3_login ext w client_number numeric_password token rc
                    mapping) = Val tt.
Proof.
  intros H Hk. apply main_event in H as [H|[Hv H]].
  { destruct e; cbn in H; try discriminate;
      destruct Hk as [Hk|[Hk|[Hk|Hk]]]; discriminate. }
  split; [exact Hv|].
  destruct H as [H|[_ (selected & df & Hl)]].
  - apply live_run_event in H
      as [H|(token & H1 & [H|(rc & mapping & H2 & [H|[H3 _]])])].
    + apply (Forall_In _ _ _ (step1_footprint ext w)) in H
        as [H| ->].
      * destruct e; cbn in H; try discriminate;
          destruct Hk as [Hk|[Hk|[Hk|Hk]]]; discriminate.
      * destruct Hk as [Hk|[Hk|[Hk|Hk]]]; vm_compute in Hk; discriminate.
    + apply (Forall_In _ _ _ (step2_footprint ext w)) in H
        as [H| ->].
      * destruct e; cbn in H; try discriminate;
          destruct Hk as [Hk|[Hk|[Hk|Hk]]]; discriminate.
      * destruct Hk as [Hk|[Hk|[Hk|Hk]]]; vm_compute in Hk; discriminate.
    + apply (Forall_In _ _ _ (step3_footprint ext w client_number numeric_password token rc mapping)) in H
        as [H|(p & _ & ->)].
      * destruct e; cbn in H; try discriminate;
          destruct Hk as [Hk|[Hk|[Hk|Hk]]]; discriminate.
      * destruct Hk as [Hk|[Hk|[Hk|Hk]]]; discriminate.
    + exists token, rc, mapping. auto.
  - rewrite live_ending in Hl.
    destruct (ending (step1_cookies ext w)) as [token| |x]; try discriminate.
    destruct (ending (step2_keypad ext w)) as [[rc mapping]| |x];
      try discriminate.
    destruct (ending (step3_login ext w client_number numeric_password token
                        rc mapping)) as [[]| |x] eqn:H3; try discriminate.
    exists token, rc, mapping. auto.
Qed.

End Chain.

(** ** Keys without an image *)

Lemma signature_inv (btn : tag) (n : Z) :
  signature btn = Some n ->
  exists img path,
    tag_find (has_name "img") btn = Some img
    /\ get img "src" = Some path /\ PyStr.len path = n.
Proof.
  unfold signature. intros H.
  destruct (tag_find (has_name "img") btn) as [img|]; [|discriminate].
  destruct (get img "src") as [path|] eqn:Hsrc; [|discriminate].
  injection H as <-. exists img, path. repeat split; auto.
Qed.



(** ** The encoder fails exactly on an unmapped digit *)

(** Either every character has a label, or there is a first one without. *)
Lemma first_unmapped (m : gmap Z string) (l : list ascii) :
  (forall ch, In ch l -> is_Some (PyStr.int_of_char ch)) ->
  all_mapped m l
  \/ exists l1 ch l2 d,
       l = (l1 ++ ch :: l2)%list /\ all_mapped m l1
       /\ PyStr.int_of_char ch = Some d /\ m !! d = None.
Proof.
  induction l as [|ch l IH]; intros Hdig.
  - left. intros ch [].
  - destruct (Hdig ch (or_introl eq_refl)) as [d Hd].
    destruct (m !! d) as [g|] eqn:Hg.
    + destruct IH as [Hall|(l1 & c & l2 & d' & -> & Hall & Hc & Hn)].
      * intros x Hx. apply Hdig. right; exact Hx.
      * left. intros x [<-|Hx]; [exists d; split; eauto|apply Hall; exact Hx].
      * right. exists (ch :: l1), c, l2, d'. repeat split; auto.
        intros x [<-|Hx]; [exists d; split; eauto|apply Hall; exact Hx].
    + right. exists [], ch, l, d. repeat split; auto. intros x [].
Qed.

Lemma encoder_fails_iff (m : gmap Z string) (pin : string) :
  (forall ch, In ch (PyStr.chars pin) -> is_Some (PyStr.int_of_char ch)) ->
  (exists ch d, In ch (PyStr.chars pin)
                /\ PyStr.int_of_char ch = Some d /\ m !! d = None)
  <-> exists d, build_encoded_password pin m
                = Raise (ValueError (no_mapping_msg d)).
Proof.
  intros Hdig. unfold build_encoded_password.
  destruct (first_unmapped m (PyStr.chars pin) Hdig)
    as [Hall|(l1 & c & l2 & d & Hl & Hall & Hc & Hn)].
  - rewrite (encode_loop_mapped m _ [] Hall). split.
    + intros (ch & d & Hin & Hd & Hn).
      destruct (Hall ch Hin) as (d' & Hd' & [g Hg]). congruence.
    + intros (d & Hd). discriminate.
  - rewrite Hl, (encode_loop_stops m l1 l2 c [] Hall), Hc, Hn. split.
    + intros _. exists d. reflexivity.
    + intros _. exists c, d. repeat split; auto.
      apply in_or_app. right; left; reflexivity.
Qed.

(** ** Steps 2 and 3, seen from the run *)

Section Stages.

Variable ext : Externals.
Variable w : World.
Variables (client_number numeric_password account : string).
Variables (from_date : datetime).

Lemma step2_reports (rc : Response) (mapping : gmap Z string) :
  keypad_loaded w rc ->
  ending (decode_keypad B64_SVG_LEN_MAP (html_parser ext (text rc)))
  = Val mapping ->
  In (if Z.of_nat (size mapping) <? 10
      then Debug ("Only found mapping for " +:+ pretty (size mapping)
                  +:+ " digits; expected 10. Aborting.")
      else Debug "Found full mapping for digits 0-9.")
     (trace (step2_keypad ext w)).
Proof.
  intros [Hc Hok] Hd. unfold step2_keypad, session_get, raise_for_status.
  rewrite Hc. unfold ok_status in Hok.
  unfold debug. rewrite bind_emit. right. cbn [trace fst].
  rewrite bind_emit. right. cbn [trace fst].
  apply in_trace_bind. right. exists rc. split.
  { rewrite bind_emit. reflexivity. }
  rewrite Hok, bind_ret.
  apply in_trace_bind. right. exists mapping. split; [exact Hd|].
  apply in_trace_bind. left.
  destruct (Z.of_nat (size mapping) <? 10); left; reflexivity.
Qed.

Lemma step3_starts (token : option string) (rc : Response)
    (mapping : gmap Z string) :
  In (Debug "### Step 3: Loggin in! ###")
     (trace (step3_login ext w client_number numeric_password token rc
               mapping)).
Proof.
  unfold step3_login, debug. rewrite bind_emit. left; reflexivity.
Qed.

(** The encoder raised: step 3 prints the error and returns from [main]. *)
Lemma step3_encoding_error (token : option string) (rc : Response)
    (mapping : gmap Z string) (e : exn) :
  build_encoded_password numeric_password mapping = Raise e ->
  step3_login ext w client_number numeric_password token rc mapping
  = ([Debug "### Step 3: Loggin in! ###";
      PrintErr ("Error encoding password: " +:+ str_exn e)], Returned).
Proof.
  intros Hb. unfold step3_login. rewrite Hb.
  unfold debug, print_err. rewrite bind_emit. rewrite bind_emit. reflexivity.
Qed.

(** The encoder succeeded: step 3 submits the login form. *)
Lemma step3_submits (token : option string) (rc : Response)
    (mapping : gmap Z string) (encoded_password : string) :
  build_encoded_password numeric_password mapping = Ok encoded_password ->
  In (HttpPost PASSWORD_POST
        (login_data client_number encoded_password numeric_password token
           (search_challenge ext (text rc)))
        login_headers)
     (trace (step3_login ext w client_number numeric_password token rc
               mapping)).
Proof.
  intros Hb. unfold step3_login. rewrite Hb.
  unfold debug. rewrite bind_emit. right. cbn [trace fst].
  rewrite bind_ret.
  apply in_trace_bind. right. exists tt. split.
  { destruct (negb (PyStr.truthy (search_challenge ext (text rc))));
      reflexivity. }
  rewrite bind_emit. right. cbn [trace fst].
  apply in_trace_bind. left. unfold session_post. rewrite bind_emit.
  left; reflexivity.
Qed.

End Stages.

(** ** Best-effort decoding, late failure *)

(** [C4] When the keys of the keypad fragment resolve to fewer than 10
    distinct digits, and the loop meets no key that stops it (the first key
    has an image and every image a reference), the decoder does not fail: it
    returns the mapping of exactly those digits, one entry per digit, so as
    many as there are resolvable keys only when no two of them resolve to
    the same digit; the run logs that and goes on to step 3. The encoder
    then fails with its no-mapping [ValueError] exactly when the PIN has a
    digit that the mapping lacks; the run then prints the error and returns
    without submitting anything or writing anything. When the mapping has
    all the digits of the PIN, the complete encoded credential is
    submitted. *)
Theorem degraded_mapping_fails_late (ext : Externals) (w : World)
    (client_number numeric_password account : string) (from_date : datetime)
    (r2 rc : Response) :
  let keys := keys_of (html_parser ext (text rc)) in
  let run := main ext w false client_number numeric_password account
               from_date in
  valid_args client_number numeric_password ->
  (forall ch, In ch (PyStr.chars numeric_password) ->
              is_Some (PyStr.int_of_char ch)) ->
  login_page_loaded ext w r2 ->
  keypad_loaded w rc ->
  decodable keys ->
  (size (resolved_digits B64_SVG_LEN_MAP keys) < 10)%nat ->
  exists mapping : gmap Z string,
    (ending (step2_keypad ext w) = Val (rc, mapping)
     /\ dom mapping = resolved_digits B64_SVG_LEN_MAP keys
     /\ size mapping = size (resolved_digits B64_SVG_LEN_MAP keys)
     /\ (NoDup (omap (resolved B64_SVG_LEN_MAP) keys) ->
         size mapping = length (omap (resolved B64_SVG_LEN_MAP) keys)))
    /\ (In (Debug ("Only found mapping for " +:+ pretty (size mapping)
                   +:+ " digits; expected 10. Aborting.")) (trace run)
        /\ In (Debug "### Step 3: Loggin in! ###") (trace run))
    /\ ((exists ch d, In ch (PyStr.chars numeric_password)
                      /\ PyStr.int_of_char ch = Some d
                      /\ mapping !! d = None)
        <-> exists d, build_encoded_password numeric_password mapping
                      = Raise (ValueError (no_mapping_msg d)))
    /\ (forall d,
          build_encoded_password numeric_password mapping
          = Raise (ValueError (no_mapping_msg d)) ->
          ending run = Returned
          /\ In (PrintErr ("Error encoding password: " +:+ no_mapping_msg d))
                (trace run)
          /\ forall e, In e (trace run) ->
                       is_post e = false /\ is_output e = false)
    /\ ((forall ch d, In ch (PyStr.chars numeric_password) ->
                      PyStr.int_of_char ch = Some d ->
                      is_Some (mapping !! d)) ->
        In (HttpPost PASSWORD_POST
              (login_data client_number
                 (PyStr.join "|"
                    (labels_of mapping (PyStr.chars numeric_password)))
                 numeric_password (extract_token_from_login ext (text r2))
                 (search_challenge ext (text rc)))
              login_headers) (trace run)).
Proof.
  intros keys run Hv Hdig Hl Hk Hkeys Hsize.
  destruct (decode_keypad_returns B64_SVG_LEN_MAP _ Hkeys)
    as (mapping & Hdec & Hdom).
  fold keys in Hdom. exists mapping.
  pose proof (step1_loaded ext w r2 Hl) as H1.
  assert (H2 : ending (step2_keypad ext w) = Val (rc, mapping)).
  { rewrite (step2_loaded ext w rc Hk), Hdec. reflexivity. }
  assert (Hsz : size mapping = size (resolved_digits B64_SVG_LEN_MAP keys))
    by (rewrite <- Hdom; symmetry; apply size_dom).
  split; [|split; [split|]].
  - split; [exact H2|]. split; [exact Hdom|]. split; [exact Hsz|].
    intros Hnd. rewrite Hsz. unfold resolved_digits.
    apply size_list_to_set. exact Hnd.
  - apply (run_trace_live _ _ _ _ _ _ _ Hv).
    apply (live_trace_step2 _ _ _ _ _ _ _ _ H1).
    pose proof (step2_reports ext w rc mapping Hk Hdec) as Hr.
    assert (Hlt : (Z.of_nat (size mapping) <? 10) = true)
      by (apply Z.ltb_lt; lia).
    rewrite Hlt in Hr. exact Hr.
  - apply (run_trace_live _ _ _ _ _ _ _ Hv).
    apply (live_trace_step3 _ _ _ _ _ _ _ _ _ _ H1 H2). apply step3_starts.
  - split; [apply encoder_fails_iff; exact Hdig|]. split.
    + intros d Hb.
      pose proof (step3_encoding_error ext w client_number numeric_password
                    (extract_token_from_login ext (text r2)) rc mapping _ Hb)
        as H3.
      split; [|split].
      * unfold run. rewrite (run_ending _ _ _ _ _ _ Hv), live_ending.
        rewrite H1, H2, H3. reflexivity.
      * apply (run_trace_live _ _ _ _ _ _ _ Hv).
        apply (live_trace_step3 _ _ _ _ _ _ _ _ _ _ H1 H2).
        rewrite H3. right; left; reflexivity.
      * intros e He. split.
        -- destruct e; try reflexivity.
           apply post_in_run in He
             as (_ & token & rc' & m & enc & _ & H2' & Henc & _).
           rewrite H2 in H2'. injection H2' as <- <-. congruence.
        -- destruct (is_output e) eqn:Ho; [|reflexivity].
           apply after_login_in_run in He
             as (_ & token & rc' & m & H1' & H2' & H3'); [|auto].
           rewrite H1 in H1'. injection H1' as <-.
           rewrite H2 in H2'. injection H2' as <- <-.
           rewrite H3 in H3'. discriminate.
    + intros Hcov.
      assert (Hall : all_mapped mapping (PyStr.chars numeric_password)).
      { intros ch Hch. destruct (Hdig ch Hch) as [d Hd].
        exists d. split; [exact Hd|]. exact (Hcov ch d Hch Hd). }
      apply (run_trace_live _ _ _ _ _ _ _ Hv).
      apply (live_trace_step3 _ _ _ _ _ _ _ _ _ _ H1 H2).
      apply step3_submits. unfold build_encoded_password.
      rewrite (encode_loop_mapped mapping _ [] Hall). reflexivity.
Qed.

Lemma degraded_mapping_fails_late_witness :
  decodable (keys_of (html_parser Scenario.ext Scenario.keypad_page_stale))
  /\ (size (resolved_digits B64_SVG_LEN_MAP
              (keys_of (html_parser Scenario.ext Scenario.keypad_page_stale)))
      < 10)%nat
  /\ exists mapping : gmap Z string,
       ending (step2_keypad Scenario.ext Scenario.w_stale)
       = Val (Scenario.resp Scenario.keypad_page_stale, mapping)
       /\ size mapping = 8%nat
       /\ ending (Scenario.run Scenario.w_stale "ACC-USER") = Returned
       /\ In (PrintErr "Error encoding password: No mapping for digit 7.")
             (trace (Scenario.run Scenario.w_stale "ACC-USER")).
Proof.
  assert (Hv : valid_args Scenario.client Scenario.pin)
    by (split; vm_compute; reflexivity).
  assert (Hdig : forall ch, In ch (PyStr.chars Scenario.pin) ->
                            is_Some (PyStr.int_of_char ch)).
  { intros ch Hch. simpl in Hch.
    repeat (destruct Hch as [<-|Hch]; [vm_compute; eauto|]). destruct Hch. }
  assert (Hl : login_page_loaded Scenario.ext Scenario.w_stale
                 (Scenario.resp Scenario.login_page_with_token)).
  { exists (Scenario.resp Scenario.login_page_1), "9f3c2a".
    repeat split; vm_compute; reflexivity. }
  assert (Hk : keypad_loaded Scenario.w_stale
                 (Scenario.resp Scenario.keypad_page_stale))
    by (split; vm_compute; reflexivity).
  assert (Hkeys : decodable
                    (keys_of (html_parser Scenario.ext
                                Scenario.keypad_page_stale))).
  { split; [vm_compute; eexists; reflexivity|].
    repeat (constructor; [vm_compute; eexists; reflexivity|]). constructor. }
  assert (Hsize : (size (resolved_digits B64_SVG_LEN_MAP
                           (keys_of (html_parser Scenario.ext
                                       Scenario.keypad_page_stale)))
                   < 10)%nat)
    by (vm_compute; lia).
  destruct (degraded_mapping_fails_late Scenario.ext Scenario.w_stale
              Scenario.client Scenario.pin "ACC-USER" Scenario.from_date
              (Scenario.resp Scenario.login_page_with_token)
              (Scenario.resp Scenario.keypad_page_stale)
              Hv Hdig Hl Hk Hkeys Hsize)
    as (mapping & (H2 & Hdom & Hsz & _) & _ & Hiff & Hfail & _).
  split; [exact Hkeys|]. split; [exact Hsize|].
  exists mapping. split; [exact H2|]. split.
  { rewrite Hsz. vm_compute. reflexivity. }
  assert (Hb : build_encoded_password Scenario.pin mapping
               = Raise (ValueError (no_mapping_msg 7))).
  { assert (H7 : mapping !! 7 = None).
    { apply not_elem_of_dom. rewrite Hdom. vm_compute.
      intros H. discriminate H. }
    assert (Hpre : all_mapped mapping (PyStr.chars "135")).
    { intros ch Hch. simpl in Hch.
      assert (Hin : forall d, d ∈ dom mapping -> is_Some (mapping !! d))
        by (intros d; apply elem_of_dom).
      destruct Hch as [<-|[<-|[<-|[]]]].
      - exists 1. split; [reflexivity|]. apply Hin. rewrite Hdom.
        vm_compute. reflexivity.
      - exists 3. split; [reflexivity|]. apply Hin. rewrite Hdom.
        vm_compute. reflexivity.
      - exists 5. split; [reflexivity|]. apply Hin. rewrite Hdom.
        vm_compute. reflexivity. }
    unfold build_encoded_password.
    change (PyStr.chars Scenario.pin)
      with (PyStr.chars "135" ++ "7"%char :: PyStr.chars "2468")%list.
    rewrite (encode_loop_stops mapping _ _ _ [] Hpre).
    change (PyStr.int_of_char "7") with (Some 7). cbv beta iota.
    rewrite H7. reflexivity. }
  destruct (Hfail 7 Hb) as (Hend & Hlog & _).
  split; [exact Hend|exact Hlog].
Defined.

(** The claim as stated fails. The mapping is keyed by digit, so two keys
    with the same image share one entry: three resolvable keys give a
    mapping of size 2. And the decoder does fail outright on a fragment with
    two resolvable keys after a key without image. *)
Lemma resolvable_keys_overcount_the_mapping :
  ~ degraded_mapping_has_that_size B64_SVG_LEN_MAP Scenario.twin_keypad
  /\ ~ degraded_mapping_has_that_size B64_SVG_LEN_MAP
         Scenario.bare_first_keypad.
Proof.
  split; intros H.
  - destruct H as (m & Hm & Hsize); [vm_compute; lia|].
    assert (Hkeys : dom m = {[0; 4]}).
    { destruct (decode_keypad_returns B64_SVG_LEN_MAP Scenario.twin_keypad)
        as (m' & Hm' & Hdom).
      { split; [vm_compute; eexists; reflexivity|].
        repeat (constructor; [vm_compute; eexists; reflexivity|]).
        constructor. }
      rewrite Hm in Hm'. injection Hm' as <-. rewrite Hdom.
      unfold resolved_digits.
      replace (omap (resolved B64_SVG_LEN_MAP)
                 (keys_of Scenario.twin_keypad))
        with [0; 0; 4] by (vm_compute; reflexivity).
      set_solver. }
    assert (Hsz : size m = 2%nat).
    { rewrite <- size_dom, Hkeys. rewrite size_union by set_solver.
      rewrite !size_singleton. reflexivity. }
    rewrite Hsz in Hsize. vm_compute in Hsize. discriminate.
  - destruct H as (m & Hm & _); [vm_compute; lia|].
    vm_compute in Hm. discriminate.
Qed.

(** ** A missing token *)

Section Token.

Variable ext : Externals.
Variable w : World.

Lemma step1_reports (r2 : Response) :
  login_page_loaded ext w r2 ->
  In (match extract_token_from_login ext (text r2) with
      | None =>
          Debug "Could not find form[_token]. The page structure may have changed."
      | Some _ => Debug "Found form token."
      end) (trace (step1_cookies ext w)).
Proof.
  intros (r1 & v & H1 & Hok1 & Hc & H2 & Hok2).
  unfold step1_cookies, session_get, raise_for_status, ok_status in *.
  rewrite H1, H2. unfold debug.
  rewrite bind_emit. right. cbn [trace fst].
  rewrite bind_emit. right. cbn [trace fst].
  apply in_trace_bind. right. exists r1. split.
  { rewrite bind_emit. reflexivity. }
  rewrite Hok1, bind_ret, Hc.
  apply in_trace_bind. right. exists v. split.
  { rewrite bind_emit. reflexivity. }
  rewrite bind_emit. right. cbn [trace fst].
  apply in_trace_bind. right. exists r2. split.
  { rewrite bind_emit. reflexivity. }
  rewrite Hok2, bind_ret.
  apply in_trace_bind. left.
  destruct (extract_token_from_login ext (text r2)); left; reflexivity.
Qed.

Lemma step2_requests :
  In (HttpGet CLAVIER_URL []) (trace (step2_keypad ext w)).
Proof.
  unfold step2_keypad, session_get, debug.
  rewrite bind_emit. right. cbn [trace fst].
  rewrite bind_emit. right. cbn [trace fst].
  apply in_trace_bind. left. rewrite bind_emit. left; reflexivity.
Qed.

End Token.

(** [C2] (as the code has it) When the Token Extractor finds no login token,
    the run does not stop: step 1 ends with the absent token, the run logs
    that the token could not be found, goes on to request the keypad
    fragment, and any login submission it then makes carries the absent
    token in its [form[_token]] field. *)
Theorem missing_token_only_logged (ext : Externals) (w : World)
    (client_number numeric_password account : string) (from_date : datetime)
    (r2 : Response) :
  let run := main ext w false client_number numeric_password account
               from_date in
  valid_args client_number numeric_password ->
  login_page_loaded ext w r2 ->
  extract_token_from_login ext (text r2) = None ->
  ending (step1_cookies ext w) = Val None
  /\ In (Debug "Could not find form[_token]. The page structure may have changed.")
        (trace run)
  /\ In (HttpGet CLAVIER_URL []) (trace run)
  /\ forall u d h, In (HttpPost u d h) (trace run) ->
                   In ("form[_token]", None) d.
Proof.
  intros run Hv Hl Hnone.
  pose proof (step1_loaded ext w r2 Hl) as H1. rewrite Hnone in H1.
  split; [exact H1|]. split; [|split].
  - apply (run_trace_live _ _ _ _ _ _ _ Hv). apply live_trace_step1.
    pose proof (step1_reports ext w r2 Hl) as Hr. rewrite Hnone in Hr.
    exact Hr.
  - apply (run_trace_live _ _ _ _ _ _ _ Hv).
    apply (live_trace_step2 _ _ _ _ _ _ _ _ H1). apply step2_requests.
  - intros u d h Hp.
    apply post_in_run in Hp as (_ & token & rc & m & enc & H1' & _ & _ & He).
    rewrite H1 in H1'. injection H1' as <-. injection He as _ -> _.
    unfold login_data. cbn. tauto.
Qed.

Lemma missing_token_only_logged_witness :
  valid_args Scenario.client Scenario.pin
  /\ login_page_loaded Scenario.ext Scenario.w_no_token
       (Scenario.resp Scenario.login_page_without_token)
  /\ extract_token_from_login Scenario.ext
       (text (Scenario.resp Scenario.login_page_without_token)) = None
  /\ In (HttpGet CLAVIER_URL [])
        (trace (Scenario.run Scenario.w_no_token "ACC-USER"))
  /\ forall u d h,
       In (HttpPost u d h) (trace (Scenario.run Scenario.w_no_token "ACC-USER"))
       -> In ("form[_token]", None) d.
Proof.
  assert (Hv : valid_args Scenario.client Scenario.pin)
    by (split; vm_compute; reflexivity).
  assert (Hl : login_page_loaded Scenario.ext Scenario.w_no_token
                 (Scenario.resp Scenario.login_page_without_token)).
  { exists (Scenario.resp Scenario.login_page_1), "9f3c2a".
    repeat split; vm_compute; reflexivity. }
  assert (Hn : extract_token_from_login Scenario.ext
                 (text (Scenario.resp Scenario.login_page_without_token))
               = None) by (vm_compute; reflexivity).
  destruct (missing_token_only_logged Scenario.ext Scenario.w_no_token
              Scenario.client Scenario.pin "ACC-USER" Scenario.from_date
              (Scenario.resp Scenario.login_page_without_token) Hv Hl Hn)
    as (_ & _ & Hget & Hpost).
  split; [exact Hv|]. split; [exact Hl|]. split; [exact Hn|].
  split; [exact Hget|exact Hpost].
Defined.

(** The claim as stated fails: the login page carries no token, and the run
    still fetches the keypad and submits the login form (with a token field
    holding nothing), then exports and saves. *)
Lemma missing_token_is_not_fatal :
  ~ missing_token_is_fatal Scenario.ext
      Scenario.w_no_token
      Scenario.client Scenario.pin "ACC-USER" Scenario.from_date.
Proof.
  intros H.
  destruct (H (Scenario.resp Scenario.login_page_without_token))
    with (e := HttpGet CLAVIER_URL []) as [Hget _].
  - exists (Scenario.resp Scenario.login_page_1), "9f3c2a".
    repeat split; vm_compute; reflexivity.
  - vm_compute; reflexivity.
  - vm_compute. tauto.
  - vm_compute in Hget. discriminate.
Qed.

Example missing_token_run_submits_and_saves :
  let run := main Scenario.ext
               Scenario.w_no_token
               false Scenario.client Scenario.pin "ACC-USER"
               Scenario.from_date in
  In (HttpPost PASSWORD_POST
        (login_data Scenario.client "TUV|KNO|HIJ|QRS|EFG|WXA|YZA|GHT"
           Scenario.pin None (Some "c7a1")) login_headers) (trace run)
  /\ existsb is_output (trace run) = true
  /\ ending run = Val tt.
Proof. vm_compute. split; [tauto|split; reflexivity]. Qed.

(** ** The account to export *)

Section Account.

Variable ext : Externals.
Variable w : World.
Variables (client_number numeric_password account : string).
Variables (from_date : datetime).

Let to_date := today_to_date w.
Let run := main ext w false client_number numeric_password account from_date.

(** The resolver takes what the budget page yields and falls back on the
    caller's account. *)
Lemma selected_account_spec (rb : Response) :
  selected_account ext account rb
  = default account (discovered_account ext rb).
Proof.
  unfold selected_account, discovered_account.
  destruct (status_code rb =? 200); [|reflexivity].
  destruct (soup_find _ _) as [acc_input|]; cbn.
  - destruct (get acc_input "value") as [[|c v]|]; cbn; try reflexivity;
      destruct (select_one_below _ _ _) as [opt|]; cbn; try reflexivity;
      destruct (get opt "value") as [[|c' v']|]; reflexivity.
  - destruct (select_one_below _ _ _) as [opt|]; cbn; try reflexivity.
    destruct (get opt "value") as [[|c' v']|]; reflexivity.
Qed.

Lemma step4_account_requests :
  In (HttpGet BUDGET_URL []) (trace (step4_account ext w account)).
Proof.
  unfold step4_account, session_get, debug.
  rewrite bind_emit. right. cbn [trace fst].
  rewrite bind_emit. right. cbn [trace fst].
  apply in_trace_bind. left. rewrite bind_emit. left; reflexivity.
Qed.

Lemma step4_account_ending (rb : Response) :
  resp_budget w = Some rb ->
  ending (step4_account ext w account)
  = if PyStr.nonempty (selected_account ext account rb)
    then Val (selected_account ext account rb) else Returned.
Proof.
  intros Hb. unfold step4_account, session_get. rewrite Hb.
  repeat (rewrite ending_bind; cbn [ending debug emit snd mret M_ret]).
  destruct (PyStr.nonempty (selected_account ext account rb)); reflexivity.
Qed.

Lemma step4_account_val (selected : string) :
  ending (step4_account ext w account) = Val selected ->
  exists rb, resp_budget w = Some rb
             /\ selected = selected_account ext account rb
             /\ PyStr.nonempty selected = true.
Proof.
  destruct (resp_budget w) as [rb|] eqn:Hb.
  - rewrite (step4_account_ending rb Hb).
    destruct (PyStr.nonempty (selected_account ext account rb)) eqn:Hn;
      [|discriminate].
    intros H. injection H as <-. exists rb. auto.
  - unfold step4_account, session_get. rewrite Hb.
    repeat (rewrite ending_bind; cbn [ending debug emit snd mret M_ret]).
    discriminate.
Qed.

(** An event of the export stage or of the saving in the trace: the account
    was resolved, to [selected]. *)
Lemma export_stage_in_run (e : event) :
  In e (trace run) ->
  is_get_of EXPORT_URL e = true \/ is_read_csv e = true
  \/ is_output e = true ->
  valid_args client_number numeric_password
  /\ exists token rc mapping selected,
       ending (step1_cookies ext w) = Val token
       /\ ending (step2_keypad ext w) = Val (rc, mapping)
       /\ ending (step3_login ext w client_number numeric_password token rc
                    mapping) = Val tt
       /\ ending (step4_account ext w account) = Val selected
       /\ (In e (trace (step4_export ext w selected from_date to_date))
           \/ is_output e = true
              /\ exists df, ending (step4_export ext w selected from_date
                                      to_date) = Val df).
Proof.
  intros H Hk.
  assert (Hnl : is_local e = false).
  { destruct e; try reflexivity; destruct Hk as [Hk|[Hk|Hk]]; discriminate. }
  apply main_event in H as [H|[Hv H]]; [congruence|].
  split; [exact Hv|].
  destruct H as [H|[Ho (selected & df & Hl)]].
  - apply live_run_event in H
      as [H|(token & H1 & [H|(rc & mapping & H2 & [H|[H3 H]])])].
    + apply (Forall_In _ _ _ (step1_footprint ext w)) in H as [H| ->];
        [congruence|].
      destruct Hk as [Hk|[Hk|Hk]]; vm_compute in Hk; discriminate.
    + apply (Forall_In _ _ _ (step2_footprint ext w)) in H as [H| ->];
        [congruence|].
      destruct Hk as [Hk|[Hk|Hk]]; vm_compute in Hk; discriminate.
    + apply (Forall_In _ _ _ (step3_footprint ext w client_number
                                numeric_password token rc mapping)) in H
        as [H|(p & _ & ->)]; [congruence|].
      destruct Hk as [Hk|[Hk|Hk]]; discriminate.
    + destruct H as [H|(selected & H4 & H)].
      * apply (Forall_In _ _ _ (step4_account_footprint ext w account)) in H
          as [H| ->]; [congruence|].
        destruct Hk as [Hk|[Hk|Hk]]; vm_compute in Hk; discriminate.
      * exists token, rc, mapping, selected. repeat split; auto.
  - rewrite live_ending in Hl.
    destruct (ending (step1_cookies ext w)) as [token| |x]; try discriminate.
    destruct (ending (step2_keypad ext w)) as [[rc mapping]| |x];
      try discriminate.
    destruct (ending (step3_login ext w client_number numeric_password token
                        rc mapping)) as [[]| |x] eqn:H3; try discriminate.
    destruct (ending (step4_account ext w account)) as [sel| |x] eqn:H4;
      try discriminate.
    destruct (ending (step4_export ext w sel from_date (today_to_date w)))
      as [df'| |x] eqn:H5; try discriminate.
    exists token, rc, mapping, sel. repeat split; auto.
    right. split; [exact Ho|]. exists df'. exact H5.
Qed.

(** The export request in the trace is the one built for the resolved
    account. *)
Lemma export_request_in_run (params : list (string * string)) :
  In (HttpGet EXPORT_URL params) (trace run) ->
  exists rb, resp_budget w = Some rb
             /\ PyStr.nonempty (selected_account ext account rb) = true
             /\ params = export_params ext (selected_account ext account rb)
                           from_date to_date.
Proof.
  intros H. apply export_stage_in_run in H
    as (_ & token & rc & m & selected & _ & _ & _ & H4 & [H|[H _]]);
    [| |left; reflexivity]; [|discriminate].
  apply step4_account_val in H4 as (rb & Hb & -> & Hn).
  exists rb. split; [exact Hb|]. split; [exact Hn|].
  apply (Forall_In _ _ _ (step4_export_footprint ext w _ from_date to_date))
    in H as [H|[H|H]]; try discriminate.
  injection H as ->. reflexivity.
Qed.

End Account.

(** [C3] (as the code has it) The Account Resolver always requests the
    budget-summary page. When that page is served with status 200 and yields
    a non-empty value (the account selector's, else the first selectable
    option's), that value is used, also when the caller supplied an account;
    otherwise the caller-supplied identifier is used. If the identifier so
    obtained is empty the run returns before the export step, and the export
    request is only ever made with a non-empty identifier. *)
Theorem account_resolution (ext : Externals) (w : World)
    (client_number numeric_password account : string)
    (from_date : datetime) :
  let run := main ext w false client_number numeric_password account
               from_date in
  (forall rb, selected_account ext account rb
              = default account (discovered_account ext rb))
  /\ In (HttpGet BUDGET_URL []) (trace (step4_account ext w account))
  /\ (forall rb, resp_budget w = Some rb ->
        ending (step4_account ext w account)
        = if PyStr.nonempty (selected_account ext account rb)
          then Val (selected_account ext account rb) else Returned)
  /\ (forall params,
        In (HttpGet EXPORT_URL params) (trace run) ->
        exists rb selected,
          resp_budget w = Some rb
          /\ selected = selected_account ext account rb
          /\ PyStr.nonempty selected = true
          /\ attr_lookup ACCOUNT_FIELD params = Some selected)
  /\ (forall rb, resp_budget w = Some rb ->
        PyStr.nonempty (selected_account ext account rb) = false ->
        forall e, In e (trace run) ->
                  is_get_of EXPORT_URL e = false /\ is_output e = false).
Proof.
  intros run. split; [apply selected_account_spec|].
  split; [apply step4_account_requests|].
  split; [apply step4_account_ending|]. split.
  - intros params H.
    apply export_request_in_run in H as (rb & Hb & Hn & ->).
    exists rb, (selected_account ext account rb). repeat split; auto.
  - intros rb Hb Hempty e He.
    assert (Hstage : is_get_of EXPORT_URL e = true \/ is_read_csv e = true
                     \/ is_output e = true -> False).
    { intros Hk.
      apply (export_stage_in_run ext w _ _ _ _ e He) in Hk
        as (_ & token & rc & m & selected & _ & _ & _ & H4 & _).
      apply step4_account_val in H4 as (rb' & Hb' & -> & Hn).
      rewrite Hb in Hb'. injection Hb' as <-. congruence. }
    split.
    + destruct (is_get_of EXPORT_URL e); [exfalso; auto|reflexivity].
    + destruct (is_output e); [exfalso; auto|reflexivity].
Qed.

Lemma account_resolution_witness :
  resp_budget Scenario.w_no_account
  = Some (Scenario.resp Scenario.budget_page_empty)
  /\ PyStr.nonempty
       (selected_account Scenario.ext ""
          (Scenario.resp Scenario.budget_page_empty)) = false
  /\ forall e,
       In e (trace (Scenario.run Scenario.w_no_account "")) ->
       is_get_of EXPORT_URL e = false /\ is_output e = false.
Proof.
  split; [reflexivity|]. split; [vm_compute; reflexivity|].
  apply (proj2 (proj2 (proj2 (proj2
           (account_resolution Scenario.ext Scenario.w_no_account
              Scenario.client Scenario.pin "" Scenario.from_date))))
           (Scenario.resp Scenario.budget_page_empty)).
  - reflexivity.
  - vm_compute; reflexivity.
Defined.

(** The claim as stated fails: the caller supplies ACC-USER, the budget page
    is requested all the same, and the export is made for the account the
    page shows, ACC-PAGE. *)
Lemma supplied_account_is_overridden :
  ~ supplied_account_has_priority Scenario.ext Scenario.happy
      Scenario.client Scenario.pin "ACC-USER" Scenario.from_date.
Proof.
  intros H.
  destruct (H eq_refl (HttpGet BUDGET_URL [])) as [Hget _].
  - vm_compute. tauto.
  - vm_compute in Hget. discriminate.
Qed.

Example supplied_account_export_request :
  In (HttpGet EXPORT_URL
        (export_params Scenario.ext "ACC-PAGE" Scenario.from_date
           (today_to_date Scenario.happy)))
     (trace (main Scenario.ext Scenario.happy false Scenario.client
               Scenario.pin "ACC-USER" Scenario.from_date))
  /\ selected_account Scenario.ext "ACC-USER"
       (Scenario.resp Scenario.budget_page)
     = "ACC-PAGE".
Proof. vm_compute. split; [tauto|reflexivity]. Qed.

(** ** The login submission *)

Section Login.

Variable ext : Externals.
Variable w : World.
Variables (client_number numeric_password : string).

Lemma step3_ending (r : Response) (token : option string) (rc : Response)
    (mapping : gmap Z string) (encoded_password : string) :
  post_resp w = Some r ->
  build_encoded_password numeric_password mapping = Ok encoded_password ->
  ending (step3_login ext w client_number numeric_password token rc mapping)
  = if (status_code r =? 200) || (status_code r =? 302)
    then Val tt else Returned.
Proof.
  intros Hp Hb. unfold step3_login, session_post. rewrite Hb, Hp.
  repeat (rewrite ending_bind; cbn [ending debug emit snd mret M_ret]).
  destruct (negb (PyStr.truthy (search_challenge ext (text rc))));
    cbn [ending debug emit snd mret M_ret];
    repeat (rewrite ending_bind; cbn [ending debug emit snd mret M_ret]);
    destruct ((status_code r =? 200) || (status_code r =? 302));
    reflexivity.
Qed.

Lemma step3_failure_logged (r : Response) (token : option string)
    (rc : Response) (mapping : gmap Z string) (encoded_password : string) :
  post_resp w = Some r ->
  build_encoded_password numeric_password mapping = Ok encoded_password ->
  (status_code r =? 200) || (status_code r =? 302) = false ->
  In (Debug (login_failed_msg r))
     (trace (step3_login ext w client_number numeric_password token rc
               mapping)).
Proof.
  intros Hp Hb Hs. unfold step3_login, session_post. rewrite Hb, Hp.
  unfold debug. rewrite bind_emit. right. cbn [trace fst].
  rewrite bind_ret.
  apply in_trace_bind. right. exists tt. split.
  { destruct (negb (PyStr.truthy (search_challenge ext (text rc))));
      reflexivity. }
  rewrite bind_emit. right. cbn [trace fst].
  apply in_trace_bind. right. exists r. split.
  { rewrite bind_emit. reflexivity. }
  rewrite Hs. cbn [negb]. rewrite bind_emit. left; reflexivity.
Qed.

End Login.

Lemma status_ok_iff (r : Response) :
  (status_code r =? 200) || (status_code r =? 302) = true
  <-> status_code r = 200 \/ status_code r = 302.
Proof. rewrite orb_true_iff, !Z.eqb_eq. reflexivity. Qed.

(** [C6] The login submission counts as a success exactly when its status is
    200 or 302. With any other status step 3 logs the status together with
    the first 400 characters of the response body and returns from [main];
    the run then makes no budget or export request, parses nothing and
    writes nothing. *)
Theorem login_succeeds_iff_200_or_302 (ext : Externals) (w : World)
    (client_number numeric_password account : string) (from_date : datetime)
    (r : Response) :
  let run := main ext w false client_number numeric_password account
               from_date in
  post_resp w = Some r ->
  (forall token rc mapping encoded_password,
      build_encoded_password numeric_password mapping = Ok encoded_password ->
      let submit := step3_login ext w client_number numeric_password token rc
                      mapping in
      (ending submit = Val tt
       <-> status_code r = 200 \/ status_code r = 302)
      /\ (~ (status_code r = 200 \/ status_code r = 302) ->
          ending submit = Returned
          /\ In (Debug (login_failed_msg r)) (trace submit)))
  /\ (exists prefix,
         login_failed_msg r = prefix +:+ PyStr.take 400 (text r))
  /\ (~ (status_code r = 200 \/ status_code r = 302) ->
      (forall e, In e (trace run) ->
                 is_get_of BUDGET_URL e = false
                 /\ is_get_of EXPORT_URL e = false
                 /\ is_read_csv e = false /\ is_output e = false)
      /\ (forall u d h, In (HttpPost u d h) (trace run) ->
                        ending run = Returned
                        /\ In (Debug (login_failed_msg r)) (trace run))).
Proof.
  intros run Hp. split; [|split].
  - intros token rc mapping enc Hb submit. unfold submit.
    rewrite (step3_ending ext w _ _ r token rc mapping enc Hp Hb).
    rewrite <- status_ok_iff.
    destruct ((status_code r =? 200) || (status_code r =? 302)) eqn:Hs.
    + split; [tauto|]. intros Hn. exfalso; auto.
    + split; [split; discriminate|]. intros _. split; [reflexivity|].
      eapply step3_failure_logged; eauto.
  - exists ("Login POST returned status " +:+ pretty (status_code r)
            +:+ ". Response snippet:
").
    unfold login_failed_msg. rewrite !append_assoc. reflexivity.
  - intros Hbad.
    assert (Hs : (status_code r =? 200) || (status_code r =? 302) = false).
    { destruct ((status_code r =? 200) || (status_code r =? 302)) eqn:Hs;
        [|reflexivity].
      apply status_ok_iff in Hs. contradiction. }
    assert (Hnever : forall token rc mapping,
               ending (step1_cookies ext w) = Val token ->
               ending (step2_keypad ext w) = Val (rc, mapping) ->
               ending (step3_login ext w client_number numeric_password token
                         rc mapping) <> Val tt).
    { intros token rc mapping _ _.
      destruct (build_encoded_password numeric_password mapping) as [enc|x]
        eqn:Hb.
      - rewrite (step3_ending ext w _ _ r token rc mapping enc Hp Hb), Hs.
        discriminate.
      - rewrite (step3_encoding_error ext w _ _ token rc mapping x Hb).
        discriminate. }
    split.
    + intros e He.
      assert (Hno : is_get_of BUDGET_URL e = true
                    \/ is_get_of EXPORT_URL e = true
                    \/ is_read_csv e = true \/ is_output e = true -> False).
      { intros Hk.
        apply (after_login_in_run ext w _ _ _ _ e He) in Hk
          as (_ & token & rc & m & H1 & H2 & H3).
        exact (Hnever token rc m H1 H2 H3). }
      repeat split.
      * destruct (is_get_of BUDGET_URL e); [exfalso; auto|reflexivity].
      * destruct (is_get_of EXPORT_URL e); [exfalso; auto|reflexivity].
      * destruct (is_read_csv e); [exfalso; auto|reflexivity].
      * destruct (is_output e); [exfalso; auto 6|reflexivity].
    + intros u d h Hpost.
      apply post_in_run in Hpost
        as (Hv & token & rc & m & enc & H1 & H2 & Hb & _).
      pose proof (step3_ending ext w client_number numeric_password r token
                    rc m enc Hp Hb) as H3.
      rewrite Hs in H3. split.
      * unfold run. rewrite (run_ending _ _ _ _ _ _ Hv), live_ending.
        rewrite H1, H2, H3. reflexivity.
      * apply (run_trace_live _ _ _ _ _ _ _ Hv).
        apply (live_trace_step3 _ _ _ _ _ _ _ _ _ _ H1 H2).
        eapply step3_failure_logged; eauto.
Qed.

Lemma login_succeeds_iff_200_or_302_witness :
  post_resp Scenario.w_login_500 = Some Scenario.error_500
  /\ ~ (status_code Scenario.error_500 = 200
        \/ status_code Scenario.error_500 = 302)
  /\ forall e,
       In e (trace (Scenario.run Scenario.w_login_500 "ACC-USER")) ->
       is_get_of BUDGET_URL e = false /\ is_get_of EXPORT_URL e = false
       /\ is_read_csv e = false /\ is_output e = false.
Proof.
  assert (Hbad500 : ~ (status_code Scenario.error_500 = 200
                       \/ status_code Scenario.error_500 = 302)).
  { cbn [status_code Scenario.error_500]. intros [H|H]; discriminate. }
  destruct (login_succeeds_iff_200_or_302 Scenario.ext Scenario.w_login_500
              Scenario.client Scenario.pin "ACC-USER" Scenario.from_date
              Scenario.error_500 eq_refl) as (_ & _ & Hbad).
  destruct (Hbad Hbad500) as [Hnone _].
  split; [reflexivity|]. split; [exact Hbad500|exact Hnone].
Defined.

Example http_500_login_fails :
  let run := main Scenario.ext
               Scenario.w_login_500
               false Scenario.client Scenario.pin "ACC-USER"
               Scenario.from_date in
  ending run = Returned
  /\ In (Debug "Login POST returned status 500. Response snippet:
Internal Server Error") (trace run)
  /\ existsb (is_get_of EXPORT_URL) (trace run) = false.
Proof. vm_compute. split; [reflexivity|split; [tauto|reflexivity]]. Qed.

(** ** The export request *)

Lemma strip_keeps_markup (s : string) :
  PyStr.startswith "<" s = true -> PyStr.startswith "<" (PyStr.strip s) = true.
Proof.
  destruct s as [|c s]; [discriminate|].
  unfold PyStr.startswith. cbn [String.prefix].
  destruct (Ascii.ascii_dec "<" c) as [<-|]; [intros _|discriminate].
  unfold PyStr.strip.
  change (PyStr.lstrip (String "<" s)) with (String "<" s).
  cbn [PyStr.rstrip].
  destruct (PyStr.rstrip s); reflexivity.
Qed.

Section ExportStage.

Variable ext : Externals.
Variable w : World.
Variables (selected : string) (from_date to_date : datetime).
Variable r : Response.
Hypothesis Hcsv : csv_resp w = Some r.

Let export := step4_export ext w selected from_date to_date.
Let downloading : string :=
  "Downloading CSV for account " +:+ selected +:+ " from "
  +:+ strftime ext from_date "%d/%m/%Y" +:+ " to "
  +:+ strftime ext to_date "%d/%m/%Y".

(** The response is turned down as a disguised error page. *)
Let disguised : bool :=
  negb (PyStr.contains "text/csv" (default "" (content_type r)))
  && PyStr.startswith "<" (PyStr.strip (text r)).

Lemma export_bad_status :
  status_code r <> 200 ->
  export
  = ([Debug downloading;
      HttpGet EXPORT_URL (export_params ext selected from_date to_date);
      Debug (csv_failed_msg r);
      PrintErr "Failed to fetch CSV. The response may be HTML error page (range invalid or no results) or site changed."],
     Returned).
Proof.
  intros Hs. unfold export, step4_export. rewrite Hcsv.
  apply Z.eqb_neq in Hs. unfold debug, print_err.
  rewrite bind_emit. cbn [trace ending fst snd].
  rewrite bind_session_get. cbn [trace ending fst snd].
  rewrite Hs. cbn [negb]. rewrite bind_emit, bind_emit. reflexivity.
Qed.

Lemma export_disguised :
  status_code r = 200 -> disguised = true ->
  export
  = ([Debug downloading;
      HttpGet EXPORT_URL (export_params ext selected from_date to_date);
      Debug "Response appears to be HTML, not CSV. The request likely failed or returned an error page.";
      PrintErr "CSV exporter returned HTML (likely an error). See debug logs."],
     Returned).
Proof.
  intros Hs Hd. unfold export, step4_export. rewrite Hcsv.
  unfold debug, print_err.
  rewrite bind_emit. cbn [trace ending fst snd].
  rewrite bind_session_get. cbn [trace ending fst snd].
  rewrite Hs. cbn [Z.eqb Pos.eqb negb]. unfold disguised in Hd. rewrite Hd.
  rewrite bind_emit, bind_emit. reflexivity.
Qed.

Lemma export_accepted :
  status_code r = 200 -> disguised = false ->
  In (ReadCsv (text r) (Some ";")) (trace export).
Proof.
  intros Hs Hd. unfold export, step4_export. rewrite Hcsv.
  unfold debug, print_err.
  rewrite bind_emit. right. cbn [trace ending fst snd].
  rewrite bind_session_get. right. cbn [trace ending fst snd].
  rewrite Hs. cbn [Z.eqb Pos.eqb negb]. unfold disguised in Hd. rewrite Hd.
  apply in_trace_bind. left. rewrite bind_emit. left; reflexivity.
Qed.

(** Whatever is handed to the parser is the body of an accepted response. *)
Lemma export_parses_accepted (body : string) (sep : option string) :
  In (ReadCsv body sep) (trace export) ->
  body = text r /\ status_code r = 200 /\ disguised = false.
Proof.
  destruct (Z.eq_dec (status_code r) 200) as [Hs|Hs].
  2:{ rewrite (export_bad_status Hs). cbn [trace fst In].
      intros [H|[H|[H|[H|[]]]]]; discriminate. }
  destruct disguised eqn:Hd.
  { rewrite (export_disguised Hs Hd). cbn [trace fst In].
    intros [H|[H|[H|[H|[]]]]]; discriminate. }
  intros H. split; [|auto].
  revert H. unfold export, step4_export, pd_read_csv.
  rewrite Hcsv. unfold debug, print_err, print.
  rewrite bind_emit. cbn [trace ending fst snd].
  rewrite bind_session_get. cbn [trace ending fst snd].
  rewrite Hs. cbn [Z.eqb Pos.eqb negb]. unfold disguised in Hd. rewrite Hd.
  intros [H|[H|H]]; try discriminate.
  apply in_trace_bind in H as [H|(df & _ & H)].
  - rewrite bind_emit in H. cbn [trace fst] in H.
    destruct H as [H|H]; [injection H as <- _; reflexivity|].
    destruct (read_csv ext (text r) (Some ";")); [destruct H|].
    rewrite bind_emit in H. cbn [trace fst] in H.
    destruct H as [H|H]; [injection H as <- _; reflexivity|].
    destruct (read_csv ext (text r) None); destruct H.
  - rewrite bind_emit in H. cbn [trace fst] in H.
    destruct H as [H|H]; [discriminate|].
    rewrite bind_emit in H. cbn [trace fst] in H.
    destruct H as [H|[]]. discriminate.
Qed.

End ExportStage.

(** A failed export: one request, two lines of log, and a return. *)
Lemma export_rejected (ext : Externals) (w : World) (selected : string)
    (from_date to_date : datetime) (r : Response) :
  csv_resp w = Some r ->
  status_code r <> 200
  \/ PyStr.contains "text/csv" (default "" (content_type r)) = false
     /\ PyStr.startswith "<" (PyStr.strip (text r)) = true ->
  exists downloading reason message,
    step4_export ext w selected from_date to_date
    = ([Debug downloading;
        HttpGet EXPORT_URL (export_params ext selected from_date to_date);
        Debug reason; PrintErr message], Returned).
Proof.
  intros Hcsv Hfail.
  destruct (Z.eq_dec (status_code r) 200) as [Hs|Hs].
  - destruct Hfail as [Hn|[Hct Hm]]; [contradiction|].
    do 3 eexists. apply (export_disguised ext w _ _ _ r Hcsv Hs).
    rewrite Hct, Hm. reflexivity.
  - do 3 eexists. apply (export_bad_status ext w _ _ _ r Hcsv Hs).
Qed.

(** [C7] (as the code has it) The Export Fetcher treats any status outside
    2xx as a fetch failure, and turns down a 200 response whose content type
    is not tabular and whose body begins with the markup-open character. It
    accepts a 200 response that has a tabular content type or whose body,
    once the whitespace around it is stripped, does not begin with that
    character. Only the body of an accepted response is handed to the
    parser. *)
Theorem export_validation (ext : Externals) (w : World) (selected : string)
    (from_date to_date : datetime) (r : Response) :
  let export := step4_export ext w selected from_date to_date in
  let tabular := PyStr.contains "text/csv" (default "" (content_type r)) in
  let rejected :=
    ending export = Returned
    /\ forall e, In e (trace export) -> is_read_csv e = false in
  csv_resp w = Some r ->
  (~ (200 <= status_code r < 300) -> rejected)
  /\ (status_code r = 200 -> tabular = false ->
      PyStr.startswith "<" (text r) = true -> rejected)
  /\ (status_code r = 200 ->
      tabular = true \/ PyStr.startswith "<" (PyStr.strip (text r)) = false ->
      In (ReadCsv (text r) (Some ";")) (trace export))
  /\ (forall body sep,
        In (ReadCsv body sep) (trace export) ->
        body = text r /\ status_code r = 200
        /\ (tabular = true
            \/ PyStr.startswith "<" (PyStr.strip (text r)) = false)).
Proof.
  intros export tabular rejected Hcsv.
  assert (Hrej : status_code r <> 200
                 \/ tabular = false
                    /\ PyStr.startswith "<" (PyStr.strip (text r)) = true ->
                 rejected).
  { intros Hfail.
    destruct (export_rejected ext w selected from_date to_date r Hcsv Hfail)
      as (d & reason & msg & Heq).
    unfold rejected, export. rewrite Heq. split; [reflexivity|].
    cbn [trace fst In]. intros e [<-|[<-|[<-|[<-|[]]]]]; reflexivity. }
  split; [|split; [|split]].
  - intros Hs. apply Hrej. left. lia.
  - intros Hs Ht Hm. apply Hrej. right. split; [exact Ht|].
    apply strip_keeps_markup. exact Hm.
  - intros Hs Hacc. apply (export_accepted ext w _ _ _ r Hcsv Hs).
    fold tabular. destruct Hacc as [-> | ->]; [reflexivity|].
    apply andb_false_r.
  - intros body sep H.
    apply (export_parses_accepted ext w _ _ _ r Hcsv) in H as (Hb & Hs & Hd).
    split; [exact Hb|]. split; [exact Hs|]. fold tabular in Hd.
    destruct tabular; [left; reflexivity|right]. exact Hd.
Qed.

Lemma export_validation_witness :
  csv_resp Scenario.happy
  = Some (mkResponse 200 Scenario.csv_body (Some "text/csv; charset=UTF-8"))
  /\ In (ReadCsv Scenario.csv_body (Some ";"))
        (trace (step4_export Scenario.ext Scenario.happy "ACC-PAGE"
                  Scenario.from_date (today_to_date Scenario.happy))).
Proof.
  split; [reflexivity|].
  apply (proj1 (proj2 (proj2
           (export_validation Scenario.ext Scenario.happy "ACC-PAGE"
              Scenario.from_date (today_to_date Scenario.happy)
              (mkResponse 200 Scenario.csv_body
                 (Some "text/csv; charset=UTF-8")) eq_refl)))).
  - reflexivity.
  - left. vm_compute. reflexivity.
Defined.

(** The claim as stated fails: a 200 response of type text/html whose body
    is a blank followed by markup does not begin with the markup-open
    character, and is turned down all the same. *)
Lemma leading_blank_markup_is_rejected :
  ~ accepts_unless_leading_markup Scenario.ext
      Scenario.w_disguised
      "ACC-PAGE" Scenario.from_date (Datetime 5535000000003).
Proof.
  intros H.
  specialize (H (Scenario.resp Scenario.disguised_body)
                eq_refl eq_refl (or_intror eq_refl)).
  vm_compute in H. destruct H as [H|[H|[H|[H|[]]]]]; discriminate.
Qed.

(** [C8] When the export fetch fails, by a status other than 200 or by a
    response turned down as a disguised error page, the run writes neither
    the output file nor the last-run timestamp and parses nothing; the
    export stage made its one request, logged the failure and returned, and
    with it the run. *)
Theorem failed_export_writes_nothing (ext : Externals) (w : World)
    (client_number numeric_password account : string) (from_date : datetime)
    (r : Response) :
  let run := main ext w false client_number numeric_password account
               from_date in
  csv_resp w = Some r ->
  status_code r <> 200
  \/ PyStr.contains "text/csv" (default "" (content_type r)) = false
     /\ PyStr.startswith "<" (PyStr.strip (text r)) = true ->
  (forall e, In e (trace run) -> is_output e = false /\ is_read_csv e = false)
  /\ (forall params, In (HttpGet EXPORT_URL params) (trace run) ->
                     ending run = Returned)
  /\ (forall selected,
        exists downloading reason message,
          step4_export ext w selected from_date (today_to_date w)
          = ([Debug downloading;
              HttpGet EXPORT_URL
                (export_params ext selected from_date (today_to_date w));
              Debug reason; PrintErr message], Returned)).
Proof.
  intros run Hcsv Hfail.
  pose proof (fun selected =>
                export_rejected ext w selected from_date (today_to_date w) r
                  Hcsv Hfail) as Hrej.
  split; [|split; [|exact Hrej]].
  - intros e He.
    assert (Hno : is_read_csv e = true \/ is_output e = true -> False).
    { intros Hk.
      assert (Hk3 : is_get_of EXPORT_URL e = true \/ is_read_csv e = true
                    \/ is_output e = true) by tauto.
      apply (export_stage_in_run ext w _ _ _ _ e He) in Hk3
        as (_ & token & rc & m & selected & _ & _ & _ & _ & Hst).
      destruct (Hrej selected) as (d & reason & msg & Heq).
      rewrite Heq in Hst. cbn [trace ending fst snd In] in Hst.
      destruct Hst as [[<-|[<-|[<-|[<-|[]]]]]|[_ (df & Hdf)]];
        try discriminate;
        destruct Hk as [Hk|Hk]; discriminate. }
    split.
    + destruct (is_output e); [exfalso; auto|reflexivity].
    + destruct (is_read_csv e); [exfalso; auto|reflexivity].
  - intros params He.
    apply (export_stage_in_run ext w) in He
      as (Hv & token & rc & m & selected & H1 & H2 & H3 & H4 & _);
      [|left; reflexivity].
    destruct (Hrej selected) as (d & reason & msg & Heq).
    unfold run. rewrite (run_ending _ _ _ _ _ _ Hv), live_ending.
    rewrite H1, H2, H3, H4, Heq. reflexivity.
Qed.

Lemma failed_export_writes_nothing_witness :
  csv_resp Scenario.w_export_503 = Some Scenario.error_503
  /\ status_code Scenario.error_503 <> 200
  /\ (forall e,
        In e (trace (Scenario.run Scenario.w_export_503 "ACC-USER")) ->
        is_output e = false /\ is_read_csv e = false)
  /\ (forall params,
        In (HttpGet EXPORT_URL params)
           (trace (Scenario.run Scenario.w_export_503 "ACC-USER")) ->
        ending (Scenario.run Scenario.w_export_503 "ACC-USER") = Returned).
Proof.
  assert (Hs : status_code Scenario.error_503 <> 200)
    by (cbn [status_code Scenario.error_503]; discriminate).
  destruct (failed_export_writes_nothing Scenario.ext Scenario.w_export_503
              Scenario.client Scenario.pin "ACC-USER" Scenario.from_date
              Scenario.error_503 eq_refl (or_introl Hs))
    as (Hout & Hret & _).
  split; [reflexivity|]. split; [exact Hs|].
  split; [exact Hout|exact Hret].
Defined.

Example failed_export_after_login :
  let run := main Scenario.ext
               Scenario.w_export_503
               false Scenario.client Scenario.pin "ACC-USER"
               Scenario.from_date in
  ending run = Returned
  /\ existsb (is_get_of EXPORT_URL) (trace run) = true
  /\ existsb is_output (trace run) = false.
Proof. vm_compute. repeat split; reflexivity. Qed.

(** * Further properties *)

(** ** Requests are made in one fixed order *)

Lemma requests_bind {A B} (m : M A) (k : A -> M B) :
  requests (m ≫= k)
  = (requests m ++ match ending m with
                   | Val a => requests (k a)
                   | _ => []
                   end)%list.
Proof.
  unfold requests. rewrite trace_bind, omap_app.
  destruct (ending m); reflexivity.
Qed.

Lemma asks_bind {A B} (m : M A) (k : A -> M B) (l1 l2 : list string) :
  asks m l1 ->
  (forall a, ending m = Val a -> asks (k a) l2) ->
  asks (m ≫= k) (l1 ++ l2)%list.
Proof.
  intros [Hp Hv] Hk. unfold asks. rewrite requests_bind, ending_bind.
  destruct (ending m) as [a| |e] eqn:He.
  - rewrite (Hv a eq_refl). destruct (Hk a eq_refl) as [Hp2 Hv2]. split.
    + apply prefix_app. exact Hp2.
    + intros b Hb. rewrite (Hv2 b Hb). reflexivity.
  - rewrite app_nil_r. split; [|discriminate].
    apply prefix_app_r. exact Hp.
  - rewrite app_nil_r. split; [|discriminate].
    apply prefix_app_r. exact Hp.
Qed.

Lemma asks_local {A B} (m : M A) (k : A -> M B) (l : list string) :
  asks m [] ->
  (forall a, ending m = Val a -> asks (k a) l) ->
  asks (m ≫= k) l.
Proof. intros Hm Hk. exact (asks_bind m k [] l Hm Hk). Qed.

Lemma asks_request {A B} (m : M A) (k : A -> M B) (u : string)
    (l : list string) :
  asks m [u] ->
  (forall a, ending m = Val a -> asks (k a) l) ->
  asks (m ≫= k) (u :: l).
Proof. intros Hm Hk. exact (asks_bind m k [u] l Hm Hk). Qed.

Lemma asks_emit (e : event) : request_of e = None -> asks (emit e) [].
Proof.
  intros He. unfold asks, requests, emit. cbn. rewrite He. split; reflexivity.
Qed.

Lemma asks_ret {A} (a : A) : asks (mret a) [].
Proof. split; reflexivity. Qed.

Lemma asks_raise {A} (e : exn) (l : list string) : asks (@raise A e) l.
Proof. split; [apply prefix_nil|discriminate]. Qed.

Lemma asks_return {A} (l : list string) : asks (@py_return A) l.
Proof. split; [apply prefix_nil|discriminate]. Qed.

Lemma asks_session_get (url : string) (params : list (string * string))
    (r : option Response) :
  asks (session_get url params r) [url].
Proof.
  unfold session_get. apply (asks_bind _ _ [url] []).
  - split; reflexivity.
  - intros _ _. destruct r; [apply asks_ret|apply asks_raise].
Qed.

Lemma asks_session_post (url : string) (data : list (string * option string))
    (headers : list (string * string)) (r : option Response) :
  asks (session_post url data headers r) [url].
Proof.
  unfold session_post. apply (asks_bind _ _ [url] []).
  - split; reflexivity.
  - intros _ _. destruct r; [apply asks_ret|apply asks_raise].
Qed.

(** A computation that only touches the console and the session asks
    nothing. *)
Lemma asks_nothing {A} (m : M A) :
  Forall (fun e => is_local e = true) (trace m) -> asks m [].
Proof.
  intros H. assert (Hr : requests m = []).
  { unfold requests. induction H as [|e t He _ IH]; [reflexivity|].
    cbn. destruct e; try discriminate; exact IH. }
  split; [rewrite Hr; reflexivity|intros _ _; exact Hr].
Qed.

Ltac asks_atom :=
  first [ apply asks_ret | apply asks_raise | apply asks_return
        | apply asks_emit; reflexivity
        | apply asks_session_get | apply asks_session_post ].

(** Walks through a stage, one statement at a time. *)
Ltac asks_walk :=
  repeat first
    [ asks_atom
    | apply asks_local; [solve [asks_walk]|intros ? _]
    | apply asks_request; [solve [asks_atom]|intros ? _]
    | match goal with
      | |- asks (match ?x with _ => _ end) _ => destruct x
      | |- asks (if ?x then _ else _) _ => destruct x
      end ].

Section Order.

Variable ext : Externals.
Variable w : World.

Lemma step1_asks : asks (step1_cookies ext w) [LOGIN_PAGE; LOGIN_PAGE].
Proof.
  unfold step1_cookies, raise_for_status, debug. asks_walk.
Qed.

Lemma step2_asks : asks (step2_keypad ext w) [CLAVIER_URL].
Proof.
  unfold step2_keypad, raise_for_status, debug.
  do 2 (apply asks_local; [solve [asks_atom]|intros ? _]).
  apply asks_request; [solve [asks_atom]|intros rc _].
  apply asks_local; [solve [asks_walk]|intros ? _].
  apply asks_local.
  { apply asks_nothing. apply decode_loop_footprint. }
  intros m _. asks_walk.
Qed.

Lemma step3_asks (client_number numeric_password : string)
    (token : option string) (rc : Response) (mapping : gmap Z string) :
  asks (step3_login ext w client_number numeric_password token rc mapping)
    [PASSWORD_POST].
Proof.
  unfold step3_login, debug, print_err.
  apply asks_local; [solve [asks_atom]|intros ? _].
  apply (asks_bind _ _ [] [PASSWORD_POST]).
  { destruct (build_encoded_password numeric_password mapping); asks_walk. }
  intros enc _. asks_walk.
Qed.

Lemma step4_account_asks (account : string) :
  asks (step4_account ext w account) [BUDGET_URL].
Proof. unfold step4_account, debug, print_err. asks_walk. Qed.

Lemma step4_export_asks (selected : string) (from_date to_date : datetime) :
  asks (step4_export ext w selected from_date to_date) [EXPORT_URL].
Proof.
  unfold step4_export, pd_read_csv, debug, print_err, print. asks_walk.
Qed.

Lemma live_run_asks (client_number numeric_password account : string)
    (from_date to_date : datetime) :
  asks (live_run ext w client_number numeric_password account from_date
          to_date) protocol.
Proof.
  unfold live_run, protocol.
  apply (asks_bind _ _ [LOGIN_PAGE; LOGIN_PAGE]); [apply step1_asks|].
  intros token _.
  apply (asks_bind _ _ [CLAVIER_URL]); [apply step2_asks|].
  intros [rc mapping] _.
  apply (asks_bind _ _ [PASSWORD_POST]); [apply step3_asks|].
  intros _ _.
  apply (asks_bind _ _ [BUDGET_URL]); [apply step4_account_asks|].
  intros selected _.
  apply (asks_bind _ _ [EXPORT_URL] []); [apply step4_export_asks|].
  intros df _. apply asks_ret.
Qed.

End Order.

(** [X1] Whatever the arguments and the environment, the URLs [main]
    requests are, in order, a prefix of: login page, login page, keypad,
    login submission, budget page, export. No request is repeated or made
    out of turn; a dry run requests nothing, and a live run that ends
    normally made all six. *)
Theorem requests_follow_the_protocol (ext : Externals) (w : World)
    (dry_run : bool) (client_number numeric_password account : string)
    (from_date : datetime) :
  let run := main ext w dry_run client_number numeric_password account
               from_date in
  requests run `prefix_of` protocol
  /\ (dry_run = true -> requests run = [])
  /\ (dry_run = false -> ending run = Val tt -> requests run = protocol).
Proof.
  intros run.
  assert (H : asks run (if dry_run then [] else protocol)).
  { unfold run, main, pd_read_csv, to_csv, write_file, print_err, print.
    destruct (negb (PyStr.isdigit client_number)); [asks_walk|].
    destruct (negb (PyStr.isdigit numeric_password
                    && (PyStr.len numeric_password =? 8))); [asks_walk|].
    apply asks_local; [solve [asks_atom]|intros ? _].
    rewrite <- (app_nil_r (if dry_run then [] else protocol)).
    apply asks_bind.
    - destruct dry_run; cbn [negb]; [asks_walk|apply live_run_asks].
    - intros [name df] _. asks_walk. }
  destruct H as [Hp Hv]. split; [|split].
  - destruct dry_run; [|exact Hp].
    apply prefix_nil_inv in Hp. rewrite Hp. apply prefix_nil.
  - intros ->. apply prefix_nil_inv in Hp. exact Hp.
  - intros -> He. exact (Hv tt He).
Qed.

Lemma requests_follow_the_protocol_witness :
  ending (Scenario.run Scenario.happy "ACC-USER") = Val tt
  /\ requests (Scenario.run Scenario.happy "ACC-USER") = protocol.
Proof.
  assert (He : ending (Scenario.run Scenario.happy "ACC-USER") = Val tt)
    by (vm_compute; reflexivity).
  split; [exact He|].
  exact (proj2 (proj2 (requests_follow_the_protocol Scenario.ext
                         Scenario.happy false Scenario.client Scenario.pin
                         "ACC-USER" Scenario.from_date)) eq_refl He).
Defined.

(** ** The exceptions of the stages *)












(** ** What [main] writes, and when *)

Section Shape.

Variable ext : Externals.
Variable w : World.
Variable dry_run : bool.
Variables (client_number numeric_password account : string).
Variable from_date : datetime.

Let run := main ext w dry_run client_number numeric_password account from_date.
Let inner :=
  fetch ext w dry_run client_number numeric_password account from_date.

(** The three steps of the saving, as [main] chains them. *)
Lemma save_steps (name : string) (df : dataframe) :
  (let path := output_path ext name from_date (today_to_date w) in
   to_csv w path df ;;
   print ("Saved CSV to " +:+ path) ;;
   write_file w SAVE_FILE (isoformat ext (today_saved w)))
  = save_result ext w name df from_date.
Proof.
  cbv zeta. unfold save_result, saving, to_csv, write_file, print.
  rewrite bind_assoc, bind_emit.
  destruct (writable w (output_path ext name from_date (today_to_date w)));
    [|reflexivity].
  rewrite bind_ret, !bind_emit. cbn [trace ending fst snd].
  destruct (writable w SAVE_FILE); reflexivity.
Qed.

(** With arguments that pass the checks, [main] sets the user agent, fetches,
    and saves if the fetch ended with a value. *)
Lemma main_shape :
  valid_args client_number numeric_password ->
  run = (HeadersUpdate "User-Agent" USER_AGENT
           :: trace inner
              ++ match ending inner with
                 | Val (name, df) =>
                     trace (save_result ext w name df from_date)
                 | _ => []
                 end,
         match ending inner with
         | Val (name, df) => ending (save_result ext w name df from_date)
         | Returned => Returned
         | Raised e => Raised e
         end)%list.
Proof.
  intros [Hc Hp]. unfold run, main. rewrite Hc, Hp. cbn [negb].
  fold (fetch ext w dry_run client_number numeric_password account from_date).
  fold inner. rewrite bind_emit. f_equal.
  - f_equal. rewrite trace_bind. f_equal.
    destruct (ending inner) as [[name df]| |e]; try reflexivity.
    rewrite <- save_steps. reflexivity.
  - rewrite ending_bind.
    destruct (ending inner) as [[name df]| |e]; try reflexivity.
    rewrite <- save_steps. reflexivity.
Qed.

(** The saving ends normally only with both files written. *)
Lemma save_result_val (name : string) (df : dataframe) :
  ending (save_result ext w name df from_date) = Val tt ->
  save_result ext w name df from_date
  = (saving ext w name df from_date, Val tt).
Proof.
  unfold save_result.
  destruct (writable w (output_path ext name from_date (today_to_date w)));
    [destruct (writable w SAVE_FILE)|]; try discriminate.
  reflexivity.
Qed.






End Shape.




(** ** The checks at the top of [main] *)

Lemma all_chars_Forall (p : ascii -> bool) (s : string) :
  PyStr.all_chars p s = true <-> forall ch, In ch (PyStr.chars s) -> p ch = true.
Proof.
  induction s as [|c s IH]; cbn [PyStr.all_chars PyStr.chars].
  - split; [intros _ ch []|reflexivity].
  - rewrite andb_true_iff, IH. split.
    + intros [Hc Hs] ch [<-|Hin]; auto.
    + intros H. split; [apply H; left; reflexivity|].
      intros ch Hin. apply H. right; exact Hin.
Qed.

Lemma isdigit_spec (s : string) :
  PyStr.isdigit s = true
  <-> s <> "" /\ forall ch, In ch (PyStr.chars s) -> PyStr.char_isdigit ch = true.
Proof.
  destruct s as [|c s].
  - split; [discriminate|intros [H _]; contradiction].
  - unfold PyStr.isdigit. rewrite all_chars_Forall. split.
    + intros H. split; [discriminate|exact H].
    + intros [_ H]. exact H.
Qed.

(** [X3] In either mode [main] goes past its two checks exactly when the
    client number is a non-empty string of digit characters and the PIN is
    made of exactly 8 digit characters. Otherwise it prints one error line
    (the client number being looked at first) and returns, having
    requested nothing and written nothing. *)
Theorem main_checks_its_arguments (ext : Externals) (w : World)
    (dry_run : bool) (client_number numeric_password account : string)
    (from_date : datetime) :
  let run := main ext w dry_run client_number numeric_password account
               from_date in
  (valid_args client_number numeric_password
   <-> (client_number <> ""
        /\ forall ch, In ch (PyStr.chars client_number) ->
                      PyStr.char_isdigit ch = true)
       /\ String.length numeric_password = 8%nat
       /\ forall ch, In ch (PyStr.chars numeric_password) ->
                     PyStr.char_isdigit ch = true)
  /\ (PyStr.isdigit client_number = false ->
      run = ([PrintErr "Client number should be digits only."], Returned))
  /\ (PyStr.isdigit client_number = true ->
      ~ valid_args client_number numeric_password ->
      run = ([PrintErr "Password must be digits (8 digits by default)."],
             Returned))
  /\ (valid_args client_number numeric_password ->
      exists rest, trace run = HeadersUpdate "User-Agent" USER_AGENT :: rest).
Proof.
  intros run. split; [|split; [|split]].
  - unfold valid_args. rewrite andb_true_iff, !isdigit_spec, Z.eqb_eq.
    unfold PyStr.len. split.
    + intros (Hc & [Hne Hp] & Hlen). split; [exact Hc|]. split; [lia|exact Hp].
    + intros (Hc & Hlen & Hp). split; [exact Hc|]. split; [|lia].
      split; [|exact Hp]. intros ->. discriminate Hlen.
  - intros Hc. unfold run, main. rewrite Hc. reflexivity.
  - intros Hc Hn. unfold run, main. rewrite Hc. cbn [negb].
    destruct (PyStr.isdigit numeric_password
              && (PyStr.len numeric_password =? 8)) eqn:Hp; [|reflexivity].
    exfalso. apply Hn. split; assumption.
  - intros Hv. unfold run.
    rewrite (main_shape ext w dry_run client_number numeric_password account
               from_date Hv).
    eexists. reflexivity.
Qed.

Lemma main_checks_its_arguments_witness :
  PyStr.isdigit "12a45678" = false
  /\ main Scenario.ext Scenario.happy false "12a45678" Scenario.pin "ACC-USER"
       Scenario.from_date
     = ([PrintErr "Client number should be digits only."], Returned).
Proof.
  split; [reflexivity|].
  exact (proj1 (proj2 (main_checks_its_arguments Scenario.ext Scenario.happy
                         false "12a45678" Scenario.pin "ACC-USER"
                         Scenario.from_date)) eq_refl).
Defined.

(** ** A dry run *)



(** ** The encoder, whatever the PIN *)

(** Either every character has a label, or there is a first one that is not
    an ASCII digit or has none. *)
Lemma first_offending (m : gmap Z string) (l : list ascii) :
  all_mapped m l
  \/ exists l1 ch l2,
       l = (l1 ++ ch :: l2)%list /\ all_mapped m l1
       /\ (PyStr.int_of_char ch = None
           \/ exists d, PyStr.int_of_char ch = Some d /\ m !! d = None).
Proof.
  induction l as [|ch l IH].
  - left. intros ch [].
  - destruct (PyStr.int_of_char ch) as [d|] eqn:Hd.
    + destruct (m !! d) as [g|] eqn:Hg.
      * destruct IH as [Hall|(l1 & c & l2 & -> & Hall & Hc)].
        -- left. intros x [<-|Hx]; [exists d; split; eauto|apply Hall; exact Hx].
        -- right. exists (ch :: l1), c, l2. repeat split; auto.
           intros x [<-|Hx]; [exists d; split; eauto|apply Hall; exact Hx].
      * right. exists [], ch, l. repeat split; eauto. intros x [].
    + right. exists [], ch, l. repeat split; auto. intros x [].
Qed.

Lemma encode_result (pin : string) (m : gmap Z string) :
  (forall s, build_encoded_password pin m = Ok s
             <-> all_mapped m (PyStr.chars pin)
                 /\ s = PyStr.join "|" (labels_of m (PyStr.chars pin)))
  /\ (~ all_mapped m (PyStr.chars pin) ->
      exists l1 ch l2,
        PyStr.chars pin = (l1 ++ ch :: l2)%list /\ all_mapped m l1
        /\ build_encoded_password pin m
           = Raise (ValueError
                      match PyStr.int_of_char ch with
                      | None => invalid_literal_msg ch
                      | Some d => no_mapping_msg d
                      end)
        /\ (forall d, PyStr.int_of_char ch = Some d -> m !! d = None)).
Proof.
  unfold build_encoded_password.
  destruct (first_offending m (PyStr.chars pin))
    as [Hall|(l1 & ch & l2 & Hl & Hall & Hbad)].
  - rewrite (encode_loop_mapped m _ [] Hall). split.
    + intros s. split.
      * intros H. injection H as <-. split; [exact Hall|reflexivity].
      * intros [_ ->]. reflexivity.
    + intros Hn. contradiction.
  - assert (Hnot : ~ all_mapped m (PyStr.chars pin)).
    { intros Hm. destruct (Hm ch) as (d & Hd & [g Hg]).
      - rewrite Hl. apply in_or_app. right; left; reflexivity.
      - destruct Hbad as [Hb|(d' & Hd' & Hn)]; congruence. }
    assert (Hr : encode_loop m [] (PyStr.chars pin)
                 = Raise (ValueError
                            match PyStr.int_of_char ch with
                            | None => invalid_literal_msg ch
                            | Some d => no_mapping_msg d
                            end)).
    { rewrite Hl, (encode_loop_stops m l1 l2 ch [] Hall).
      destruct Hbad as [Hb|(d & Hd & Hn)].
      - rewrite Hb. reflexivity.
      - rewrite Hd, Hn. reflexivity. }
    rewrite Hr. split.
    + intros s. split; [discriminate|]. intros [Hm _]. contradiction.
    + intros _. exists l1, ch, l2. repeat split; auto.
      intros d Hd. destruct Hbad as [Hb|(d' & Hd' & Hn)]; congruence.
Qed.

(** [X5] [build_encoded_password] returns a credential exactly when [int]
    accepts every character of the PIN and the mapping has a label for the
    digit it gives, and the credential is then the complete join of those
    labels. In every other case it raises [ValueError] at the first
    offending character: the invalid-literal one of [int] for a character
    that [int] rejects, the no-mapping one for a digit without a label. It
    never returns a part of the credential. (What [int] accepts is read off
    [PyStr.int_of_char]: among the characters of this embedding, the ASCII
    digits.) *)
Theorem encoder_all_or_nothing (pin : string) (m : gmap Z string) :
  (forall s, build_encoded_password pin m = Ok s
             <-> all_mapped m (PyStr.chars pin)
                 /\ s = PyStr.join "|" (labels_of m (PyStr.chars pin)))
  /\ (~ all_mapped m (PyStr.chars pin) ->
      exists l1 ch l2,
        PyStr.chars pin = (l1 ++ ch :: l2)%list /\ all_mapped m l1
        /\ build_encoded_password pin m
           = Raise (ValueError
                      match PyStr.int_of_char ch with
                      | None => invalid_literal_msg ch
                      | Some d => no_mapping_msg d
                      end)
        /\ (forall d, PyStr.int_of_char ch = Some d -> m !! d = None)).
Proof. exact (encode_result pin m). Qed.

Lemma encoder_all_or_nothing_witness :
  ~ all_mapped scenario_mapping (PyStr.chars "1290")
  /\ exists l1 ch l2,
       PyStr.chars "1290" = (l1 ++ ch :: l2)%list
       /\ all_mapped scenario_mapping l1
       /\ build_encoded_password "1290" scenario_mapping
          = Raise (ValueError
                     match PyStr.int_of_char ch with
                     | None => invalid_literal_msg ch
                     | Some d => no_mapping_msg d
                     end)
       /\ (forall d, PyStr.int_of_char ch = Some d ->
                     scenario_mapping !! d = None).
Proof.
  assert (Hn : ~ all_mapped scenario_mapping (PyStr.chars "1290")).
  { intros H. destruct (H "9"%char) as (d & Hd & [g Hg]).
    - simpl. tauto.
    - vm_compute in Hd. injection Hd as <-. vm_compute in Hg. discriminate. }
  split; [exact Hn|].
  exact (proj2 (encoder_all_or_nothing "1290" scenario_mapping) Hn).
Defined.

(** ** What the login submission carries *)

Lemma ending_bind_val {A B} (m : M A) (k : A -> M B) (b : B) :
  ending (m ≫= k) = Val b ->
  exists a, ending m = Val a /\ ending (k a) = Val b.
Proof.
  rewrite ending_bind. destruct (ending m) as [a| |e]; try discriminate.
  intros H. exists a. auto.
Qed.

Lemma session_get_val (url : string) (params : list (string * string))
    (r : option Response) (a : Response) :
  ending (session_get url params r) = Val a -> r = Some a.
Proof.
  unfold session_get. rewrite bind_emit. cbn [ending snd].
  destruct r as [resp|]; [|discriminate]. intros H. injection H as <-.
  reflexivity.
Qed.

Lemma raise_for_status_val (r : Response) (a : unit) :
  ending (raise_for_status r) = Val a -> ok_status r.
Proof.
  unfold raise_for_status, ok_status.
  destruct ((400 <=? status_code r) && (status_code r <? 600));
    [discriminate|reflexivity].
Qed.

Section Submission.

Variable ext : Externals.
Variable w : World.

Lemma step1_val (token : option string) :
  ending (step1_cookies ext w) = Val token ->
  exists r2, resp_login_2 w = Some r2
             /\ token = extract_token_from_login ext (text r2).
Proof.
  unfold step1_cookies. intros H.
  apply ending_bind_val in H as (_ & _ & H).
  apply ending_bind_val in H as (_ & _ & H).
  apply ending_bind_val in H as (r1 & _ & H).
  apply ending_bind_val in H as (_ & _ & H).
  apply ending_bind_val in H as (v & _ & H).
  apply ending_bind_val in H as (_ & _ & H).
  apply ending_bind_val in H as (r2 & Hr2 & H).
  apply ending_bind_val in H as (_ & _ & H).
  apply ending_bind_val in H as (_ & _ & H).
  apply session_get_val in Hr2. exists r2. split; [exact Hr2|].
  injection H as <-. reflexivity.
Qed.

Lemma step2_val (rc : Response) (mapping : gmap Z string) :
  ending (step2_keypad ext w) = Val (rc, mapping) ->
  resp_clavier w = Some rc
  /\ ok_status rc
  /\ ending (decode_keypad B64_SVG_LEN_MAP (html_parser ext (text rc)))
     = Val mapping.
Proof.
  unfold step2_keypad. intros H.
  apply ending_bind_val in H as (_ & _ & H).
  apply ending_bind_val in H as (_ & _ & H).
  apply ending_bind_val in H as (rc' & Hrc & H).
  apply ending_bind_val in H as (u & Hok & H).
  apply ending_bind_val in H as (m & Hm & H).
  apply ending_bind_val in H as (_ & _ & H).
  injection H as <- <-.
  apply session_get_val in Hrc. apply raise_for_status_val in Hok. auto.
Qed.

End Submission.

(** [X6] Every login submission of a live run is the one form the run
    builds from what it has just read: the token found in the second load
    of the login page, the PIN encoded with the mapping decoded from the
    keypad fragment, and the challenge found in that same fragment. *)
Theorem submission_is_built_from_the_pages (ext : Externals) (w : World)
    (client_number numeric_password account : string) (from_date : datetime)
    (u : string) (d : list (string * option string))
    (h : list (string * string)) :
  In (HttpPost u d h)
     (trace (main ext w false client_number numeric_password account
               from_date)) ->
  exists r2 rc mapping encoded_password,
    resp_login_2 w = Some r2
    /\ resp_clavier w = Some rc
    /\ ending (decode_keypad B64_SVG_LEN_MAP (html_parser ext (text rc)))
       = Val mapping
    /\ build_encoded_password numeric_password mapping = Ok encoded_password
    /\ u = PASSWORD_POST /\ h = login_headers
    /\ d = login_data client_number encoded_password numeric_password
             (extract_token_from_login ext (text r2))
             (search_challenge ext (text rc)).
Proof.
  intros H.
  apply post_in_run in H
    as (_ & token & rc & mapping & enc & H1 & H2 & Hb & He).
  apply step1_val in H1 as (r2 & Hr2 & ->).
  apply step2_val in H2 as (Hrc & _ & Hdec).
  injection He as -> -> ->.
  exists r2, rc, mapping, enc. repeat split; auto.
Qed.

Lemma submission_is_built_from_the_pages_witness :
  In (HttpPost PASSWORD_POST
        (login_data Scenario.client "TUV|KNO|HIJ|QRS|EFG|WXA|YZA|GHT"
           Scenario.pin (Some "tok42") (Some "c7a1")) login_headers)
     (trace (Scenario.run Scenario.happy "ACC-USER"))
  /\ exists r2 rc mapping encoded_password,
       resp_login_2 Scenario.happy = Some r2
       /\ resp_clavier Scenario.happy = Some rc
       /\ ending (decode_keypad B64_SVG_LEN_MAP
                    (html_parser Scenario.ext (text rc))) = Val mapping
       /\ build_encoded_password Scenario.pin mapping = Ok encoded_password.
Proof.
  assert (Hin : In (HttpPost PASSWORD_POST
                      (login_data Scenario.client
                         "TUV|KNO|HIJ|QRS|EFG|WXA|YZA|GHT"
                         Scenario.pin (Some "tok42") (Some "c7a1"))
                      login_headers)
                   (trace (Scenario.run Scenario.happy "ACC-USER"))).
  { vm_compute. tauto. }
  split; [exact Hin|].
  destruct (submission_is_built_from_the_pages Scenario.ext Scenario.happy
              Scenario.client Scenario.pin "ACC-USER" Scenario.from_date
              _ _ _ Hin) as (r2 & rc & m & enc & H2 & Hc & Hd & Hb & _).
  exists r2, rc, m, enc. auto.
Defined.

(** [X7] The check of [main] lets through a PIN with a character that is a
    digit for [isdigit] and not for [int] (a superscript digit). With such a
    PIN, whatever the pages say, a live run never submits the login form:
    the encoder raises [ValueError] for every mapping. *)
Theorem pin_with_non_ascii_digit_is_never_submitted (ext : Externals)
    (w : World) (client_number numeric_password account : string)
    (from_date : datetime) (ch : ascii) :
  In ch (PyStr.chars numeric_password) ->
  PyStr.int_of_char ch = None ->
  (forall m, exists msg,
      build_encoded_password numeric_password m = Raise (ValueError msg))
  /\ forall e,
       In e (trace (main ext w false client_number numeric_password account
                      from_date)) ->
       is_post e = false.
Proof.
  intros Hin Hnone.
  assert (Hnot : forall m, ~ all_mapped m (PyStr.chars numeric_password)).
  { intros m Hm. destruct (Hm ch Hin) as (d & Hd & _). congruence. }
  split.
  - intros m.
    destruct (proj2 (encode_result numeric_password m) (Hnot m))
      as (l1 & c & l2 & _ & _ & Hr & _).
    eexists. exact Hr.
  - intros e He. destruct e; try reflexivity.
    apply post_in_run in He as (_ & token & rc & m & enc & _ & _ & Hb & _).
    apply (proj1 (encode_result numeric_password m)) in Hb as [Hm _].
    destruct (Hnot m Hm).
Qed.

Lemma pin_with_non_ascii_digit_is_never_submitted_witness :
  valid_args Scenario.client pin_with_superscript
  /\ In superscript_two (PyStr.chars pin_with_superscript)
  /\ PyStr.int_of_char superscript_two = None
  /\ forall e,
       In e (trace (main Scenario.ext Scenario.happy false Scenario.client
                      pin_with_superscript "ACC-USER" Scenario.from_date)) ->
       is_post e = false.
Proof.
  assert (Hin : In superscript_two (PyStr.chars pin_with_superscript)).
  { vm_compute. tauto. }
  assert (Hn : PyStr.int_of_char superscript_two = None)
    by (vm_compute; reflexivity).
  split; [split; vm_compute; reflexivity|].
  split; [exact Hin|]. split; [exact Hn|].
  exact (proj2 (pin_with_non_ascii_digit_is_never_submitted Scenario.ext
                  Scenario.happy Scenario.client pin_with_superscript
                  "ACC-USER" Scenario.from_date superscript_two Hin Hn)).
Defined.

(** ** Step 1: the cookie *)

Lemma bind_raised {A B} (m : M A) (k : A -> M B) (e : exn) :
  ending m = Raised e -> m ≫= k = (trace m, Raised e).
Proof.
  destruct m as [t o]. cbn [ending trace fst snd]. intros ->. reflexivity.
Qed.

Lemma bind_returned {A B} (m : M A) (k : A -> M B) :
  ending m = Returned -> m ≫= k = (trace m, Returned).
Proof.
  destruct m as [t o]. cbn [ending trace fst snd]. intros ->. reflexivity.
Qed.

(** [X8] When both loads of the login page go through and the first page
    holds the cookie assignment, step 1 makes exactly two requests and sets
    the cookie it found on the session between them, so that the second
    load carries it; it ends with whatever token the second page holds. *)
Theorem cookie_is_set_between_the_two_loads (ext : Externals) (w : World)
    (r1 r2 : Response) (cookie_value : string) :
  resp_login_1 w = Some r1 -> ok_status r1 ->
  search_brs_mit ext (text r1) = Some cookie_value ->
  resp_login_2 w = Some r2 -> ok_status r2 ->
  step1_cookies ext w
  = ([Debug "### Step 1: Magic cookie the gathering ###";
      Debug "Fetching login page to collect initial cookies and token...";
      HttpGet LOGIN_PAGE [];
      Debug "Found __brs_mit cookie.";
      CookieSet "__brs_mit" cookie_value;
      HttpGet LOGIN_PAGE [];
      match extract_token_from_login ext (text r2) with
      | None =>
          Debug "Could not find form[_token]. The page structure may have changed."
      | Some _ => Debug "Found form token."
      end],
     Val (extract_token_from_login ext (text r2))).
Proof.
  intros H1 Hok1 Hc H2 Hok2.
  unfold step1_cookies, raise_for_status, ok_status, debug in *.
  rewrite H1, H2.
  rewrite bind_emit. cbn [trace ending fst snd].
  rewrite bind_emit. cbn [trace ending fst snd].
  rewrite bind_session_get. cbn [trace ending fst snd].
  rewrite Hok1, bind_ret, Hc.
  rewrite bind_assoc, bind_emit, bind_ret. cbn [trace ending fst snd].
  rewrite bind_emit. cbn [trace ending fst snd].
  rewrite bind_session_get. cbn [trace ending fst snd].
  rewrite Hok2, bind_ret.
  destruct (extract_token_from_login ext (text r2));
    rewrite bind_emit; reflexivity.
Qed.

Lemma cookie_is_set_between_the_two_loads_witness :
  resp_login_1 Scenario.happy = Some (Scenario.resp Scenario.login_page_1)
  /\ search_brs_mit Scenario.ext (text (Scenario.resp Scenario.login_page_1))
     = Some "9f3c2a"
  /\ In (CookieSet "__brs_mit" "9f3c2a")
        (trace (step1_cookies Scenario.ext Scenario.happy))
  /\ ending (step1_cookies Scenario.ext Scenario.happy) = Val (Some "tok42").
Proof.
  split; [reflexivity|]. split; [reflexivity|].
  rewrite (cookie_is_set_between_the_two_loads Scenario.ext Scenario.happy
             (Scenario.resp Scenario.login_page_1)
             (Scenario.resp Scenario.login_page_with_token) "9f3c2a"
             eq_refl eq_refl eq_refl eq_refl eq_refl).
  split; [cbn [trace fst In]; tauto|reflexivity].
Defined.

(** [X9] When the first login page holds no cookie assignment the run is
    over after that one request: step 1 raises the [ValueError] of the
    missing cookie, nothing catches it, and [main] has made no other
    request and set no cookie. *)
Theorem missing_cookie_is_fatal (ext : Externals) (w : World)
    (client_number numeric_password account : string) (from_date : datetime)
    (r1 : Response) :
  valid_args client_number numeric_password ->
  resp_login_1 w = Some r1 -> ok_status r1 ->
  search_brs_mit ext (text r1) = None ->
  main ext w false client_number numeric_password account from_date
  = ([HeadersUpdate "User-Agent" USER_AGENT;
      Debug "### Step 1: Magic cookie the gathering ###";
      Debug "Fetching login page to collect initial cookies and token...";
      HttpGet LOGIN_PAGE []],
     Raised (ValueError "Cookie not found in HTML")).
Proof.
  intros Hv H1 Hok Hc.
  assert (Hs : step1_cookies ext w
               = ([Debug "### Step 1: Magic cookie the gathering ###";
                   Debug "Fetching login page to collect initial cookies and token...";
                   HttpGet LOGIN_PAGE []],
                  Raised (ValueError "Cookie not found in HTML"))).
  { unfold step1_cookies, raise_for_status, ok_status, debug in *.
    rewrite H1.
    rewrite bind_emit. cbn [trace ending fst snd].
    rewrite bind_emit. cbn [trace ending fst snd].
    rewrite bind_session_get. cbn [trace ending fst snd].
    rewrite Hok, bind_ret, Hc. reflexivity. }
  rewrite (main_shape ext w false client_number numeric_password account
             from_date Hv).
  unfold fetch, live_run. cbn [negb].
  rewrite (bind_raised _ _ (ValueError "Cookie not found in HTML"));
    rewrite Hs; reflexivity.
Qed.

Lemma missing_cookie_is_fatal_witness :
  search_brs_mit Scenario.ext Scenario.login_page_with_token = None
  /\ ending (main Scenario.ext w_no_cookie false Scenario.client Scenario.pin
               "ACC-USER" Scenario.from_date)
     = Raised (ValueError "Cookie not found in HTML").
Proof.
  split; [reflexivity|].
  rewrite (missing_cookie_is_fatal Scenario.ext w_no_cookie Scenario.client
             Scenario.pin "ACC-USER" Scenario.from_date
             (Scenario.resp Scenario.login_page_with_token)).
  - reflexivity.
  - split; vm_compute; reflexivity.
  - reflexivity.
  - vm_compute; reflexivity.
  - reflexivity.
Defined.

(** ** Refused pages *)

(** [X10] A 4xx or 5xx answer to the keypad request, after step 1 went
    through, ends [main] with the [HTTPError] of that status: the fragment
    is not parsed and no login form is submitted. *)
Theorem keypad_http_error_is_fatal (ext : Externals) (w : World)
    (client_number numeric_password account : string) (from_date : datetime)
    (r2 rc : Response) :
  let run := main ext w false client_number numeric_password account
               from_date in
  valid_args client_number numeric_password ->
  login_page_loaded ext w r2 ->
  resp_clavier w = Some rc ->
  400 <= status_code rc < 600 ->
  ending run = Raised (HTTPError (status_code rc))
  /\ requests run = [LOGIN_PAGE; LOGIN_PAGE; CLAVIER_URL]
  /\ forall e, In e (trace run) -> is_post e = false.
Proof.
  intros run Hv Hl Hc Hs.
  assert (Hbad : (400 <=? status_code rc) && (status_code rc <? 600) = true).
  { apply andb_true_iff. split; [apply Z.leb_le|apply Z.ltb_lt]; lia. }
  assert (H2 : step2_keypad ext w
               = ([Debug "### Step 2: SVG based obfuscation ###";
                   Debug "Fetching keypad / SVG mapping...";
                   HttpGet CLAVIER_URL []],
                  Raised (HTTPError (status_code rc)))).
  { unfold step2_keypad, raise_for_status, debug. rewrite Hc.
    rewrite bind_emit. cbn [trace ending fst snd].
    rewrite bind_emit. cbn [trace ending fst snd].
    rewrite bind_session_get. cbn [trace ending fst snd].
    rewrite Hbad. reflexivity. }
  pose proof (step1_loaded ext w r2 Hl) as H1.
  assert (Hend : ending run = Raised (HTTPError (status_code rc))).
  { unfold run. rewrite (run_ending ext w _ _ _ _ Hv), live_ending.
    rewrite H1, H2. reflexivity. }
  split; [exact Hend|]. split.
  - unfold run.
    rewrite (main_shape ext w false client_number numeric_password account
               from_date Hv).
    unfold fetch. cbn [negb]. unfold requests. cbn [trace fst omap list_omap].
    fold (requests (live_run ext w client_number numeric_password account
                      from_date (today_to_date w))).
    assert (Hlive : ending (live_run ext w client_number numeric_password
                              account from_date (today_to_date w))
                    = Raised (HTTPError (status_code rc))).
    { rewrite live_ending, H1, H2. reflexivity. }
    rewrite Hlive, app_nil_r. cbn [request_of].
    fold (requests (live_run ext w client_number numeric_password account
                      from_date (today_to_date w))).
    unfold live_run. rewrite requests_bind, H1, requests_bind, H2.
    destruct (step1_asks ext w) as [_ Hall1].
    rewrite (Hall1 _ H1). unfold requests at 1. cbn. reflexivity.
  - intros e He. destruct e; try reflexivity.
    apply post_in_run in He as (_ & token & rc' & m & enc & _ & H2' & _).
    rewrite H2 in H2'. discriminate.
Qed.

Lemma keypad_http_error_is_fatal_witness :
  login_page_loaded Scenario.ext w_keypad_refused
    (Scenario.resp Scenario.login_page_with_token)
  /\ ending (main Scenario.ext w_keypad_refused false Scenario.client
               Scenario.pin "ACC-USER" Scenario.from_date)
     = Raised (HTTPError 403).
Proof.
  assert (Hl : login_page_loaded Scenario.ext w_keypad_refused
                 (Scenario.resp Scenario.login_page_with_token)).
  { exists (Scenario.resp Scenario.login_page_1), "9f3c2a".
    repeat split; vm_compute; reflexivity. }
  split; [exact Hl|].
  refine (proj1 (keypad_http_error_is_fatal Scenario.ext w_keypad_refused
                   Scenario.client Scenario.pin "ACC-USER" Scenario.from_date
                   (Scenario.resp Scenario.login_page_with_token)
                   (mkResponse 403 "Forbidden" (Some "text/html"))
                   _ Hl eq_refl _)).
  - split; vm_compute; reflexivity.
  - cbn [status_code]. lia.
Defined.

(** ** The exceptions that leave [main] *)



(** ** The account, once more *)

(** [X12] A caller-supplied account is never lost: whatever the budget page
    answers, the resolved identifier is non-empty when the caller's is, so
    that step 4 does not stop for want of an account; and a budget page
    served with a status other than 200, an error status included, is
    simply ignored, the caller's identifier being used as it is. *)
Theorem supplied_account_is_a_fallback (ext : Externals) (w : World)
    (account : string) (rb : Response) :
  (PyStr.nonempty account = true ->
   PyStr.nonempty (selected_account ext account rb) = true)
  /\ (status_code rb <> 200 -> selected_account ext account rb = account)
  /\ (resp_budget w = Some rb -> PyStr.nonempty account = true ->
      ending (step4_account ext w account)
      = Val (selected_account ext account rb)).
Proof.
  assert (Hne : PyStr.nonempty account = true ->
                PyStr.nonempty (selected_account ext account rb) = true).
  { intros Ha. unfold selected_account.
    destruct (status_code rb =? 200); [|exact Ha].
    destruct (soup_find _ _) as [acc_input|].
    - destruct (get acc_input "value") as [[|c v]|]; try reflexivity;
        destruct (select_one_below _ _ _) as [opt|]; try exact Ha;
        destruct (get opt "value") as [[|c' v']|]; try exact Ha; reflexivity.
    - destruct (select_one_below _ _ _) as [opt|]; try exact Ha.
      destruct (get opt "value") as [[|c' v']|]; try exact Ha; reflexivity. }
  split; [exact Hne|]. split.
  - intros Hs. unfold selected_account.
    apply Z.eqb_neq in Hs. rewrite Hs. reflexivity.
  - intros Hb Ha. rewrite (step4_account_ending ext w account rb Hb).
    rewrite (Hne Ha). reflexivity.
Qed.

Lemma supplied_account_is_a_fallback_witness :
  status_code Scenario.error_500 <> 200
  /\ selected_account Scenario.ext "ACC-USER" Scenario.error_500 = "ACC-USER".
Proof.
  assert (Hs : status_code Scenario.error_500 <> 200)
    by (cbn [status_code Scenario.error_500]; discriminate).
  split; [exact Hs|].
  exact (proj1 (proj2 (supplied_account_is_a_fallback Scenario.ext
                         Scenario.happy "ACC-USER" Scenario.error_500)) Hs).
Defined.

(** ** What is parsed and what is saved *)

Section Saved.

Variable ext : Externals.
Variable w : World.

(** [X13] The export stage, on a 200 response that is not turned down,
    parses the body with the semicolon separator and, only if that fails,
    once more with the default separator; it yields the first table
    obtained, and raises the parser's error when both attempts fail. *)
Theorem comma_parse_is_the_fallback (selected : string)
    (from_date to_date : datetime) (r : Response) :
  csv_resp w = Some r ->
  status_code r = 200 ->
  negb (PyStr.contains "text/csv" (default "" (content_type r)))
  && PyStr.startswith "<" (PyStr.strip (text r)) = false ->
  let export := step4_export ext w selected from_date to_date in
  ending export
  = match read_csv ext (text r) (Some ";") with
    | Some df => Val df
    | None => match read_csv ext (text r) None with
              | Some df => Val df
              | None => Raised ParserError
              end
    end
  /\ filter (fun e => bool_decide (is_read_csv e = true)) (trace export)
     = match read_csv ext (text r) (Some ";") with
       | Some _ => [ReadCsv (text r) (Some ";")]
       | None => [ReadCsv (text r) (Some ";"); ReadCsv (text r) None]
       end.
Proof.
  intros Hcsv Hs Hd export. unfold export, step4_export, pd_read_csv.
  rewrite Hcsv. unfold debug, print_err, print.
  rewrite bind_emit. cbn [trace ending fst snd].
  rewrite bind_session_get. cbn [trace ending fst snd].
  rewrite Hs. cbn [Z.eqb Pos.eqb negb]. rewrite Hd.
  rewrite bind_assoc, bind_emit. cbn [trace ending fst snd].
  destruct (read_csv ext (text r) (Some ";")) as [df|].
  - rewrite bind_ret, bind_emit. cbn [trace ending fst snd].
    rewrite bind_emit. split; reflexivity.
  - rewrite bind_assoc, bind_emit. cbn [trace ending fst snd].
    destruct (read_csv ext (text r) None) as [df|].
    + rewrite bind_ret, bind_emit. cbn [trace ending fst snd].
      rewrite bind_emit. split; reflexivity.
    + split; reflexivity.
Qed.

Lemma step4_export_val (selected : string) (from_date to_date : datetime)
    (df : dataframe) :
  ending (step4_export ext w selected from_date to_date) = Val df ->
  exists r sep, csv_resp w = Some r /\ status_code r = 200
                /\ read_csv ext (text r) sep = Some df.
Proof.
  unfold step4_export. intros H.
  apply ending_bind_val in H as (_ & _ & H).
  apply ending_bind_val in H as (r & Hr & H).
  apply session_get_val in Hr.
  destruct (status_code r =? 200) eqn:Hs; cbn [negb] in H.
  2:{ apply ending_bind_val in H as (_ & _ & H).
      apply ending_bind_val in H as (_ & _ & H). discriminate. }
  apply Z.eqb_eq in Hs.
  destruct (negb (PyStr.contains "text/csv" (default "" (content_type r)))
            && PyStr.startswith "<" (PyStr.strip (text r))).
  { apply ending_bind_val in H as (_ & _ & H).
    apply ending_bind_val in H as (_ & _ & H). discriminate. }
  apply ending_bind_val in H as (df' & Hdf & H).
  apply ending_bind_val in H as (_ & _ & H).
  apply ending_bind_val in H as (_ & _ & H).
  injection H as <-.
  apply ending_bind_val in Hdf as (_ & _ & Hdf).
  destruct (read_csv ext (text r) (Some ";")) as [d|] eqn:H1.
  - injection Hdf as <-. exists r, (Some ";"). auto.
  - unfold pd_read_csv in Hdf.
    apply ending_bind_val in Hdf as (_ & _ & Hdf).
    destruct (read_csv ext (text r) None) as [d|] eqn:H2; [|discriminate].
    injection Hdf as <-. exists r, None. auto.
Qed.

Lemma step4_export_requests (selected : string)
    (from_date to_date : datetime) :
  In (HttpGet EXPORT_URL (export_params ext selected from_date to_date))
     (trace (step4_export ext w selected from_date to_date)).
Proof.
  unfold step4_export, session_get, debug.
  rewrite bind_emit. right. cbn [trace fst].
  apply in_trace_bind. left. rewrite bind_emit. left; reflexivity.
Qed.

End Saved.

(** [X14] A live run that ends normally saved what it exported: the table
    written to the output file is a parse of the body of the export
    response, that response had status 200, and the account in the file's
    name is the resolved account for which the export request was made
    (the one the budget page shows, when it shows one). *)
Theorem saved_file_is_the_export (ext : Externals) (w : World)
    (client_number numeric_password account : string)
    (from_date : datetime) :
  let run := main ext w false client_number numeric_password account
               from_date in
  ending run = Val tt ->
  exists rb r sep df,
    resp_budget w = Some rb
    /\ csv_resp w = Some r /\ status_code r = 200
    /\ read_csv ext (text r) sep = Some df
    /\ In (HttpGet EXPORT_URL
             (export_params ext (selected_account ext account rb) from_date
                (today_to_date w))) (trace run)
    /\ In (ToCsv (output_path ext (selected_account ext account rb) from_date
                    (today_to_date w)) df) (trace run)
    /\ In (WriteFile SAVE_FILE (isoformat ext (today_saved w))) (trace run).
Proof.
  intros run Hend.
  assert (Hv : valid_args client_number numeric_password).
  { destruct (PyStr.isdigit client_number) eqn:Hc;
      [destruct (PyStr.isdigit numeric_password
                 && (PyStr.len numeric_password =? 8)) eqn:Hp|].
    - split; assumption.
    - unfold run, main in Hend. rewrite Hc, Hp in Hend. discriminate.
    - unfold run, main in Hend. rewrite Hc in Hend. discriminate. }
  pose proof (main_shape ext w false client_number numeric_password account
                from_date Hv) as Hs.
  unfold fetch in Hs. cbn [negb] in Hs. fold run in Hs.
  rewrite Hs in Hend. cbn [ending snd] in Hend.
  pose proof (live_ending ext w client_number numeric_password account
                from_date) as Hl.
  destruct (ending (live_run ext w client_number numeric_password account
                      from_date (today_to_date w)))
    as [[name df]| |x] eqn:Hlive; try discriminate.
  apply save_result_val in Hend. rewrite Hend in Hs. cbn [trace fst] in Hs.
  destruct (ending (step1_cookies ext w)) as [token| |x] eqn:H1;
    try discriminate.
  destruct (ending (step2_keypad ext w)) as [[rc mapping]| |x] eqn:H2;
    try discriminate.
  destruct (ending (step3_login ext w client_number numeric_password token
                      rc mapping)) as [[]| |x] eqn:H3; try discriminate.
  destruct (ending (step4_account ext w account)) as [sel| |x] eqn:H4;
    try discriminate.
  destruct (ending (step4_export ext w sel from_date (today_to_date w)))
    as [df'| |x] eqn:H5; try discriminate.
  injection Hl as -> ->.
  destruct (step4_account_val ext w account sel H4) as (rb & Hb & Hsel & _).
  subst sel.
  apply step4_export_val in H5 as (r & sep & Hr & Hst & Hp).
  exists rb, r, sep, df'. repeat split; auto.
  - rewrite Hs. cbn [trace fst]. right. apply in_or_app. left.
    unfold live_run. apply in_trace_bind. right. exists token.
    split; [exact H1|]. apply in_trace_bind. right. exists (rc, mapping).
    split; [exact H2|]. apply in_trace_bind. right. exists tt.
    split; [exact H3|]. apply in_trace_bind. right.
    exists (selected_account ext account rb). split; [exact H4|].
    apply in_trace_bind. left. apply step4_export_requests.
  - rewrite Hs. cbn [trace fst]. right. apply in_or_app. right.
    left. reflexivity.
  - rewrite Hs. cbn [trace fst]. right. apply in_or_app. right.
    right; right; left. reflexivity.
Qed.

Lemma saved_file_is_the_export_witness :
  ending (Scenario.run Scenario.happy "ACC-USER") = Val tt
  /\ In (ToCsv (output_path Scenario.ext "ACC-PAGE" Scenario.from_date
                  (today_to_date Scenario.happy))
           (DataFrame [["2026-10-03"; "CARTE"; "-12,50"]]))
        (trace (Scenario.run Scenario.happy "ACC-USER")).
Proof.
  assert (He : ending (Scenario.run Scenario.happy "ACC-USER") = Val tt)
    by (vm_compute; reflexivity).
  split; [exact He|].
  destruct (saved_file_is_the_export Scenario.ext Scenario.happy
              Scenario.client Scenario.pin "ACC-USER" Scenario.from_date He)
    as (rb & r & sep & df & Hb & Hr & _ & Hp & _ & Hcsv & _).
  injection Hb as <-. injection Hr as <-.
  assert (Hdf : df = DataFrame [["2026-10-03"; "CARTE"; "-12,50"]]).
  { cbn in Hp. injection Hp as <-. reflexivity. }
  rewrite <- Hdf. exact Hcsv.
Defined.

Lemma comma_parse_is_the_fallback_witness :
  csv_resp Scenario.happy
  = Some (mkResponse 200 Scenario.csv_body (Some "text/csv; charset=UTF-8"))
  /\ ending (step4_export Scenario.ext Scenario.happy "ACC-PAGE"
               Scenario.from_date (today_to_date Scenario.happy))
     = Val (DataFrame [["2026-10-03"; "CARTE"; "-12,50"]]).
Proof.
  split; [reflexivity|].
  exact (proj1 (comma_parse_is_the_fallback Scenario.ext Scenario.happy
                  "ACC-PAGE" Scenario.from_date
                  (today_to_date Scenario.happy)
                  (mkResponse 200 Scenario.csv_body
                     (Some "text/csv; charset=UTF-8"))
                  eq_refl eq_refl eq_refl)).
Defined.

(** ** The decode loop, key by key *)

Section Keys.

Variable table : gmap Z Z.

(** One turn of the loop on a key that has a signature. *)
Lemma decode_loop_signed (btn : tag) (k : string) (n : Z)
    (rest : list (tag * string)) (path_len : option Z)
    (mapping : gmap Z string) :
  signature btn = Some n ->
  decode_loop table ((btn, k) :: rest) path_len mapping
  = match table !! n with
    | Some d => decode_loop table rest (Some n) (<[d:=k]> mapping)
    | None => debug (unknown_len_msg n) ;;
              decode_loop table rest (Some n) mapping
    end.
Proof.
  intros Hs. destruct (signature_inv btn n Hs) as (img & path & Hi & Hp & Hl).
  cbn [decode_loop]. rewrite Hi, Hp, Hl, bind_ret. reflexivity.
Qed.

(** Keys that all have a signature, none of which resolves to [d], leave
    the label of [d] as it is. *)
Lemma decode_loop_keeps (d : Z) (keys : list (tag * string)) :
  all_have_signatures keys ->
  (forall key, In key keys -> resolved table key <> Some d) ->
  forall path_len mapping,
    exists m : gmap Z string,
      ending (decode_loop table keys path_len mapping) = Val m
      /\ m !! d = mapping !! d.
Proof.
  induction 1 as [|[btn k] keys [n Hn] _ IH]; intros Hno pl mapping.
  - exists mapping. split; reflexivity.
  - cbn [fst] in Hn. rewrite (decode_loop_signed btn k n keys pl mapping Hn).
    assert (Hno' : forall key, In key keys -> resolved table key <> Some d)
      by (intros key Hin; apply Hno; right; exact Hin).
    assert (Hk : table !! n <> Some d).
    { specialize (Hno (btn, k) (or_introl eq_refl)).
      unfold resolved in Hno. cbn [fst] in Hno. rewrite Hn in Hno.
      exact Hno. }
    destruct (table !! n) as [d'|] eqn:Hd.
    + destruct (IH Hno' (Some n) (<[d':=k]> mapping)) as (m & Hm & Hl).
      exists m. split; [exact Hm|]. rewrite Hl.
      apply lookup_insert_ne. congruence.
    + destruct (IH Hno' (Some n) mapping) as (m & Hm & Hl).
      exists m. split; [|exact Hl]. rewrite ending_bind. exact Hm.
Qed.

(** [X15] When two keys resolve to the same digit the later one wins: if a
    key with label [k] resolves to [d], and the keys after it all have an
    image and none of them resolves to [d], the mapping returned gives [k]
    to [d], whatever label an earlier key had stored for it. *)
Theorem last_key_of_a_digit_wins (before after : list (tag * string))
    (btn : tag) (k : string) (d : Z) :
  decodable (before ++ (btn, k) :: after) ->
  resolved table (btn, k) = Some d ->
  all_have_signatures after ->
  (forall key, In key after -> resolved table key <> Some d) ->
  exists m : gmap Z string,
    ending (decode_loop table (before ++ (btn, k) :: after) None ∅) = Val m
    /\ m !! d = Some k.
Proof.
  intros [Hfirst Hsrc] Hres Hafter Hno.
  assert (Hsig : exists n, signature btn = Some n /\ table !! n = Some d).
  { unfold resolved in Hres. cbn [fst] in Hres.
    destruct (signature btn) as [n|]; [|discriminate]. exists n. auto. }
  destruct Hsig as (n & Hn & Hd).
  assert (Hgen : forall path_len mapping,
             (path_len = None ->
              first_has_image (before ++ (btn, k) :: after)) ->
             exists m : gmap Z string,
               ending (decode_loop table (before ++ (btn, k) :: after)
                         path_len mapping) = Val m
               /\ m !! d = Some k).
  { clear Hfirst. induction before as [|[b kb] before IH]; intros pl mapping Hf.
    - cbn [app]. rewrite (decode_loop_signed btn k n after pl mapping Hn), Hd.
      destruct (decode_loop_keeps d after Hafter Hno (Some n)
                  (<[d:=k]> mapping)) as (m & Hm & Hl).
      exists m. split; [exact Hm|]. rewrite Hl. apply lookup_insert_eq.
    - cbn [app] in *. apply Forall_cons in Hsrc as [Hb Hsrc].
      specialize (IH Hsrc). cbn [decode_loop].
      unfold image_has_src in Hb. cbn [fst] in Hb.
      destruct (tag_find (has_name "img") b) as [img|] eqn:Hi.
      + destruct Hb as [path Hp]. rewrite Hp, bind_ret.
        destruct (table !! PyStr.len path) as [d'|].
        * apply IH. discriminate.
        * destruct (IH (Some (PyStr.len path)) mapping) as (m & Hm & Hl);
            [discriminate|].
          exists m. split; [|exact Hl]. rewrite ending_bind. exact Hm.
      + rewrite bind_ret. destruct pl as [p|].
        * destruct (table !! p) as [d'|].
          -- apply IH. discriminate.
          -- destruct (IH (Some p) mapping) as (m & Hm & Hl);
               [discriminate|].
             exists m. split; [|exact Hl]. rewrite ending_bind. exact Hm.
        * specialize (Hf eq_refl). unfold first_has_image in Hf.
          cbn [fst] in Hf. rewrite Hi in Hf. destruct Hf as [x Hx].
          discriminate. }
  apply Hgen. intros _. exact Hfirst.
Qed.

(** [X16] When every key has an image with a reference, the loop logs one
    line for each key whose signature the table does not know, in the order
    of the keys, and nothing else: a resolved key leaves no trace, an
    unresolved one is never passed over in silence. *)
Theorem unknown_signatures_are_logged (keys : list (tag * string)) :
  all_have_signatures keys ->
  forall path_len mapping,
    trace (decode_loop table keys path_len mapping)
    = map (fun n => Debug (unknown_len_msg n)) (unknown_signatures table keys).
Proof.
  induction 1 as [|[btn k] keys [n Hn] _ IH]; intros pl mapping.
  - reflexivity.
  - cbn [fst] in Hn. rewrite (decode_loop_signed btn k n keys pl mapping Hn).
    unfold unknown_signatures. cbn [omap list_omap fst]. rewrite Hn.
    fold (unknown_signatures table keys).
    destruct (table !! n) as [d|].
    + apply IH.
    + unfold debug. rewrite bind_emit. cbn [trace fst map].
      rewrite IH. reflexivity.
Qed.

(** [X17] An image without a [src] stops the decoding: when the keys before
    it all have a signature, the loop raises the [TypeError] of [len(None)]
    at that key, and the keys after it are not looked at. *)
Theorem image_without_src_raises (before after : list (tag * string))
    (btn img : tag) (k : string) :
  all_have_signatures before ->
  tag_find (has_name "img") btn = Some img ->
  get img "src" = None ->
  forall path_len mapping,
    ending (decode_loop table (before ++ (btn, k) :: after) path_len mapping)
    = Raised (TypeError "object of type 'NoneType' has no len()")
    /\ trace (decode_loop table (before ++ (btn, k) :: after) path_len
                mapping)
       = map (fun n => Debug (unknown_len_msg n))
           (unknown_signatures table before).
Proof.
  intros Hb Hi Hs.
  induction Hb as [|[b kb] before [n Hn] _ IH]; intros pl mapping.
  - cbn [app decode_loop]. rewrite Hi, Hs. split; reflexivity.
  - cbn [app fst] in *.
    rewrite (decode_loop_signed b kb n _ pl mapping Hn).
    unfold unknown_signatures. cbn [omap list_omap fst]. rewrite Hn.
    fold (unknown_signatures table before).
    destruct (table !! n) as [d|].
    + apply IH.
    + unfold debug. rewrite bind_emit. cbn [trace ending fst snd map].
      destruct (IH (Some n) mapping) as [He Ht]. rewrite He, Ht.
      split; reflexivity.
Qed.

(** [X18] The decoder invents nothing: every entry of the mapping the loop
    returns was either in the mapping it started from, or pairs a digit
    that the table gives with the [data-matrix-key] of one of the keys. *)
Theorem decoded_entries_come_from_the_keys (keys : list (tag * string)) :
  forall path_len mapping m,
    ending (decode_loop table keys path_len mapping) = Val m ->
    forall d k,
      m !! d = Some k ->
      mapping !! d = Some k
      \/ (exists n, table !! n = Some d) /\ exists btn, In (btn, k) keys.
Proof.
  induction keys as [|[btn kb] keys IH]; intros pl mapping m Hm d k Hk.
  - injection Hm as <-. left; exact Hk.
  - cbn [decode_loop] in Hm.
    apply ending_bind_val in Hm as (pl' & _ & Hm).
    destruct pl' as [n|]; [|discriminate].
    destruct (table !! n) as [d'|] eqn:Hd.
    + destruct (IH _ _ _ Hm d k Hk) as [Hin|[Hn [b Hb]]].
      * destruct (decide (d' = d)) as [->|Hne].
        -- rewrite lookup_insert_eq in Hin. injection Hin as ->.
           right. split; [exists n; exact Hd|exists btn; left; reflexivity].
        -- rewrite lookup_insert_ne in Hin by exact Hne. left; exact Hin.
      * right. split; [exact Hn|exists b; right; exact Hb].
    + apply ending_bind_val in Hm as (_ & _ & Hm).
      destruct (IH _ _ _ Hm d k Hk) as [Hin|[Hn [b Hb]]].
      * left; exact Hin.
      * right. split; [exact Hn|exists b; right; exact Hb].
Qed.

End Keys.

Lemma last_key_of_a_digit_wins_witness :
  resolved B64_SVG_LEN_MAP (Scenario.key "BBB" 419, "BBB") = Some 0
  /\ exists m : gmap Z string,
       ending (decode_loop B64_SVG_LEN_MAP twin_keys None ∅) = Val m
       /\ m !! 0 = Some "BBB".
Proof.
  assert (Hr : resolved B64_SVG_LEN_MAP (Scenario.key "BBB" 419, "BBB")
               = Some 0) by (vm_compute; reflexivity).
  split; [exact Hr|].
  apply (last_key_of_a_digit_wins B64_SVG_LEN_MAP
           [(Scenario.key "AAA" 419, "AAA")] [] (Scenario.key "BBB" 419)
           "BBB" 0).
  - split; [vm_compute; eexists; reflexivity|].
    repeat (constructor; [vm_compute; eexists; reflexivity|]). constructor.
  - exact Hr.
  - constructor.
  - intros key [].
Defined.

Lemma unknown_signatures_are_logged_witness :
  all_have_signatures (keys_of Scenario.stale_keypad)
  /\ trace (decode_loop B64_SVG_LEN_MAP (keys_of Scenario.stale_keypad)
              None ∅)
     = [Debug "Unknown img/path length: 640. You may need to update B64_SVG_LEN_MAP.";
        Debug "Unknown img/path length: 777. You may need to update B64_SVG_LEN_MAP."].
Proof.
  assert (H : all_have_signatures (keys_of Scenario.stale_keypad)).
  { unfold all_have_signatures.
    repeat (constructor; [vm_compute; eexists; reflexivity|]). constructor. }
  split; [exact H|].
  rewrite (unknown_signatures_are_logged B64_SVG_LEN_MAP _ H None ∅).
  vm_compute. reflexivity.
Defined.

Lemma image_without_src_raises_witness :
  tag_find (has_name "img") srcless_key = Some (Tag "img" [("alt", "7")] [])
  /\ ending (decode_loop B64_SVG_LEN_MAP
               ([(Scenario.key "AAA" 419, "AAA")]
                ++ (srcless_key, "ZZZ") :: [(Scenario.key "BBB" 259, "BBB")])
               None ∅)
     = Raised (TypeError "object of type 'NoneType' has no len()").
Proof.
  split; [reflexivity|].
  refine (proj1 (image_without_src_raises B64_SVG_LEN_MAP
                   [(Scenario.key "AAA" 419, "AAA")]
                   [(Scenario.key "BBB" 259, "BBB")]
                   srcless_key (Tag "img" [("alt", "7")] []) "ZZZ"
                   _ eq_refl eq_refl None ∅)).
  repeat (constructor; [vm_compute; eexists; reflexivity|]). constructor.
Defined.

Lemma decoded_entries_come_from_the_keys_witness :
  ending (decode_loop B64_SVG_LEN_MAP twin_keys None ∅)
  = Val (<[0:="BBB"]> (<[0:="AAA"]> ∅))
  /\ ((∅ : gmap Z string) !! 0 = Some "BBB"
      \/ (exists n, B64_SVG_LEN_MAP !! n = Some 0)
         /\ exists btn, In (btn, "BBB") twin_keys).
Proof.
  assert (Hm : ending (decode_loop B64_SVG_LEN_MAP twin_keys None ∅)
               = Val (<[0:="BBB"]> (<[0:="AAA"]> ∅)))
    by (vm_compute; reflexivity).
  split; [exact Hm|].
  exact (decoded_entries_come_from_the_keys B64_SVG_LEN_MAP twin_keys None ∅
           _ Hm 0 "BBB" eq_refl).
Defined.

(** ** Snippets of response bodies *)

Lemma bind_cong {A B} (m : M A) (k k' : A -> M B) :
  (forall a, ending m = Val a -> k a = k' a) -> m ≫= k = m ≫= k'.
Proof.
  destruct m as [t [a| |e]]; intros H; try reflexivity.
  unfold mbind, M_bind. rewrite (H a eq_refl). reflexivity.
Qed.

Lemma bind_session_post {B} (url : string)
    (data : list (string * option string)) (headers : list (string * string))
    (r : Response) (k : Response -> M B) :
  session_post url data headers (Some r) ≫= k
  = (HttpPost url data headers :: trace (k r), ending (k r)).
Proof.
  unfold session_post, emit, mret, M_ret, mbind, M_bind. cbn.
  destruct (k r); reflexivity.
Qed.

Section Snippets.

Variable ext : Externals.
Variable w : World.
Variables r r' : Response.
Hypothesis same_status : status_code r = status_code r'.

(** A refused login: the stage looks at the status of the answer and at the
    first 400 characters of its body. *)
Lemma step3_login_refused (client_number numeric_password : string)
    (token : option string) (rc : Response) (mapping : gmap Z string) :
  (status_code r =? 200) || (status_code r =? 302) = false ->
  PyStr.take 400 (text r) = PyStr.take 400 (text r') ->
  step3_login ext (with_post_resp w (Some r)) client_number numeric_password
    token rc mapping
  = step3_login ext (with_post_resp w (Some r')) client_number
      numeric_password token rc mapping.
Proof.
  intros Hst Hsnip. unfold step3_login. cbn [post_resp with_post_resp].
  apply bind_cong; intros _ _.
  apply bind_cong; intros encoded_password _.
  apply bind_cong; intros _ _.
  apply bind_cong; intros _ _.
  rewrite !bind_session_post. rewrite <- same_status, Hst. cbn [negb].
  unfold login_failed_msg. rewrite <- same_status, Hsnip. reflexivity.
Qed.

(** A failed export: the stage looks at the status of the answer and at the
    first 500 characters of its body. *)
Lemma step4_export_failed (selected : string) (from_date to_date : datetime) :
  (status_code r =? 200) = false ->
  PyStr.take 500 (text r) = PyStr.take 500 (text r') ->
  step4_export ext (with_csv_resp w (Some r)) selected from_date to_date
  = step4_export ext (with_csv_resp w (Some r')) selected from_date to_date.
Proof.
  intros Hst Hsnip. unfold step4_export. cbn [csv_resp with_csv_resp].
  cbv zeta. apply bind_cong; intros _ _.
  rewrite !bind_session_get. rewrite <- same_status, Hst. cbn [negb].
  unfold csv_failed_msg. rewrite <- same_status, Hsnip. reflexivity.
Qed.

Lemma live_run_refused (client_number numeric_password account : string)
    (from_date to_date : datetime) :
  (status_code r =? 200) || (status_code r =? 302) = false ->
  PyStr.take 400 (text r) = PyStr.take 400 (text r') ->
  live_run ext (with_post_resp w (Some r)) client_number numeric_password
    account from_date to_date
  = live_run ext (with_post_resp w (Some r')) client_number numeric_password
      account from_date to_date.
Proof.
  intros Hst Hsnip. unfold live_run.
  change (step1_cookies ext (with_post_resp w (Some r)))
    with (step1_cookies ext (with_post_resp w (Some r'))).
  apply bind_cong; intros token _.
  change (step2_keypad ext (with_post_resp w (Some r)))
    with (step2_keypad ext (with_post_resp w (Some r'))).
  apply bind_cong; intros [rc mapping] _.
  rewrite (step3_login_refused _ _ _ _ _ Hst Hsnip). reflexivity.
Qed.

Lemma live_run_export_failed (client_number numeric_password account : string)
    (from_date to_date : datetime) :
  (status_code r =? 200) = false ->
  PyStr.take 500 (text r) = PyStr.take 500 (text r') ->
  live_run ext (with_csv_resp w (Some r)) client_number numeric_password
    account from_date to_date
  = live_run ext (with_csv_resp w (Some r')) client_number numeric_password
      account from_date to_date.
Proof.
  intros Hst Hsnip. unfold live_run.
  change (step1_cookies ext (with_csv_resp w (Some r)))
    with (step1_cookies ext (with_csv_resp w (Some r'))).
  apply bind_cong; intros token _.
  change (step2_keypad ext (with_csv_resp w (Some r)))
    with (step2_keypad ext (with_csv_resp w (Some r'))).
  apply bind_cong; intros [rc mapping] _.
  change (step3_login ext (with_csv_resp w (Some r)))
    with (step3_login ext (with_csv_resp w (Some r'))).
  apply bind_cong; intros _ _.
  change (step4_account ext (with_csv_resp w (Some r)))
    with (step4_account ext (with_csv_resp w (Some r'))).
  apply bind_cong; intros selected _.
  rewrite (step4_export_failed _ _ _ Hst Hsnip). reflexivity.
Qed.

End Snippets.

(** [X19] A refused login and a failed export show no more of the response
    body than a snippet: the whole run of [main], every line it logs or
    prints and the way it ends, is the same for two answers to the login
    submission with the same status, other than 200 and 302, whose bodies
    agree on their first 400 characters, whatever follows in either; and
    the same for two answers to the export request with the same status,
    other than 200, whose bodies agree on their first 500 characters. *)
Theorem refused_bodies_show_only_a_snippet (ext : Externals) (w : World)
    (dry_run : bool) (client_number numeric_password account : string)
    (from_date : datetime) (r r' : Response) :
  status_code r = status_code r' ->
  (status_code r <> 200 -> status_code r <> 302 ->
   PyStr.take 400 (text r) = PyStr.take 400 (text r') ->
   main ext (with_post_resp w (Some r)) dry_run client_number
     numeric_password account from_date
   = main ext (with_post_resp w (Some r')) dry_run client_number
       numeric_password account from_date)
  /\ (status_code r <> 200 ->
      PyStr.take 500 (text r) = PyStr.take 500 (text r') ->
      main ext (with_csv_resp w (Some r)) dry_run client_number
        numeric_password account from_date
      = main ext (with_csv_resp w (Some r')) dry_run client_number
          numeric_password account from_date).
Proof.
  intros Hsame. split.
  - intros H200 H302 Hsnip.
    assert (Hst : (status_code r =? 200) || (status_code r =? 302) = false).
    { apply orb_false_iff. split; apply Z.eqb_neq; assumption. }
    unfold main. cbn [today_to_date with_post_resp].
    rewrite (live_run_refused ext w r r' Hsame client_number
               numeric_password account from_date (today_to_date w) Hst
               Hsnip).
    reflexivity.
  - intros H200 Hsnip.
    assert (Hst : (status_code r =? 200) = false)
      by (apply Z.eqb_neq; assumption).
    unfold main. cbn [today_to_date with_csv_resp].
    rewrite (live_run_export_failed ext w r r' Hsame client_number
               numeric_password account from_date (today_to_date w) Hst
               Hsnip).
    reflexivity.
Qed.

Lemma refused_bodies_show_only_a_snippet_witness :
  text (mkResponse 500 (long_body "secret") None)
  <> text (mkResponse 500 (long_body "public") (Some "text/html"))
  /\ main Scenario.ext
       (with_post_resp Scenario.happy
          (Some (mkResponse 500 (long_body "secret") None)))
       false Scenario.client Scenario.pin "ACC-USER" Scenario.from_date
     = main Scenario.ext
         (with_post_resp Scenario.happy
            (Some (mkResponse 500 (long_body "public") (Some "text/html"))))
         false Scenario.client Scenario.pin "ACC-USER" Scenario.from_date.
Proof.
  split; [vm_compute; discriminate|].
  apply (proj1 (refused_bodies_show_only_a_snippet Scenario.ext
                  Scenario.happy false Scenario.client Scenario.pin
                  "ACC-USER" Scenario.from_date
                  (mkResponse 500 (long_body "secret") None)
                  (mkResponse 500 (long_body "public") (Some "text/html"))
                  eq_refl)).
  - cbn [status_code]. lia.
  - cbn [status_code]. lia.
  - vm_compute. reflexivity.
Defined.

(** ** The token extractor *)

Lemma find_some_In {A} (p : A -> bool) (l : list A) (x : A) :
  List.find p l = Some x -> In x l /\ p x = true.
Proof. apply List.find_some. Qed.

(** [X20] A token the extractor returns is never empty, and it is the
    [value] of an [input] element of the page whose [name] holds
    form[_token] or is exactly _token. *)
Theorem token_is_a_value_of_the_page (doc : soup) (v : string) :
  token_of_soup doc = Some v ->
  v <> ""
  /\ exists t name,
       In t (all_tags doc) /\ tag_name t = "input"
       /\ get t "value" = Some v /\ get t "name" = Some name
       /\ (PyStr.contains "form[_token]" name = true \/ name = "_token").
Proof.
  assert (Hin : forall (p : tag -> bool) t,
             soup_find p doc = Some t ->
             PyStr.truthy (get t "value") = true ->
             get t "value" = Some v ->
             (forall x, p x = true ->
                        has_name "input" x = true
                        /\ exists name,
                             get x "name" = Some name
                             /\ (PyStr.contains "form[_token]" name = true
                                 \/ name = "_token")) ->
             v <> ""
             /\ exists t name,
                  In t (all_tags doc) /\ tag_name t = "input"
                  /\ get t "value" = Some v /\ get t "name" = Some name
                  /\ (PyStr.contains "form[_token]" name = true
                      \/ name = "_token")).
  { intros p t Hf Ht Hv Hp. unfold soup_find in Hf.
    apply find_some_In in Hf as [Hit Hpt].
    destruct (Hp t Hpt) as (Hname & name & Hn & Hor).
    split.
    - rewrite Hv in Ht. intros ->. discriminate.
    - exists t, name. repeat split; auto.
      unfold has_name in Hname. apply String.eqb_eq in Hname. exact Hname. }
  assert (Hprimary : forall x,
             has_name "input" x && attr_search "name" "form[_token]" x = true ->
             has_name "input" x = true
             /\ exists name,
                  get x "name" = Some name
                  /\ (PyStr.contains "form[_token]" name = true
                      \/ name = "_token")).
  { intros x Hx. apply andb_true_iff in Hx as [H1 H2]. split; [exact H1|].
    unfold attr_search in H2. destruct (get x "name") as [name|];
      [|discriminate].
    exists name. auto. }
  assert (Hfallback : forall x,
             has_name "input" x && attr_is "name" "_token" x = true ->
             has_name "input" x = true
             /\ exists name,
                  get x "name" = Some name
                  /\ (PyStr.contains "form[_token]" name = true
                      \/ name = "_token")).
  { intros x Hx. apply andb_true_iff in Hx as [H1 H2]. split; [exact H1|].
    unfold attr_is in H2. destruct (get x "name") as [name|];
      [|discriminate].
    exists name. split; [reflexivity|]. right.
    apply String.eqb_eq in H2. exact H2. }
  unfold token_of_soup. intros H.
  destruct (soup_find (fun t => has_name "input" t
                                && attr_search "name" "form[_token]" t) doc)
    as [t1|] eqn:F1.
  - destruct (PyStr.truthy (get t1 "value")) eqn:T1.
    + exact (Hin _ t1 F1 T1 H Hprimary).
    + destruct (soup_find (fun t => has_name "input" t
                                    && attr_is "name" "_token" t) doc)
        as [t2|] eqn:F2; [|discriminate].
      destruct (PyStr.truthy (get t2 "value")) eqn:T2; [|discriminate].
      exact (Hin _ t2 F2 T2 H Hfallback).
  - destruct (soup_find (fun t => has_name "input" t
                                  && attr_is "name" "_token" t) doc)
      as [t2|] eqn:F2; [|discriminate].
    destruct (PyStr.truthy (get t2 "value")) eqn:T2; [|discriminate].
    exact (Hin _ t2 F2 T2 H Hfallback).
Qed.

Lemma token_is_a_value_of_the_page_witness :
  token_of_soup (Scenario.parser Scenario.login_page_with_token)
  = Some "tok42"
  /\ "tok42" <> "".
Proof.
  assert (H : token_of_soup (Scenario.parser Scenario.login_page_with_token)
              = Some "tok42") by (vm_compute; reflexivity).
  split; [exact H|].
  exact (proj1 (token_is_a_value_of_the_page _ _ H)).
Defined.
